(** * The recorder worker of [homeassistant/components/recorder/__init__.py]

    A shallow embedding of the [Recorder] thread: its filter, its
    connection-retry loop, the run bookkeeping, the start-up gate and the
    consume loop, together with the part of the SQLAlchemy session the
    code relies on.  Python objects become records, the [dict] carried by
    an event becomes a [gmap], and everything the thread does to the
    outside (queue, storage session, engine, notifications, sleeping) is
    written to a trace so that order and absence of calls can be stated. *)

From stdpp Require Import gmap strings list.

Local Open Scope Z_scope.

(** ** Constants

    The first five are imported from [homeassistant.const], which is not
    among the sources; they have the values of that module, and no
    property below depends on what the values are.  The last is defined
    at the head of the recorder module. *)

Definition ATTR_ENTITY_ID : string := "entity_id".
Definition CONF_ENTITIES : string := "entities".
Definition CONF_DOMAINS : string := "domains".
Definition EVENT_STATE_CHANGED : string := "state_changed".
Definition EVENT_TIME_CHANGED : string := "time_changed".
Definition CONNECT_RETRY_WAIT : Z := 10.

(** ** Data *)

(** [datetime] values are points on an integer time line. *)
Abbreviation datetime := Z (only parsing).

(** A bus event: [event.event_type], [event.data], [event.time_fired]. *)
Record Event := mkEvent {
  event_type : string;
  data : gmap string string;
  time_fired : datetime
}.

(** What the worker can take from its queue: [None] (the stop marker),
    the [purge_task] marker object, or a bus event. *)
Inductive Item :=
| ItemNone
| ItemPurge
| ItemEvent (event : Event).

(** ** Python list idioms used by the filter *)

(** [x in l] for a list of strings. *)
Definition py_in (x : string) (l : list string) : bool := bool_decide (x ∈ l).

(** Truth value of a list: non-empty. *)
Definition truthy (l : list string) : bool :=
  match l with [] => false | _ :: _ => true end.

(** [d.get(key, [])] on the include / exclude dictionaries. *)
Definition dict_get (d : gmap string (list string)) (key : string) : list string :=
  default [] (d !! key).

(** The three lists [Recorder.__init__] derives from the configuration. *)
Record FilterLists := mkFilterLists {
  include_e : list string;
  include_d : list string;
  exclude : list string
}.

Definition filter_lists (include exclude_ : gmap string (list string)) : FilterLists :=
  {| include_e := dict_get include CONF_ENTITIES;
     include_d := dict_get include CONF_DOMAINS;
     exclude := dict_get exclude_ CONF_ENTITIES ++ dict_get exclude_ CONF_DOMAINS |}.

(** ** The two filter tests of the consume loop *)

(** First test (lines 241-243): excluded entity, or excluded domain
    without a per-entity include. *)
Definition excluded (f : FilterLists) (entity_id domain : string) : bool :=
  py_in entity_id (exclude f)
  || (py_in domain (exclude f) && negb (py_in entity_id (include_e f))).

(** Second test (lines 249-251): included domains only, or included
    entities only when nothing is excluded. *)
Definition not_included (f : FilterLists) (entity_id domain : string) : bool :=
  (truthy (include_d f) && negb (py_in domain (include_d f)))
  || (truthy (include_e f) && negb (py_in entity_id (include_e f))
      && negb (truthy (exclude f))).

(** The four ordered rules of the specification, written as they are
    worded, over sets given by membership in the three lists. *)
Definition shouldRecord_rules (f : FilterLists) (e d : string) : bool :=
  if bool_decide (e ∈ exclude f ∨ (d ∈ exclude f ∧ (e ∉ include_e f))) then false
  else if bool_decide (include_d f ≠ [] ∧ (d ∉ include_d f)) then false
  else if bool_decide (include_e f ≠ [] ∧ (e ∉ include_e f) ∧ exclude f = []) then false
  else true.

(** ** Stored rows ([recorder/models.py]) *)

(** Modelled from the spec: the [Events] model class is not among the
    sources.  StoredEvent is a durable row {event_id (generated, unique),
    type, serialized data, time_fired}.  The primary key of an object is
    [None] until its INSERT has been emitted. *)
Record Events := mkEvents {
  event_id : option nat;
  events_event_type : string;
  event_data : gmap string string;
  events_time_fired : datetime
}.

(** Modelled from the spec: the [States] model class is not among the
    sources.  StoredState is a durable row {state_id, event_id (foreign
    key to StoredEvent), entity_id, state value, attributes, timestamps}. *)
Record States := mkStates {
  state_id : option nat;
  states_event_id : option nat;
  states_entity_id : option string;
  states_state : option string;
  states_attributes : gmap string string;
  last_updated : datetime
}.

(** Modelled from the spec: the [RecorderRuns] model class is not among
    the sources.  RunRecord is {run_id, start, end (nullable), created,
    closed_incorrect (bool, default false)}. *)
Record RecorderRuns := mkRecorderRuns {
  run_id : option nat;
  start : datetime;
  end_ : option datetime;
  closed_incorrect : bool;
  created : datetime
}.

(** Modelled from the spec: [Events.from_event] builds the row of an
    event from its type, data and firing time; the identifier is
    generated by the storage, not by the constructor. *)
Definition Events_from_event (event : Event) : Events :=
  {| event_id := None;
     events_event_type := event_type event;
     event_data := data event;
     events_time_fired := time_fired event |}.

(** Modelled from the spec: [States.from_event] builds the row of a
    state change from the entity identifier and the state payload of the
    event; neither of its two identifiers is set by the constructor. *)
Definition States_from_event (event : Event) : States :=
  {| state_id := None;
     states_event_id := None;
     states_entity_id := data event !! ATTR_ENTITY_ID;
     states_state := data event !! "new_state";
     states_attributes := data event;
     last_updated := time_fired event |}.

(** Attribute assignments on model objects. *)
Definition set_event_id (i : option nat) (e : Events) : Events :=
  {| event_id := i; events_event_type := events_event_type e;
     event_data := event_data e; events_time_fired := events_time_fired e |}.

Definition set_state_id (i : option nat) (s : States) : States :=
  {| state_id := i; states_event_id := states_event_id s;
     states_entity_id := states_entity_id s; states_state := states_state s;
     states_attributes := states_attributes s; last_updated := last_updated s |}.

Definition set_states_event_id (i : option nat) (s : States) : States :=
  {| state_id := state_id s; states_event_id := i;
     states_entity_id := states_entity_id s; states_state := states_state s;
     states_attributes := states_attributes s; last_updated := last_updated s |}.

Definition set_run_id (i : option nat) (r : RecorderRuns) : RecorderRuns :=
  {| run_id := i; start := start r; end_ := end_ r;
     closed_incorrect := closed_incorrect r; created := created r |}.

Definition set_end (t : option datetime) (r : RecorderRuns) : RecorderRuns :=
  {| run_id := run_id r; start := start r; end_ := t;
     closed_incorrect := closed_incorrect r; created := created r |}.

Definition set_closed_incorrect (b : bool) (r : RecorderRuns) : RecorderRuns :=
  {| run_id := run_id r; start := start r; end_ := end_ r;
     closed_incorrect := b; created := created r |}.

(** ** The database and the session *)

(** The three tables, each in storage order. *)
Record Database := mkDatabase {
  events : list Events;
  states : list States;
  recorder_runs : list RecorderRuns
}.

(** A generated integer primary key: one more than every key in use. *)
Definition fresh_id (ids : list (option nat)) : nat :=
  S (max_list (omap id ids)).

(** INSERT of a pending object: a missing primary key is generated. *)
Definition insert_event (e : Events) (tbl : list Events) : Events :=
  match event_id e with
  | Some _ => e
  | None => set_event_id (Some (fresh_id (event_id <$> tbl))) e
  end.

Definition insert_state (s : States) (tbl : list States) : States :=
  match state_id s with
  | Some _ => s
  | None => set_state_id (Some (fresh_id (state_id <$> tbl))) s
  end.

Definition insert_run (r : RecorderRuns) (tbl : list RecorderRuns) : RecorderRuns :=
  match run_id r with
  | Some _ => r
  | None => set_run_id (Some (fresh_id (run_id <$> tbl))) r
  end.

Fixpoint flush_events (pending : list Events) (tbl : list Events) : list Events :=
  match pending with
  | [] => tbl
  | e :: pending' => flush_events pending' (tbl ++ [insert_event e tbl])
  end.

Fixpoint flush_states (pending : list States) (tbl : list States) : list States :=
  match pending with
  | [] => tbl
  | s :: pending' => flush_states pending' (tbl ++ [insert_state s tbl])
  end.

(** For runs the flushed objects are returned as well: the caller keeps
    a reference to the object it added and reads it after the flush. *)
Fixpoint flush_runs (pending : list RecorderRuns) (tbl : list RecorderRuns)
  : list RecorderRuns * list RecorderRuns :=
  match pending with
  | [] => ([], tbl)
  | r :: pending' =>
      let r' := insert_run r tbl in
      let '(flushed, tbl') := flush_runs pending' (tbl ++ [r']) in
      (r' :: flushed, tbl')
  end.

(** A session is a unit of work inside one transaction: [tx] is the
    database as the transaction sees it, the three lists are the objects
    added and not yet flushed ([session.add] emits nothing by itself),
    and [stale] records an UPDATE by primary key that matched no row,
    which makes the commit raise. *)
Record Session := mkSession {
  tx : Database;
  new_events : list Events;
  new_states : list States;
  new_runs : list RecorderRuns;
  stale : bool
}.

Definition session_begin (db : Database) : Session :=
  {| tx := db; new_events := []; new_states := []; new_runs := []; stale := false |}.

(** [session.add(obj)] for a new object: the object becomes pending. *)
Definition session_add_event (e : Events) (s : Session) : Session :=
  {| tx := tx s; new_events := new_events s ++ [e]; new_states := new_states s;
     new_runs := new_runs s; stale := stale s |}.

Definition session_add_state (st : States) (s : Session) : Session :=
  {| tx := tx s; new_events := new_events s; new_states := new_states s ++ [st];
     new_runs := new_runs s; stale := stale s |}.

Definition session_add_run (r : RecorderRuns) (s : Session) : Session :=
  {| tx := tx s; new_events := new_events s; new_states := new_states s;
     new_runs := new_runs s ++ [r]; stale := stale s |}.

Definition set_tx_runs (runs : list RecorderRuns) (stale_ : bool) (s : Session) : Session :=
  {| tx := {| events := events (tx s); states := states (tx s); recorder_runs := runs |};
     new_events := new_events s; new_states := new_states s;
     new_runs := new_runs s; stale := stale_ |}.

(** [session.add(obj)] for a detached run whose [end] was assigned: the
    object is attached again and the changed column of its row, found by
    primary key, is updated from it. *)
Definition has_run_id (i : option nat) (r : RecorderRuns) : bool :=
  bool_decide (run_id r = i).

Definition update_run_end (r : RecorderRuns) (tbl : list RecorderRuns) : list RecorderRuns :=
  (λ row, if has_run_id (run_id r) row then set_end (end_ r) row else row) <$> tbl.

Definition session_add_detached_run (r : RecorderRuns) (s : Session) : Session :=
  let tbl := recorder_runs (tx s) in
  set_tx_runs (update_run_end r tbl)
              (stale s || negb (existsb (has_run_id (run_id r)) tbl)) s.

(** [session.flush()]: the pending objects are inserted into the
    transaction; the flushed run objects are handed back. *)
Definition session_flush (s : Session) : list RecorderRuns * Session :=
  let '(flushed, runs') := flush_runs (new_runs s) (recorder_runs (tx s)) in
  (flushed,
   {| tx := {| events := flush_events (new_events s) (events (tx s));
               states := flush_states (new_states s) (states (tx s));
               recorder_runs := runs' |};
      new_events := []; new_states := []; new_runs := []; stale := stale s |}).

(** ** The recorder object and the world around it *)

(** The two kinds of engine [_setup_connection] creates. *)
Inductive Engine :=
| StaticPoolEngine
| UrlEngine (url : string).

(** [scoped_session(sessionmaker(bind=engine))]. *)
Inductive SessionFactory :=
| scoped_session (bind : Engine).

(** The attributes of [self]. *)
Record Recorder := mkRecorder {
  purge_days : option Z;
  queue : list Item;
  unfinished_tasks : nat;
  recording_start : datetime;
  db_url : string;
  async_db_ready : bool;
  engine : option Engine;
  run_info : option RecorderRuns;
  filters : FilterLists;
  get_session : option SessionFactory
}.

(** Calls that leave the thread, in the order they are made. *)
Inductive Effect :=
| ECreateEngine
| ECreateAll
| EMigrateSchema
| ESetReady
| ELogError
| ELogWarning
| ESleep (seconds : Z)
| ENotify (message title : string)
| EAddJob
| EQueueGet
| ETaskDone
| EPurge (days : Z)
| EQuery
| EAdd
| EFlush
| EExpunge
| ECommit
| ERollback
| EClose
| EDispose.

(** The worker's state: [self], the stored tables, the trace, and how
    often the two oracles of the environment have been consulted. *)
Record World := mkWorld {
  self : Recorder;
  db : Database;
  trace : list Effect;
  calls : nat;
  clock_reads : nat
}.

(** The environment the thread cannot control: what [dt_util.utcnow()]
    returns at its n-th call, and whether the n-th call into the storage
    layer raises. *)
Record Env := mkEnv {
  utcnow_at : nat → datetime;
  raises_at : nat → bool
}.

Definition set_self (f : Recorder → Recorder) (w : World) : World :=
  {| self := f (self w); db := db w; trace := trace w;
     calls := calls w; clock_reads := clock_reads w |}.

Definition set_db (d : Database) (w : World) : World :=
  {| self := self w; db := d; trace := trace w;
     calls := calls w; clock_reads := clock_reads w |}.

Definition emit (tr : list Effect) (w : World) : World :=
  {| self := self w; db := db w; trace := trace w ++ tr;
     calls := calls w; clock_reads := clock_reads w |}.

Definition utcnow (env : Env) (w : World) : datetime * World :=
  (utcnow_at env (clock_reads w),
   {| self := self w; db := db w; trace := trace w;
      calls := calls w; clock_reads := S (clock_reads w) |}).

Definition raises (env : Env) (w : World) : bool * World :=
  (raises_at env (calls w),
   {| self := self w; db := db w; trace := trace w;
      calls := S (calls w); clock_reads := clock_reads w |}).

Definition with_queue (q : list Item) (n : nat) (r : Recorder) : Recorder :=
  {| purge_days := purge_days r; queue := q; unfinished_tasks := n;
     recording_start := recording_start r; db_url := db_url r;
     async_db_ready := async_db_ready r; engine := engine r;
     run_info := run_info r; filters := filters r; get_session := get_session r |}.

Definition with_async_db_ready (b : bool) (r : Recorder) : Recorder :=
  {| purge_days := purge_days r; queue := queue r; unfinished_tasks := unfinished_tasks r;
     recording_start := recording_start r; db_url := db_url r;
     async_db_ready := b; engine := engine r;
     run_info := run_info r; filters := filters r; get_session := get_session r |}.

Definition with_engine (e : option Engine) (r : Recorder) : Recorder :=
  {| purge_days := purge_days r; queue := queue r; unfinished_tasks := unfinished_tasks r;
     recording_start := recording_start r; db_url := db_url r;
     async_db_ready := async_db_ready r; engine := e;
     run_info := run_info r; filters := filters r; get_session := get_session r |}.

Definition with_run_info (i : option RecorderRuns) (r : Recorder) : Recorder :=
  {| purge_days := purge_days r; queue := queue r; unfinished_tasks := unfinished_tasks r;
     recording_start := recording_start r; db_url := db_url r;
     async_db_ready := async_db_ready r; engine := engine r;
     run_info := i; filters := filters r; get_session := get_session r |}.

Definition with_get_session (g : option SessionFactory) (r : Recorder) : Recorder :=
  {| purge_days := purge_days r; queue := queue r; unfinished_tasks := unfinished_tasks r;
     recording_start := recording_start r; db_url := db_url r;
     async_db_ready := async_db_ready r; engine := engine r;
     run_info := run_info r; filters := filters r; get_session := g |}.

(** [Recorder.__init__]; [now] is the value of [dt_util.utcnow()]. *)
Definition Recorder_init (now : datetime) (purge_days_ : option Z) (uri : string)
    (include exclude_ : gmap string (list string)) : Recorder :=
  {| purge_days := purge_days_;
     queue := [];
     unfinished_tasks := 0;
     recording_start := now;
     db_url := uri;
     async_db_ready := false;
     engine := None;
     run_info := None;
     filters := filter_lists include exclude_;
     get_session := None |}.

(** ** [queue.Queue] *)

(** [put]: append and count one more unfinished task. *)
Definition queue_put (x : Item) (r : Recorder) : Recorder :=
  with_queue (queue r ++ [x]) (S (unfinished_tasks r)) r.

(** [get]: the oldest item; [None] when the queue is empty and the call
    would block. *)
Definition queue_get (r : Recorder) : option (Item * Recorder) :=
  match queue r with
  | [] => None
  | x :: q => Some (x, with_queue q (unfinished_tasks r) r)
  end.

(** [task_done]: one unfinished task less; [None] stands for the
    [ValueError] of a call without a matching [get]. *)
Definition queue_task_done (r : Recorder) : option Recorder :=
  match unfinished_tasks r with
  | O => None
  | S n => Some (with_queue (queue r) n r)
  end.

(** [join] returns exactly when the count of unfinished tasks is zero. *)
Definition queue_join_returns (r : Recorder) : bool :=
  bool_decide (unfinished_tasks r = 0%nat).

(** [Recorder.event_listener] and [Recorder.block_till_done]. *)
Definition event_listener (event : Event) (w : World) : World :=
  set_self (queue_put (ItemEvent event)) w.

Definition block_till_done_returns (w : World) : bool :=
  queue_join_returns (self w).

(** ** Results of Python calls *)

(** A call returns a value or raises; either way the world has moved. *)
Inductive Py (A : Type) :=
| Return (a : A) (w : World)
| Raise (w : World).
Arguments Return {A} a w.
Arguments Raise {A} w.

(** How a [with session_scope(...)] block ends. *)
Inductive Scope (A : Type) :=
| BodyRaised
| CommitRaised
| Committed (a : A).
Arguments BodyRaised {A}.
Arguments CommitRaised {A}.
Arguments Committed {A} a.

(** Modelled from the spec: [session_scope] lives in [recorder/util.py],
    which is not among the sources.  It is a transactional scope around
    the body of the [with] statement: on normal exit the session is
    committed, when the body or the commit raises it is rolled back and
    the exception goes on, and the session is released on every exit
    path.  The environment decides whether the storage layer raises at
    the start of the body and at the commit; a body that raises by
    itself (result [None]) does so at its first statement. *)
Definition session_scope {A : Type} (env : Env)
    (body : Session → World → option (A * Session * World)) (w : World)
  : Scope A * World :=
  let '(body_raises, w) := raises env w in
  match (if body_raises then None else body (session_begin (db w)) w) with
  | None => (BodyRaised, emit [ERollback; EClose] w)
  | Some (a, session, w) =>
      let '(commit_raises, w) := raises env w in
      let '(_, session) := session_flush session in
      if commit_raises || stale session
      then (CommitRaised, emit [ERollback; EClose] w)
      else (Committed a, set_db (tx session) (emit [ECommit; EClose] w))
  end.

(** ** Connection and run bookkeeping *)

(** [':memory:' in self.db_url]. *)
Definition contains (needle hay : string) : bool :=
  match String.index 0 needle hay with Some _ => true | None => false end.

(** [Recorder._setup_connection].  [create_engine] is called first and
    may raise (a URL that cannot be parsed, a driver that is missing);
    [self.engine] is assigned only when it has returned.  Creating the
    tables may raise as well, with the engine already assigned; the
    session factory is assigned last. *)
Definition _setup_connection (env : Env) (w : World) : Py unit :=
  let url := db_url (self w) in
  let eng := if String.eqb url "sqlite://" || contains ":memory:" url
             then StaticPoolEngine else UrlEngine url in
  let '(create_engine_raises, w) := raises env w in
  if create_engine_raises then Raise w
  else
    let w := emit [ECreateEngine] (set_self (with_engine (Some eng)) w) in
    let '(create_all_raises, w) := raises env w in
    if create_all_raises then Raise w
    else Return tt (set_self (with_get_session (Some (scoped_session eng)))
                             (emit [ECreateAll] w)).

(** [migration.migrate_schema(self)]: an imported routine that changes
    the schema, not the rows, and may raise. *)
Definition migrate_schema (env : Env) (w : World) : Py unit :=
  let '(migration_raises, w) := raises env w in
  if migration_raises then Raise w else Return tt (emit [EMigrateSchema] w).

(** [Recorder._close_connection]. *)
Definition _close_connection (w : World) : Py unit :=
  match engine (self w) with
  | None => Raise w
  | Some _ =>
      Return tt (set_self (with_get_session None)
                  (set_self (with_engine None) (emit [EDispose] w)))
  end.

(** [filter_by(end=None)]. *)
Definition end_is_None (run : RecorderRuns) : bool :=
  match end_ run with None => true | Some _ => false end.

(** The body of the [for] loop of [_setup_run], on one loaded row. *)
Definition end_unfinished (recording_start_ : datetime) (run : RecorderRuns) : RecorderRuns :=
  set_end (Some recording_start_) (set_closed_incorrect true run).

(** [Recorder._setup_run].  The rows the query loads are changed in
    place, the new run is added, flushed (which gives it its [run_id])
    and expunged, so that [self.run_info] stays readable after the scope
    has ended. *)
Definition _setup_run (env : Env) (w : World) : Py unit :=
  match get_session (self w) with
  | None => Raise w
  | Some _ =>
      let '(res, w) :=
        session_scope env (λ session w,
          let runs := recorder_runs (tx session) in
          let unfinished := List.filter end_is_None runs in
          let session :=
            set_tx_runs
              ((λ run, if end_is_None run
                       then end_unfinished (recording_start (self w)) run else run)
                 <$> runs)
              (stale session) session in
          let w := emit ([EQuery] ++ flat_map (λ _, [ELogWarning; EAdd]) unfinished) w in
          let '(now, w) := utcnow env w in
          let run_info_ :=
            {| run_id := None; start := recording_start (self w); end_ := None;
               closed_incorrect := false; created := now |} in
          let session := session_add_run run_info_ session in
          let '(flushed, session) := session_flush session in
          let w := set_self (with_run_info (Some (default run_info_ (last flushed)))) w in
          Some (tt, session, emit [EAdd; EFlush; EExpunge] w)) w in
      match res with
      | Committed _ => Return tt w
      | _ => Raise w
      end
  end.

(** [Recorder._close_run]. *)
Definition _close_run (env : Env) (w : World) : Py unit :=
  match get_session (self w) with
  | None => Raise w
  | Some _ =>
      let '(res, w) :=
        session_scope env (λ session w,
          match run_info (self w) with
          | None => None
          | Some run_info_ =>
              let '(now, w) := utcnow env w in
              let run_info_ := set_end (Some now) run_info_ in
              let w := set_self (with_run_info (Some run_info_)) w in
              Some (tt, session_add_detached_run run_info_ session, emit [EAdd] w)
          end) w in
      match res with
      | Committed _ => Return tt (set_self (with_run_info None) w)
      | _ => Raise w
      end
  end.

(** ** Connection setup with retries (lines 159-174) *)

(** [locals().setdefault('retry', 10)]: [locals()] shows the function's
    variables that are bound at the time of the call, so the default is
    taken only while [retry] has never been assigned. *)
Definition locals_setdefault (retry : option Z) (default_ : Z) : Z :=
  match retry with
  | Some v => v
  | None => default_
  end.

(** The [try] block. *)
Definition try_setup (env : Env) (w : World) : Py unit :=
  match _setup_connection env w with
  | Raise w => Raise w
  | Return _ w =>
      match migrate_schema env w with
      | Raise w => Raise w
      | Return _ w =>
          match _setup_run env w with
          | Raise w => Raise w
          | Return _ w =>
              Return tt (set_self (with_async_db_ready true) (emit [ESetReady] w))
          end
      end
  end.

(** The [while True] loop around it.  [retry] is the local variable of
    that name, unbound before the first failure.  The result is [true]
    after the [break], [false] after the [return] of the fatal path, and
    [None] when the fuel does not cover the loop. *)
Fixpoint connect_loop (env : Env) (fuel : nat) (retry : option Z) (w : World)
  : option (bool * World) :=
  match fuel with
  | O => None
  | S fuel' =>
      match try_setup env w with
      | Return _ w => Some (true, w)
      | Raise w =>
          let w := emit [ELogError; ESleep CONNECT_RETRY_WAIT] w in
          let retry_ := locals_setdefault retry 10 - 1 in
          if retry_ =? 0
          then Some (false,
                     emit [ENotify "The recorder could not start, please check the log"
                                   "Recorder"] w)
          else connect_loop env fuel' (Some retry_) w
      end
  end.

(** ** The start-up gate (lines 176-218) *)

(** What the host does, on its own threads, while the worker waits at
    the gate: it calls the one-time listener of the start or of the stop
    event, it delivers a bus event to [event_listener] (the listener for
    all events, installed by [async_initialize]), or its timer calls
    [do_purge]. *)
Inductive HostSignal :=
| HOMEASSISTANT_START
| HOMEASSISTANT_STOP
| BUS_EVENT (event : Event)
| TIME_INTERVAL.

(** What [hass_started] can be resolved with. *)
Inductive Started :=
| result_None
| shutdown_task.

(** The future and the listeners [register] installs. *)
Record Gate := mkGate {
  hass_started : option Started;
  stop_listener : bool;
  start_listener : bool;
  purge_timer : bool
}.

(** [register()]: [running] is [self.hass.state == CoreState.running]. *)
Definition register (running : bool) (purge_days_ : option Z) : Gate :=
  {| hass_started := if running then Some result_None else None;
     stop_listener := true;
     start_listener := negb running;
     purge_timer := match purge_days_ with Some _ => true | None => false end |}.

(** [set_result] on a future that is already done raises in the
    callback and leaves the future as it is. *)
Definition set_result (r : Started) (fut : option Started) : option Started :=
  match fut with
  | None => Some r
  | Some _ => fut
  end.

(** [shutdown(event)] up to the [join], which only waits. *)
Definition shutdown (g : Gate) (w : World) : Gate * World :=
  ({| hass_started := match hass_started g with
                      | None => set_result shutdown_task (hass_started g)
                      | Some _ => hass_started g
                      end;
      stop_listener := false;
      start_listener := start_listener g;
      purge_timer := purge_timer g |},
   set_self (queue_put ItemNone) w).

Definition notify_hass_started (g : Gate) : Gate :=
  {| hass_started := set_result result_None (hass_started g);
     stop_listener := stop_listener g;
     start_listener := false;
     purge_timer := purge_timer g |}.

(** [do_purge(now)]. *)
Definition do_purge (w : World) : World := set_self (queue_put ItemPurge) w.

(** One call of the host. *)
Definition fire (sig : HostSignal) (g : Gate) (w : World) : Gate * World :=
  match sig with
  | HOMEASSISTANT_STOP => if stop_listener g then shutdown g w else (g, w)
  | HOMEASSISTANT_START => if start_listener g then (notify_hass_started g, w) else (g, w)
  | BUS_EVENT event => (g, event_listener event w)
  | TIME_INTERVAL => if purge_timer g then (g, do_purge w) else (g, w)
  end.

(** [hass_started.result()]: the worker waits while the host makes its
    calls, and wakes up as soon as the future is done; [None] when the
    calls run out first and the wait never ends. *)
Fixpoint await_result (sigs : list HostSignal) (g : Gate) (w : World)
  : option Started * World :=
  match hass_started g with
  | Some r => (Some r, w)
  | None =>
      match sigs with
      | [] => (None, w)
      | sig :: sigs' => let '(g, w) := fire sig g w in await_result sigs' g w
      end
  end.

(** The host as the worker meets it after the connection is set up. *)
Record Host := mkHost {
  running : bool;
  signals : list HostSignal
}.

(** ** The consume loop (lines 220-264) *)

(** How [run] ends: it returns, an exception leaves it, it waits for
    ever, or the fuel of the model is used up. *)
Inductive Outcome :=
| Returned (w : World)
| Raised (w : World)
| Blocked (w : World)
| OutOfFuel (w : World).

(** One pass through the loop body: go round again, or leave [run]. *)
Inductive Step :=
| Continue (w : World)
| Stop (o : Outcome).

(** [self.queue.task_done()]. *)
Definition task_done (w : World) : Py unit :=
  match queue_task_done (self w) with
  | Some r => Return tt (emit [ETaskDone] (set_self (λ _, r) w))
  | None => Raise w
  end.

(** [self.queue.task_done(); continue]. *)
Definition task_done_continue (w : World) : Step :=
  match task_done w with
  | Return _ w => Continue w
  | Raise w => Stop (Raised w)
  end.

(** Lines 255-264: the per-event scope, then [task_done]. *)
Definition store (env : Env) (event : Event) (w : World) : Step :=
  match get_session (self w) with
  | None => Stop (Raised w)
  | Some _ =>
      let '(res, w) :=
        session_scope env (λ session w,
          let dbevent := Events_from_event event in
          let session := session_add_event dbevent session in
          let w := emit [EAdd] w in
          if String.eqb (event_type event) EVENT_STATE_CHANGED
          then
            let dbstate := States_from_event event in
            let dbstate := set_states_event_id (event_id dbevent) dbstate in
            Some (tt, session_add_state dbstate session, emit [EAdd] w)
          else Some (tt, session, w)) w in
      match res with
      | Committed _ => task_done_continue w
      | _ => Stop (Raised w)
      end
  end.

Section Worker.

(** [homeassistant.core.split_entity_id] is imported, not defined here:
    it splits an entity id into (domain, object id). *)
Variable split_entity_id : string → string * string.

(** [purge.purge_old_data] is imported, not defined here: the retention
    routine, which given the number of days to keep and the current time
    removes old rows of the events and states tables. *)
Variable purge_old_data :
  Z → datetime → list Events * list States → list Events * list States.

(** [purge.purge_old_data(self, self.purge_days)] as a call: it reads
    the clock and may raise, as any call into the storage layer. *)
Definition call_purge (env : Env) (w : World) : Py unit :=
  match purge_days (self w) with
  | None => Raise w
  | Some days =>
      let '(now, w) := utcnow env w in
      let '(purge_raises, w) := raises env w in
      if purge_raises then Raise w
      else
        let '(events_, states_) := purge_old_data days now (events (db w), states (db w)) in
        Return tt (emit [EPurge days]
                     (set_db {| events := events_; states := states_;
                                recorder_runs := recorder_runs (db w) |} w))
  end.

(** The body of the [while True] loop. *)
Definition loop_body (env : Env) (w : World) : Step :=
  match queue_get (self w) with
  | None => Stop (Blocked w)
  | Some (item, r) =>
      let w := emit [EQueueGet] (set_self (λ _, r) w) in
      match item with
      | ItemNone =>
          match _close_run env w with
          | Raise w => Stop (Raised w)
          | Return _ w =>
              match _close_connection w with
              | Raise w => Stop (Raised w)
              | Return _ w =>
                  match task_done w with
                  | Raise w => Stop (Raised w)
                  | Return _ w => Stop (Returned w)
                  end
              end
          end
      | ItemPurge =>
          match call_purge env w with
          | Raise w => Stop (Raised w)
          | Return _ w => Continue w
          end
      | ItemEvent event =>
          if String.eqb (event_type event) EVENT_TIME_CHANGED
          then task_done_continue w
          else
            match data event !! ATTR_ENTITY_ID with
            | Some entity_id =>
                let domain := fst (split_entity_id entity_id) in
                if excluded (filters (self w)) entity_id domain
                then task_done_continue w
                else if not_included (filters (self w)) entity_id domain
                then task_done_continue w
                else store env event w
            | None => store env event w
            end
      end
  end.

(** The loop itself. *)
Fixpoint consume (env : Env) (fuel : nat) (w : World) : Outcome :=
  match fuel with
  | O => OutOfFuel w
  | S fuel' =>
      match loop_body env w with
      | Continue w => consume env fuel' w
      | Stop o => o
      end
  end.

(** [Recorder.run]. *)
Definition run (env : Env) (host : Host) (fuel : nat) (w : World) : Outcome :=
  match connect_loop env fuel None w with
  | None => OutOfFuel w
  | Some (false, w) => Returned w
  | Some (true, w) =>
      let w := emit [EAddJob] w in
      match await_result (signals host) (register (running host) (purge_days (self w))) w with
      | (None, w) => Blocked w
      | (Some shutdown_task, w) => Returned w
      | (Some result_None, w) => consume env fuel w
      end
  end.

End Worker.

(** ** [run_information] *)

(** The filter of the query: [start < point_in_time] and
    [end > point_in_time]; a comparison with a null [end] is not true. *)
Definition covers (point_in_time : datetime) (run : RecorderRuns) : bool :=
  (start run <? point_in_time)
  && match end_ run with
     | Some e => e >? point_in_time
     | None => false
     end.

(** [run_information(hass, point_in_time)]; [ins] is [self w]. *)
Definition run_information (env : Env) (w : World) (point_in_time : option datetime)
  : Py (option RecorderRuns) :=
  if match point_in_time with
     | None => true
     | Some t => t >? recording_start (self w)
     end
  then Return (run_info (self w)) w
  else
    match point_in_time, get_session (self w) with
    | Some t, Some _ =>
        let '(scope, w) :=
          session_scope env (λ session w,
            let res := head (List.filter (covers t) (recorder_runs (tx session))) in
            let w := emit [EQuery] w in
            match res with
            | Some _ => Some (res, session, emit [EExpunge] w)
            | None => Some (res, session, w)
            end) w in
        match scope with
        | Committed res => Return res w
        | _ => Raise w
        end
    | _, _ => Raise w
    end.

(** The calls of the host that resolve nothing, and what each of them
    puts on the queue. *)
Definition is_traffic (sig : HostSignal) : bool :=
  match sig with
  | BUS_EVENT _ | TIME_INTERVAL => true
  | HOMEASSISTANT_START | HOMEASSISTANT_STOP => false
  end.

Definition queued_by (purge_days_ : option Z) (sig : HostSignal) : list Item :=
  match sig with
  | BUS_EVENT event => [ItemEvent event]
  | TIME_INTERVAL => match purge_days_ with Some _ => [ItemPurge] | None => [] end
  | HOMEASSISTANT_START | HOMEASSISTANT_STOP => []
  end.

(** Several [put]s in a row. *)
Definition enqueue (items : list Item) (w : World) : World :=
  set_self (λ r, foldl (λ r x, queue_put x r) r items) w.

(** ** Worlds reached from each other by the consume loop *)

(** [loop_reaches w w'] when the loop, started in [w], passes through or
    ends in [w']. *)
Inductive loop_reaches (split_entity_id : string → string * string)
    (purge_old_data : Z → datetime → list Events * list States → list Events * list States)
    (env : Env) : World → World → Prop :=
| reaches_here w : loop_reaches split_entity_id purge_old_data env w w
| reaches_continue w w1 w' :
    loop_body split_entity_id purge_old_data env w = Continue w1 →
    loop_reaches split_entity_id purge_old_data env w1 w' →
    loop_reaches split_entity_id purge_old_data env w w'
| reaches_return w w' :
    loop_body split_entity_id purge_old_data env w = Stop (Returned w') →
    loop_reaches split_entity_id purge_old_data env w w'.

(** The stored runs whose [end] is still null. *)
Definition unfinished_runs (d : Database) : list RecorderRuns :=
  List.filter end_is_None (recorder_runs d).


(** ** Invariants of the worker *)

(** The current run is tracked: [self.run_info] is the one stored run
    without an end. *)
Definition run_tracked (w : World) : Prop :=
  ∃ run, run_info (self w) = Some run ∧ is_Some (run_id run) ∧
         unfinished_runs (db w) = [run].

(** The state the worker is in between a successful start-up and the
    stop marker: connected, with its current run tracked. *)
Definition serving (w : World) : Prop :=
  is_Some (get_session (self w)) ∧ is_Some (engine (self w)) ∧ run_tracked w.

(** Every queued item has been counted by its [put]. *)
Definition counted (w : World) : Prop :=
  (length (queue (self w)) ≤ unfinished_tasks (self w))%nat.

(** ** Reading traces *)

(** The world a call ends in, whether it returned or raised. *)
Definition py_world {A : Type} (p : Py A) : World :=
  match p with
  | Return _ w => w
  | Raise w => w
  end.

(** The effects of the three set-up routines of the [try] block. *)
Definition setup_effect (e : Effect) : bool :=
  match e with
  | ECreateEngine | ECreateAll | EMigrateSchema | EQuery | ELogWarning
  | EAdd | EFlush | EExpunge | ECommit | ERollback | EClose => true
  | _ => false
  end.

Definition is_sleep (e : Effect) : bool :=
  match e with ESleep _ => true | _ => false end.

Definition is_ready (e : Effect) : bool :=
  match e with ESetReady => true | _ => false end.

Definition is_notify (e : Effect) : bool :=
  match e with ENotify _ _ => true | _ => false end.

(** [w'] comes from [w] by set-up work only: the trace has grown by
    set-up effects, and the queue, the readiness flag and the
    configuration are as they were. *)
Definition setup_step (w w' : World) : Prop :=
  (∃ tr, trace w' = trace w ++ tr ∧ Forall (λ e, setup_effect e = true) tr)
  ∧ queue (self w') = queue (self w)
  ∧ unfinished_tasks (self w') = unfinished_tasks (self w)
  ∧ async_db_ready (self w') = async_db_ready (self w)
  ∧ recording_start (self w') = recording_start (self w)
  ∧ filters (self w') = filters (self w)
  ∧ purge_days (self w') = purge_days (self w)
  ∧ events (db w') = events (db w)
  ∧ states (db w') = states (db w).

(** The effects of the whole start-up: set-up work, and the logging,
    sleeping, readiness signal and notification of the retry loop. *)
Definition startup_effect (e : Effect) : bool :=
  match e with
  | ELogError | ESleep _ | ESetReady | ENotify _ _ => true
  | _ => setup_effect e
  end.

(** ** Instances for worked examples *)

(** An entity id split at its first dot. *)
Fixpoint before_dot (s : string) : string :=
  match s with
  | EmptyString => EmptyString
  | String c s' =>
      if String.eqb (String c EmptyString) "." then EmptyString
      else String c (before_dot s')
  end.

Fixpoint after_dot (s : string) : string :=
  match s with
  | EmptyString => EmptyString
  | String c s' => if String.eqb (String c EmptyString) "." then s' else after_dot s'
  end.

Definition split_at_dot (s : string) : string * string := (before_dot s, after_dot s).

(** A retention routine that keeps the rows of the last [days] days. *)
Definition purge_older (days : Z) (now : datetime) (t : list Events * list States)
  : list Events * list States :=
  (List.filter (λ e, now - days * 86400 <=? events_time_fired e) (fst t),
   List.filter (λ s, now - days * 86400 <=? last_updated s) (snd t)).

(** A storage layer that never raises, and one that always does; the
    clock starts at 1000 and moves by one at every reading. *)
Definition calm : Env :=
  {| utcnow_at := λ n, 1000 + Z.of_nat n; raises_at := λ _, false |}.

Definition broken : Env :=
  {| utcnow_at := λ n, 1000 + Z.of_nat n; raises_at := λ _, true |}.

(** A storage layer that raises exactly at its [n]-th call. *)
Definition raising_at (n : nat) : Env :=
  {| utcnow_at := λ k, 1000 + Z.of_nat k; raises_at := λ k, bool_decide (k = n) |}.

Definition empty_db : Database :=
  {| events := []; states := []; recorder_runs := [] |}.

(** The world when the thread starts: a recorder fresh from
    [__init__], the items the listeners have queued so far, a database. *)
Definition start_world (now : datetime) (purge_days_ : option Z)
    (include exclude_ : gmap string (list string)) (items : list Item)
    (d : Database) : World :=
  enqueue items
    {| self := Recorder_init now purge_days_ "sqlite://" include exclude_;
       db := d; trace := []; calls := 0; clock_reads := 0 |}.

Definition state_changed (entity : string) (new_state : string) (t : datetime) : Event :=
  {| event_type := EVENT_STATE_CHANGED;
     data := {[ ATTR_ENTITY_ID := entity; "new_state" := new_state ]};
     time_fired := t |}.

Definition time_changed (t : datetime) : Event :=
  {| event_type := EVENT_TIME_CHANGED; data := ∅; time_fired := t |}.

Definition service_registered (t : datetime) : Event :=
  {| event_type := "service_registered";
     data := {[ "domain" := "light"; "service" := "turn_on" ]};
     time_fired := t |}.

(** A start-up in which nothing raises, and the worlds it leads to: one
    whose filter excludes the domain [light] and includes the entity
    [light.kitchen], and one without any filter. *)
Definition started (w : World) : World :=
  match connect_loop calm 1 None w with
  | Some (_, w') => w'
  | None => w
  end.

Definition kitchen_world (items : list Item) : World :=
  started (start_world 500 (Some 10)
             {[ CONF_ENTITIES := ["light.kitchen"] ]}
             {[ CONF_DOMAINS := ["light"] ]} items empty_db).

Definition plain_world (items : list Item) : World :=
  started (start_world 500 (Some 10) ∅ ∅ items empty_db).

(** A world whose filter includes the domain [sensor] only. *)
Definition sensor_world (items : list Item) : World :=
  started (start_world 500 (Some 10) {[ CONF_DOMAINS := ["sensor"] ]} ∅ items empty_db).

(** A database left behind by a session that crashed: its run was never
    ended.  And the world of the next session after its start-up. *)
Definition crashed_db : Database :=
  {| events := []; states := [];
     recorder_runs :=
       [ {| run_id := Some 1%nat; start := 100; end_ := Some 200;
            closed_incorrect := false; created := 100 |};
         {| run_id := Some 2%nat; start := 300; end_ := None;
            closed_incorrect := false; created := 300 |} ] |}.

Definition connected (w : World) : World := py_world (_setup_connection calm w).

Definition restart_world (items : list Item) : World :=
  start_world 500 (Some 10) ∅ ∅ items crashed_db.

Definition restarted_world (items : list Item) : World :=
  started (restart_world items).

(** ** Tactics *)

(** The four ways a pass over an event can go: a time tick, one of the
    two filter drops (all three end in [task_done; continue]), or the
    per-event scope.  [on_drop] closes the goals of the first kind,
    [on_store] those of the second. *)
Ltac event_branches on_drop on_store :=
  destruct (String.eqb _ EVENT_TIME_CHANGED); [on_drop|];
  destruct (data _ !! ATTR_ENTITY_ID); [|on_store];
  destruct (excluded _ _ _); [on_drop|];
  destruct (not_included _ _ _); [on_drop|on_store].

(** ** [async_setup] and [wait_connection_ready] *)

Definition DEFAULT_DB_FILE : string := "home-assistant_v2.db".

(** [DEFAULT_URL.format(hass_config_path=path)]. *)
Definition DEFAULT_URL_format (hass_config_path : string) : string :=
  "sqlite:///" ++ hass_config_path.

(** The recorder section of the configuration, a dictionary in which
    every key may be missing ([CONF_PURGE_DAYS], [CONF_DB_URL],
    [CONF_INCLUDE], [CONF_EXCLUDE]). *)
Record RecorderConf := mkRecorderConf {
  conf_purge_days : option Z;
  conf_db_url : option string;
  conf_include : option (gmap string (list string));
  conf_exclude : option (gmap string (list string))
}.

(** [config.get(DOMAIN, {})]. *)
Definition conf_of (config : option RecorderConf) : RecorderConf :=
  default {| conf_purge_days := None; conf_db_url := None;
             conf_include := None; conf_exclude := None |} config.

(** The [db_url] that [async_setup] hands to the recorder: the
    configured one unless it is missing or empty; [config_path] is
    [hass.config.path]. *)
Definition setup_db_url (config_path : string → string) (conf : RecorderConf) : string :=
  match conf_db_url conf with
  | Some (String c s) => String c s
  | _ => DEFAULT_URL_format (config_path DEFAULT_DB_FILE)
  end.

(** [async_setup(hass, config)] up to the start of the thread: the
    world in which [run] begins.  The clock is read once, by
    [Recorder.__init__]. *)
Definition async_setup (config_path : string → string) (env : Env)
    (config : option RecorderConf) (d : Database) : World :=
  let conf := conf_of config in
  {| self := Recorder_init (utcnow_at env 0) (conf_purge_days conf)
               (setup_db_url config_path conf)
               (default ∅ (conf_include conf)) (default ∅ (conf_exclude conf));
     db := d; trace := []; calls := 0; clock_reads := 1 |}.

(** [wait_connection_ready(hass)] waits on [async_db_ready]: it is done
    exactly when the flag is set. *)
Definition wait_connection_ready_done (w : World) : bool :=
  async_db_ready (self w).

(** ** Summaries of the loop used in statements *)

(** Whether the pass over [event] reaches the per-event scope: it is no
    time tick, and if it carries an entity id neither filter test drops
    it. *)
Definition accepted (split_entity_id : string → string * string)
    (f : FilterLists) (event : Event) : bool :=
  negb (String.eqb (event_type event) EVENT_TIME_CHANGED)
  && match data event !! ATTR_ENTITY_ID with
     | Some entity_id =>
         negb (excluded f entity_id (fst (split_entity_id entity_id)))
         && negb (not_included f entity_id (fst (split_entity_id entity_id)))
     | None => true
     end.

Definition is_purge (item : Item) : bool :=
  match item with ItemPurge => true | _ => false end.

Definition is_stop (item : Item) : bool :=
  match item with ItemNone => true | _ => false end.

(** All the calls of the host, one after the other. *)
Fixpoint deliver (sigs : list HostSignal) (g : Gate) (w : World) : Gate * World :=
  match sigs with
  | [] => (g, w)
  | sig :: sigs' => let '(g, w) := fire sig g w in deliver sigs' g w
  end.

(** ** Further instances *)

(** The world an outcome or a pass of the loop ends in. *)
Definition outcome_world (o : Outcome) : World :=
  match o with
  | Returned w | Raised w | Blocked w | OutOfFuel w => w
  end.

Definition step_world (s : Step) : World :=
  match s with
  | Continue w => w
  | Stop o => outcome_world o
  end.

(** A world whose filter includes the domain [light] and the entity
    [light.attic], and excludes that same entity. *)
Definition attic_world (items : list Item) : World :=
  started (start_world 500 (Some 10)
             {[ CONF_ENTITIES := ["light.attic"]; CONF_DOMAINS := ["light"] ]}
             {[ CONF_ENTITIES := ["light.attic"] ]} items empty_db).

(** The session that follows on the database [d]. *)
Definition next_session (d : Database) : World :=
  start_world 600 (Some 10) ∅ ∅ [] d.

(** [serving] of a closed world, by evaluation. *)
Ltac serving_by_computation :=
  split; [vm_compute; eauto|];
  split; [vm_compute; eauto|];
  eexists; split; [vm_compute; reflexivity|];
  split; [vm_compute; eauto|vm_compute; reflexivity].

(** ** The failed passes of the set-up loop *)

(** The world after [n] passes of the set-up loop that all failed: in
    each of them the [try] block raised and the handler logged the
    error and slept; [None] when one of these passes did not fail. *)
Fixpoint after_failures (env : Env) (n : nat) (w : World) : option World :=
  match n with
  | O => Some w
  | S n' =>
      match try_setup env w with
      | Raise w1 =>
          after_failures env n' (emit [ELogError; ESleep CONNECT_RETRY_WAIT] w1)
      | Return _ _ => None
      end
  end.

(** A storage layer in which every second call raises: in every
    attempt [create_engine] returns and creating the tables raises. *)
Definition stumbling : Env :=
  {| utcnow_at := λ n, 1000 + Z.of_nat n; raises_at := Nat.odd |}.

(** A recorder configured with an in-memory database, before its
    thread starts. *)
Definition memory_world : World :=
  async_setup (λ p, p) calm
    (Some {| conf_purge_days := None; conf_db_url := Some "sqlite:///:memory:";
             conf_include := None; conf_exclude := None |})
    empty_db.

(** * Properties *)

(** ** Small facts about the Python idioms *)

Lemma py_in_decide (x : string) (l : list string) : py_in x l = true ↔ x ∈ l.
Proof. unfold py_in. apply bool_decide_eq_true. Qed.

Lemma py_in_false (x : string) (l : list string) : py_in x l = false ↔ x ∉ l.
Proof. unfold py_in. apply bool_decide_eq_false. Qed.

Lemma truthy_nonempty (l : list string) : truthy l = true ↔ l ≠ [].
Proof. destruct l; simpl; split; congruence. Qed.

Lemma truthy_empty (l : list string) : truthy l = false ↔ l = [].
Proof. destruct l; simpl; split; congruence. Qed.

Lemma excluded_rule1 (f : FilterLists) (e d : string) :
  excluded f e d = bool_decide (e ∈ exclude f ∨ (d ∈ exclude f ∧ (e ∉ include_e f))).
Proof.
  unfold excluded.
  destruct (py_in e (exclude f)) eqn:He; simpl.
  - apply py_in_decide in He. symmetry. apply bool_decide_eq_true. by left.
  - apply py_in_false in He.
    destruct (py_in d (exclude f)) eqn:Hd; simpl.
    + apply py_in_decide in Hd.
      destruct (py_in e (include_e f)) eqn:Hi; simpl; symmetry.
      * apply py_in_decide in Hi. apply bool_decide_eq_false. tauto.
      * apply py_in_false in Hi. apply bool_decide_eq_true. tauto.
    + apply py_in_false in Hd. symmetry. apply bool_decide_eq_false. tauto.
Qed.

Lemma not_included_rules23 (f : FilterLists) (e d : string) :
  not_included f e d =
  bool_decide (include_d f ≠ [] ∧ (d ∉ include_d f))
  || bool_decide (include_e f ≠ [] ∧ (e ∉ include_e f) ∧ exclude f = []).
Proof.
  unfold not_included. f_equal.
  - destruct (truthy (include_d f)) eqn:Ht; simpl.
    + apply truthy_nonempty in Ht.
      destruct (py_in d (include_d f)) eqn:Hd; simpl; symmetry.
      * apply py_in_decide in Hd. apply bool_decide_eq_false. tauto.
      * apply py_in_false in Hd. by apply bool_decide_eq_true.
    + apply truthy_empty in Ht. symmetry. apply bool_decide_eq_false. tauto.
  - destruct (truthy (include_e f)) eqn:Ht; simpl.
    + apply truthy_nonempty in Ht.
      destruct (py_in e (include_e f)) eqn:He; simpl.
      * apply py_in_decide in He. symmetry. apply bool_decide_eq_false. tauto.
      * apply py_in_false in He.
        destruct (truthy (exclude f)) eqn:Hx; simpl; symmetry.
        -- apply truthy_nonempty in Hx. apply bool_decide_eq_false. tauto.
        -- apply truthy_empty in Hx. by apply bool_decide_eq_true.
    + apply truthy_empty in Ht. symmetry. apply bool_decide_eq_false. tauto.
Qed.

(** ** Facts about the queue *)

Lemma queue_get_inv (r0 r : Recorder) (x : Item) :
  queue_get r0 = Some (x, r) →
  queue r0 = x :: queue r ∧ r = with_queue (queue r) (unfinished_tasks r0) r0.
Proof.
  unfold queue_get. destruct (queue r0) as [|y q] eqn:Hq; [done|].
  intros [= <- <-]. done.
Qed.

Lemma task_done_positive (w : World) :
  (0 < unfinished_tasks (self w))%nat →
  task_done w =
  Return tt (emit [ETaskDone]
               (set_self (with_queue (queue (self w)) (Nat.pred (unfinished_tasks (self w)))) w)).
Proof.
  unfold task_done, queue_task_done. destruct (unfinished_tasks (self w)); [lia|]. done.
Qed.

(** ** The filter *)

(** C1. For a dequeued event that is not a time tick and carries an
    entity identifier [e] with domain [d], the loop body takes the
    recording path exactly when the four rules, applied in their order,
    say so, and otherwise drops the event; and an excluded domain is
    overridden for an entity listed in [include_entities] (unless rule 2
    on the included domains drops it). *)
Theorem C1_filter_decision_follows_rules
    (split_entity_id : string → string * string)
    (purge_old_data : Z → datetime → list Events * list States → list Events * list States)
    (env : Env) (w : World) (event : Event) (r : Recorder) (e : string) :
  queue_get (self w) = Some (ItemEvent event, r) →
  event_type event ≠ EVENT_TIME_CHANGED →
  data event !! ATTR_ENTITY_ID = Some e →
  let d := fst (split_entity_id e) in
  let f := filters (self w) in
  let w1 := emit [EQueueGet] (set_self (λ _, r) w) in
  loop_body split_entity_id purge_old_data env w =
    (if shouldRecord_rules f e d then store env event w1 else task_done_continue w1)
  ∧ (d ∈ exclude f → e ∉ exclude f → e ∈ include_e f →
     (include_d f = [] ∨ d ∈ include_d f) →
     loop_body split_entity_id purge_old_data env w = store env event w1).
Proof.
  intros Hget Htick He d f w1.
  assert (Hbody : loop_body split_entity_id purge_old_data env w =
    (if shouldRecord_rules f e d then store env event w1 else task_done_continue w1)).
  { unfold loop_body. rewrite Hget.
    apply String.eqb_neq in Htick. rewrite Htick, He.
    apply queue_get_inv in Hget as [_ Hr].
    assert (Hf : filters (self w1) = f) by (subst w1 f; simpl; by rewrite Hr).
    fold w1. cbv zeta. rewrite Hf. fold d.
    rewrite excluded_rule1, not_included_rules23.
    unfold shouldRecord_rules.
    destruct (bool_decide (e ∈ exclude f ∨ _)); [done|].
    destruct (bool_decide (include_d f ≠ [] ∧ _)); [done|].
    by destruct (bool_decide (include_e f ≠ [] ∧ _)). }
  split; [exact Hbody|].
  intros Hd Hne Hin Hdom. rewrite Hbody.
  unfold shouldRecord_rules.
  rewrite bool_decide_eq_false_2 by tauto.
  rewrite bool_decide_eq_false_2 by (destruct Hdom; tauto).
  rewrite bool_decide_eq_false_2 by tauto.
  done.
Qed.

(** ** Storing one event *)

(** What the per-event scope leaves behind when the storage layer does
    not raise: one more events row with a generated identifier, one more
    states row exactly for a state change, the runs untouched, the scope
    committed and closed, the task marked done. *)
Lemma store_commits (env : Env) (event : Event) (w : World) :
  is_Some (get_session (self w)) →
  raises_at env (calls w) = false →
  raises_at env (S (calls w)) = false →
  (0 < unfinished_tasks (self w))%nat →
  ∃ w',
    store env event w = Continue w'
    ∧ events (db w') =
        events (db w)
        ++ [set_event_id (Some (fresh_id (event_id <$> events (db w))))
                         (Events_from_event event)]
    ∧ states (db w') =
        states (db w)
        ++ (if String.eqb (event_type event) EVENT_STATE_CHANGED
            then [set_state_id (Some (fresh_id (state_id <$> states (db w))))
                               (set_states_event_id None (States_from_event event))]
            else [])
    ∧ recorder_runs (db w') = recorder_runs (db w)
    ∧ trace w' =
        trace w ++ [EAdd]
        ++ (if String.eqb (event_type event) EVENT_STATE_CHANGED then [EAdd] else [])
        ++ [ECommit; EClose; ETaskDone]
    ∧ self w' = with_queue (queue (self w)) (Nat.pred (unfinished_tasks (self w))) (self w).
Proof.
  intros [sf Hsf] Hb Hc Hpos.
  unfold store. rewrite Hsf.
  unfold session_scope, raises. simpl. rewrite Hb.
  destruct (String.eqb (event_type event) EVENT_STATE_CHANGED) eqn:Hty;
    simpl; rewrite Hc; simpl;
    unfold task_done_continue; rewrite task_done_positive by (simpl; lia);
    eexists; (split; [reflexivity|]); simpl;
    rewrite ?app_nil_r, <- ?app_assoc; simpl; done.
Qed.

(** The scope is released on the failing paths as well: when the body
    or the commit raises the session is rolled back and closed, nothing
    is stored, and the exception leaves [run]. *)
Lemma store_raises (env : Env) (event : Event) (w : World) :
  is_Some (get_session (self w)) →
  raises_at env (calls w) = true ∨ raises_at env (S (calls w)) = true →
  ∃ w' tr,
    store env event w = Stop (Raised w')
    ∧ db w' = db w
    ∧ trace w' = trace w ++ tr ++ [ERollback; EClose]
    ∧ ECommit ∉ tr.
Proof.
  intros [sf Hsf] Hr.
  unfold store. rewrite Hsf.
  unfold session_scope, raises. simpl.
  destruct (raises_at env (calls w)) eqn:Hb.
  - simpl. exists (emit [ERollback; EClose] (snd (raises env w))), [].
    split; [done|]. simpl. split; [done|]. split; [done|]. apply not_elem_of_nil.
  - destruct Hr as [Hr|Hr]; [done|].
    destruct (String.eqb (event_type event) EVENT_STATE_CHANGED) eqn:Hty;
      simpl; rewrite Hr; simpl; eexists; [exists [EAdd; EAdd] | exists [EAdd]];
      (split; [reflexivity|]); simpl; rewrite <- ?app_assoc; simpl;
      (split; [done|]); (split; [done|]);
      rewrite !not_elem_of_cons; repeat split; try discriminate; apply not_elem_of_nil.
Qed.

(** ** Time ticks and events without an entity *)

(** C8. A dequeued time-tick event is answered with [task_done] and
    nothing else, whatever its data and whatever the filter lists: the
    step is the same for every [split_entity_id], no call into the
    storage layer is made, the tables are unchanged, and the trace grows
    by the dequeue and the [task_done] only. *)
Theorem C8_time_tick_discarded
    (split_entity_id : string → string * string)
    (purge_old_data : Z → datetime → list Events * list States → list Events * list States)
    (env : Env) (w : World) (event : Event) (r : Recorder) :
  queue_get (self w) = Some (ItemEvent event, r) →
  event_type event = EVENT_TIME_CHANGED →
  loop_body split_entity_id purge_old_data env w
    = task_done_continue (emit [EQueueGet] (set_self (λ _, r) w))
  ∧ ∃ w',
      (loop_body split_entity_id purge_old_data env w = Continue w'
       ∧ trace w' = trace w ++ [EQueueGet; ETaskDone]
       ∨ loop_body split_entity_id purge_old_data env w = Stop (Raised w')
         ∧ trace w' = trace w ++ [EQueueGet])
      ∧ db w' = db w
      ∧ calls w' = calls w
      ∧ filters (self w') = filters (self w).
Proof.
  intros Hget Htick.
  assert (Hbody : loop_body split_entity_id purge_old_data env w
    = task_done_continue (emit [EQueueGet] (set_self (λ _, r) w))).
  { unfold loop_body. rewrite Hget.
    apply String.eqb_eq in Htick. by rewrite Htick. }
  split; [exact Hbody|]. rewrite Hbody.
  apply queue_get_inv in Hget as [_ Hr].
  unfold task_done_continue, task_done, queue_task_done. simpl.
  destruct (unfinished_tasks r) eqn:Hn.
  - eexists. split; [right; split; reflexivity|]. simpl. by rewrite Hr.
  - eexists. split; [left; split; [reflexivity|]|].
    + simpl. by rewrite <- app_assoc.
    + simpl. by rewrite Hr.
Qed.

(** C9. In a serving worker, a dequeued event that is not a time tick
    and carries no entity identifier goes to the per-event scope for
    every filter configuration, and when the storage layer does not
    raise during the pass it is stored exactly once: the events table
    grows by exactly its row, with a generated identifier. *)
Theorem C9_event_without_entity_is_stored
    (split_entity_id : string → string * string)
    (purge_old_data : Z → datetime → list Events * list States → list Events * list States)
    (env : Env) (w : World) (event : Event) (r : Recorder) :
  queue_get (self w) = Some (ItemEvent event, r) →
  event_type event ≠ EVENT_TIME_CHANGED →
  data event !! ATTR_ENTITY_ID = None →
  serving w → counted w →
  raises_at env (calls w) = false →
  raises_at env (S (calls w)) = false →
  ∃ w',
    loop_body split_entity_id purge_old_data env w = Continue w'
    ∧ events (db w') =
        events (db w)
        ++ [set_event_id (Some (fresh_id (event_id <$> events (db w))))
                         (Events_from_event event)]
    ∧ length (events (db w')) = S (length (events (db w)))
    ∧ filters (self w') = filters (self w).
Proof.
  intros Hget Htick Hno (Hsf & _ & _) Hcount Hb Hc.
  assert (Hpos : (0 < unfinished_tasks (self w))%nat).
  { apply queue_get_inv in Hget as [Hq _].
    unfold counted in Hcount. rewrite Hq in Hcount. simpl in Hcount. lia. }
  unfold loop_body. rewrite Hget.
  apply String.eqb_neq in Htick. rewrite Htick, Hno.
  apply queue_get_inv in Hget as [_ Hr].
  destruct (store_commits env event (emit [EQueueGet] (set_self (λ _, r) w)))
    as (w' & Hst & Hev & _ & _ & _ & Hself).
  - simpl. by rewrite Hr.
  - done.
  - done.
  - simpl. rewrite Hr. simpl. lia.
  - exists w'. split; [exact Hst|]. simpl in Hev. split; [exact Hev|].
    split.
    + rewrite Hev, length_app. simpl. lia.
    + rewrite Hself. simpl. by rewrite Hr.
Qed.

(** C1 at the kitchen light: excluded by its domain, included by name,
    and stored. *)
Lemma C1_filter_decision_follows_rules_witness :
  let w := kitchen_world [ItemEvent (state_changed "light.kitchen" "on" 501)] in
  let event := state_changed "light.kitchen" "on" 501 in
  let r := with_queue [] 1%nat (self w) in
  let w1 := emit [EQueueGet] (set_self (λ _, r) w) in
  (queue_get (self w) = Some (ItemEvent event, r)
   ∧ event_type event ≠ EVENT_TIME_CHANGED
   ∧ data event !! ATTR_ENTITY_ID = Some "light.kitchen")
  ∧ loop_body split_at_dot purge_older calm w = store calm event w1.
Proof.
  intros w event r w1.
  assert (H1 : queue_get (self w) = Some (ItemEvent event, r)) by (vm_compute; reflexivity).
  assert (H2 : event_type event ≠ EVENT_TIME_CHANGED) by discriminate.
  assert (H3 : data event !! ATTR_ENTITY_ID = Some "light.kitchen") by (vm_compute; reflexivity).
  split; [split; [exact H1 | split; [exact H2 | exact H3]]|].
  pose proof (proj1 (C1_filter_decision_follows_rules split_at_dot purge_older calm
                       w event r "light.kitchen" H1 H2 H3)) as H.
  assert (Hrule : shouldRecord_rules (filters (self w)) "light.kitchen"
                    (fst (split_at_dot "light.kitchen")) = true)
    by (vm_compute; reflexivity).
  cbv zeta in H. rewrite Hrule in H. exact H.
Defined.

(** C8 at one time tick in the queue of a started worker. *)
Lemma C8_time_tick_discarded_witness :
  let w := kitchen_world [ItemEvent (time_changed 501)] in
  let r := with_queue [] 1%nat (self w) in
  (queue_get (self w) = Some (ItemEvent (time_changed 501), r)
   ∧ event_type (time_changed 501) = EVENT_TIME_CHANGED)
  ∧ loop_body split_at_dot purge_older calm w
    = task_done_continue (emit [EQueueGet] (set_self (λ _, r) w)).
Proof.
  intros w r.
  assert (H1 : queue_get (self w) = Some (ItemEvent (time_changed 501), r))
    by (vm_compute; reflexivity).
  assert (H2 : event_type (time_changed 501) = EVENT_TIME_CHANGED) by reflexivity.
  split; [split; [exact H1 | exact H2]|].
  exact (proj1 (C8_time_tick_discarded split_at_dot purge_older calm w
                  (time_changed 501) r H1 H2)).
Defined.

(** C9 at a [service_registered] event, under a filter that excludes the
    domain [light]. *)
Lemma C9_event_without_entity_is_stored_witness :
  let w := kitchen_world [ItemEvent (service_registered 501)] in
  let event := service_registered 501 in
  let r := with_queue [] 1%nat (self w) in
  (queue_get (self w) = Some (ItemEvent event, r)
   ∧ event_type event ≠ EVENT_TIME_CHANGED
   ∧ data event !! ATTR_ENTITY_ID = None
   ∧ serving w ∧ counted w
   ∧ raises_at calm (calls w) = false
   ∧ raises_at calm (S (calls w)) = false)
  ∧ ∃ w',
      loop_body split_at_dot purge_older calm w = Continue w'
      ∧ events (db w') =
          events (db w)
          ++ [set_event_id (Some (fresh_id (event_id <$> events (db w))))
                           (Events_from_event event)]
      ∧ length (events (db w')) = S (length (events (db w)))
      ∧ filters (self w') = filters (self w).
Proof.
  intros w event r.
  assert (H1 : queue_get (self w) = Some (ItemEvent event, r)) by (vm_compute; reflexivity).
  assert (H2 : event_type event ≠ EVENT_TIME_CHANGED) by discriminate.
  assert (H3 : data event !! ATTR_ENTITY_ID = None) by (vm_compute; reflexivity).
  assert (H4 : serving w).
  { split; [vm_compute; eauto|]. split; [vm_compute; eauto|].
    eexists. split; [vm_compute; reflexivity|].
    split; [vm_compute; eauto|vm_compute; reflexivity]. }
  assert (H5 : counted w) by (vm_compute; exact (le_n 1)).
  assert (H6 : raises_at calm (calls w) = false) by reflexivity.
  assert (H7 : raises_at calm (S (calls w)) = false) by reflexivity.
  split; [repeat (split; [assumption|]); assumption|].
  exact (C9_event_without_entity_is_stored split_at_dot purge_older calm
           w event r H1 H2 H3 H4 H5 H6 H7).
Defined.

(** ** The session *)

Lemma flush_runs_nil (tbl : list RecorderRuns) : flush_runs [] tbl = ([], tbl).
Proof. done. Qed.

Lemma session_flush_idle (s : Session) :
  new_events s = [] → new_states s = [] → new_runs s = [] →
  tx (snd (session_flush s)) = tx s ∧ stale (snd (session_flush s)) = stale s.
Proof.
  intros He Hs Hr. unfold session_flush. rewrite He, Hs, Hr. simpl.
  by destruct (tx s).
Qed.

(** ** Run recovery at start-up *)

(** The rows as [_setup_run] leaves them before it adds the new run. *)
Lemma ended_runs_lookup (t : datetime) (runs : list RecorderRuns) (i : nat) (run : RecorderRuns) :
  runs !! i = Some run →
  ((λ run, if end_is_None run then end_unfinished t run else run) <$> runs) !! i
  = Some (if end_is_None run then end_unfinished t run else run).
Proof. intros H. by rewrite list_lookup_fmap, H. Qed.

Lemma ended_runs_none_unfinished (t : datetime) (runs : list RecorderRuns) :
  List.filter end_is_None
    ((λ run, if end_is_None run then end_unfinished t run else run) <$> runs) = [].
Proof.
  induction runs as [|run runs IH]; [done|]. simpl.
  destruct (end_is_None run) eqn:Hopen; simpl; [exact IH|].
  by rewrite Hopen.
Qed.

(** What a [_setup_run] that returns has done. *)
Lemma _setup_run_returns (env : Env) (w w' : World) :
  _setup_run env w = Return tt w' →
  let runs := (λ run, if end_is_None run
                      then end_unfinished (recording_start (self w)) run else run)
                <$> recorder_runs (db w) in
  let new := {| run_id := Some (fresh_id (run_id <$> runs));
                start := recording_start (self w); end_ := None;
                closed_incorrect := false;
                created := utcnow_at env (clock_reads w) |} in
  recorder_runs (db w') = runs ++ [new]
  ∧ events (db w') = events (db w)
  ∧ states (db w') = states (db w)
  ∧ self w' = with_run_info (Some new) (self w)
  ∧ trace w' =
      trace w ++ [EQuery]
      ++ flat_map (λ _, [ELogWarning; EAdd]) (List.filter end_is_None (recorder_runs (db w)))
      ++ [EAdd; EFlush; EExpunge; ECommit; EClose]
  ∧ is_Some (get_session (self w)).
Proof.
  unfold _setup_run.
  destruct (get_session (self w)) as [sf|] eqn:Hsf; [|done].
  unfold session_scope, raises. simpl.
  destruct (raises_at env (calls w)); simpl; [done|].
  destruct (raises_at env (S (calls w))); simpl; [done|].
  intros [= <-]. simpl.
  repeat split; try done.
  rewrite <- !app_assoc. done.
Qed.

(** ** What one pass of the loop leaves alone *)

Lemma task_done_continue_keeps (w w1 : World) :
  task_done_continue w = Continue w1 →
  db w1 = db w
  ∧ self w1 = with_queue (queue (self w)) (Nat.pred (unfinished_tasks (self w))) (self w)
  ∧ (0 < unfinished_tasks (self w))%nat
  ∧ trace w1 = trace w ++ [ETaskDone]
  ∧ calls w1 = calls w.
Proof.
  unfold task_done_continue, task_done, queue_task_done.
  destruct (unfinished_tasks (self w)) eqn:Hn; [done|].
  intros [= <-]. simpl. repeat split; try done. lia.
Qed.

Lemma store_continue_keeps (env : Env) (event : Event) (w w1 : World) :
  store env event w = Continue w1 →
  recorder_runs (db w1) = recorder_runs (db w)
  ∧ self w1 = with_queue (queue (self w)) (Nat.pred (unfinished_tasks (self w))) (self w)
  ∧ (0 < unfinished_tasks (self w))%nat.
Proof.
  unfold store.
  destruct (get_session (self w)); [|done].
  unfold session_scope, raises. simpl.
  destruct (raises_at env (calls w)); simpl; [done|].
  destruct (String.eqb (event_type event) EVENT_STATE_CHANGED); simpl;
    (destruct (raises_at env (S (calls w))); simpl; [done|]);
    intros H; apply task_done_continue_keeps in H as (Hdb & Hself & Hpos & _);
    simpl in *; rewrite Hdb; done.
Qed.

Lemma call_purge_keeps
    (purge_old_data : Z → datetime → list Events * list States → list Events * list States)
    (env : Env) (w w1 : World) :
  call_purge purge_old_data env w = Return tt w1 →
  recorder_runs (db w1) = recorder_runs (db w) ∧ self w1 = self w.
Proof.
  unfold call_purge.
  destruct (purge_days (self w)); [|done].
  unfold raises, utcnow. simpl.
  destruct (raises_at env (calls w)); [done|].
  destruct (purge_old_data _ _ _). by intros [= <-].
Qed.

(** A pass that goes round again has taken one item from the queue and
    has touched neither the stored runs nor the connection nor the
    current run. *)
Lemma loop_continue_keeps
    (split_entity_id : string → string * string)
    (purge_old_data : Z → datetime → list Events * list States → list Events * list States)
    (env : Env) (w w1 : World) :
  loop_body split_entity_id purge_old_data env w = Continue w1 →
  ∃ item n,
    queue (self w) = item :: queue (self w1)
    ∧ item ≠ ItemNone
    ∧ recorder_runs (db w1) = recorder_runs (db w)
    ∧ self w1 = with_queue (queue (self w1)) n (self w)
    ∧ n = (if item is ItemPurge then unfinished_tasks (self w)
           else Nat.pred (unfinished_tasks (self w)))
    ∧ (item ≠ ItemPurge → (0 < unfinished_tasks (self w))%nat).
Proof.
  unfold loop_body.
  destruct (queue_get (self w)) as [[item r]|] eqn:Hget; [|done].
  apply queue_get_inv in Hget as [Hq Hr].
  destruct item as [| |event].
  - destruct (_close_run _ _); [|done].
    destruct (_close_connection _); [|done].
    by destruct (task_done _).
  - destruct (call_purge _ _ _) as [[] w2|] eqn:Hp; [|done].
    intros [= <-]. apply call_purge_keeps in Hp as [Hruns Hself]. simpl in *.
    exists ItemPurge, (unfinished_tasks (self w)).
    rewrite Hruns, Hself, Hq. repeat split; try done.
    all: try (rewrite Hr at 1; simpl; done).
  - intros H. exists (ItemEvent event), (Nat.pred (unfinished_tasks (self w))).
    assert (Hgoal : ∀ w2, (task_done_continue w2 = Continue w1 ∨ store env event w2 = Continue w1) →
              db w2 = db w → self w2 = r →
              queue (self w) = ItemEvent event :: queue (self w1)
              ∧ ItemEvent event ≠ ItemNone
              ∧ recorder_runs (db w1) = recorder_runs (db w)
              ∧ self w1 = with_queue (queue (self w1))
                            (Nat.pred (unfinished_tasks (self w))) (self w)
              ∧ Nat.pred (unfinished_tasks (self w)) = Nat.pred (unfinished_tasks (self w))
              ∧ (ItemEvent event ≠ ItemPurge → (0 < unfinished_tasks (self w))%nat)).
    { intros w2 Hstep Hdb Hself.
      assert (recorder_runs (db w1) = recorder_runs (db w2)
              ∧ self w1 = with_queue (queue (self w2))
                            (Nat.pred (unfinished_tasks (self w2))) (self w2)
              ∧ (0 < unfinished_tasks (self w2))%nat) as (Hruns & Hs & Hpos).
      { destruct Hstep as [Hstep|Hstep].
        - apply task_done_continue_keeps in Hstep as (Hd & Hs & Hpos & _). by rewrite Hd.
        - apply store_continue_keeps in Hstep as (Hd & Hs & Hpos). done. }
      assert (Hn : unfinished_tasks (self w) = unfinished_tasks r) by (by rewrite Hr).
      rewrite Hself in Hpos. rewrite <- Hn in Hpos.
      rewrite Hruns, Hdb, Hs, Hself, Hq. repeat split; try done.
      all: try (rewrite Hr at 2 3; simpl; done). }
    revert H.
    event_branches ltac:(intros H; apply (Hgoal _ (or_introl H)); done)
                   ltac:(intros H; apply (Hgoal _ (or_intror H)); done).
Qed.

(** ** Closing the current run *)

Lemma close_run_rows (run : RecorderRuns) (t : datetime) (runs : list RecorderRuns) :
  List.filter end_is_None runs = [run] →
  List.filter end_is_None (update_run_end (set_end (Some t) run) runs) = []
  ∧ existsb (has_run_id (run_id run)) runs = true.
Proof.
  intros Hfilter.
  assert (Honly : ∀ row, In row runs → end_is_None row = true → row = run).
  { intros row Hin Hopen.
    assert (Hrow : In row (List.filter end_is_None runs)) by (apply filter_In; done).
    rewrite Hfilter in Hrow. by destruct Hrow as [<-|[]]. }
  assert (Hrun : In run runs).
  { assert (Hrow : In run (List.filter end_is_None runs)) by (rewrite Hfilter; by left).
    by apply filter_In in Hrow as [? _]. }
  split.
  - clear Hfilter Hrun. unfold update_run_end.
    change (run_id (set_end (Some t) run)) with (run_id run).
    induction runs as [|row runs IH]; [done|].
    rewrite fmap_cons. cbn [List.filter].
    rewrite IH by (intros; apply Honly; [by right|done]).
    destruct (has_run_id (run_id run) row) eqn:Hid; [done|].
    destruct (end_is_None row) eqn:Hopen; [|done].
    rewrite (Honly row (or_introl eq_refl) Hopen) in Hid.
    unfold has_run_id in Hid. by rewrite bool_decide_eq_true_2 in Hid.
  - apply existsb_exists. exists run. split; [done|].
    unfold has_run_id. by apply bool_decide_eq_true.
Qed.

(** [_close_run] when the current run is tracked and the storage layer
    does not raise: the end of the run is set from the clock, the row is
    updated inside a scope that commits, and the reference is dropped
    after the scope. *)
Lemma _close_run_commits (env : Env) (w : World) (run : RecorderRuns) :
  is_Some (get_session (self w)) →
  run_info (self w) = Some run →
  unfinished_runs (db w) = [run] →
  raises_at env (calls w) = false →
  raises_at env (S (calls w)) = false →
  ∃ w',
    _close_run env w = Return tt w'
    ∧ recorder_runs (db w') =
        update_run_end (set_end (Some (utcnow_at env (clock_reads w))) run)
                       (recorder_runs (db w))
    ∧ unfinished_runs (db w') = []
    ∧ events (db w') = events (db w)
    ∧ states (db w') = states (db w)
    ∧ self w' = with_run_info None (self w)
    ∧ trace w' = trace w ++ [EAdd; ECommit; EClose]
    ∧ calls w' = S (S (calls w)).
Proof.
  intros [sf Hsf] Hrun Hopen Hb Hc.
  destruct (close_run_rows run (utcnow_at env (clock_reads w)) _ Hopen) as [Hnone Hrow].
  unfold _close_run. rewrite Hsf.
  unfold session_scope, raises. simpl. rewrite Hb, Hrun. simpl. rewrite Hc. simpl.
  rewrite Hrow. simpl.
  eexists. split; [reflexivity|]. simpl.
  unfold unfinished_runs. simpl.
  repeat split; try done.
  by rewrite <- app_assoc.
Qed.

(** The pass that takes the stop marker, in a serving world whose
    storage layer does not raise. *)
Lemma stop_marker_step
    (split_entity_id : string → string * string)
    (purge_old_data : Z → datetime → list Events * list States → list Events * list States)
    (env : Env) (w : World) (r : Recorder) (run : RecorderRuns) :
  queue_get (self w) = Some (ItemNone, r) →
  is_Some (get_session (self w)) →
  is_Some (engine (self w)) →
  run_info (self w) = Some run →
  unfinished_runs (db w) = [run] →
  raises_at env (calls w) = false →
  raises_at env (S (calls w)) = false →
  (0 < unfinished_tasks (self w))%nat →
  ∃ w',
    loop_body split_entity_id purge_old_data env w = Stop (Returned w')
    ∧ recorder_runs (db w') =
        update_run_end (set_end (Some (utcnow_at env (clock_reads w))) run)
                       (recorder_runs (db w))
    ∧ unfinished_runs (db w') = []
    ∧ run_info (self w') = None
    ∧ engine (self w') = None
    ∧ get_session (self w') = None
    ∧ trace w' = trace w ++ [EQueueGet; EAdd; ECommit; EClose; EDispose; ETaskDone].
Proof.
  intros Hget Hsf [eng Heng] Hrun Hopen Hb Hc Hpos.
  apply queue_get_inv in Hget as Hinv. destruct Hinv as [Hq Hr].
  unfold loop_body. rewrite Hget.
  destruct (_close_run_commits env (emit [EQueueGet] (set_self (λ _, r) w)) run)
    as (w1 & Hclose & Hruns & Hnone & _ & _ & Hself & Htrace & _).
  { simpl. by rewrite Hr. }
  { simpl. by rewrite Hr. }
  { done. }
  { done. }
  { done. }
  rewrite Hclose.
  unfold _close_connection. rewrite Hself. simpl.
  assert (Hengr : engine r = Some eng) by (by rewrite Hr).
  rewrite Hengr.
  unfold task_done, queue_task_done. simpl. rewrite !Hself. simpl.
  assert (Hn : unfinished_tasks r = unfinished_tasks (self w)) by (by rewrite Hr).
  rewrite Hn. destruct (unfinished_tasks (self w)) as [|n]; [lia|].
  eexists. split; [reflexivity|]. simpl.
  rewrite Htrace. simpl. rewrite <- !app_assoc. simpl.
  repeat split; done.
Qed.

Lemma _close_run_returns (env : Env) (w w' : World) (run : RecorderRuns) :
  _close_run env w = Return tt w' →
  run_info (self w) = Some run →
  unfinished_runs (db w) = [run] →
  unfinished_runs (db w') = []
  ∧ self w' = with_run_info None (self w)
  ∧ trace w' = trace w ++ [EAdd; ECommit; EClose].
Proof.
  intros Hret Hrun Hopen.
  destruct (close_run_rows run (utcnow_at env (clock_reads w)) _ Hopen) as [Hnone Hrow].
  revert Hret. unfold _close_run.
  destruct (get_session (self w)); [|done].
  unfold session_scope, raises. simpl. rewrite Hrun.
  destruct (raises_at env (calls w)); simpl; [done|].
  destruct (raises_at env (S (calls w))); simpl; [done|].
  rewrite Hrow. simpl. intros [= <-]. simpl.
  unfold unfinished_runs. simpl. repeat split; try done.
  by rewrite <- app_assoc.
Qed.

Lemma task_done_continue_never_returns (w w' : World) :
  task_done_continue w ≠ Stop (Returned w').
Proof. unfold task_done_continue. by destruct (task_done w). Qed.

Lemma store_never_returns (env : Env) (event : Event) (w w' : World) :
  store env event w ≠ Stop (Returned w').
Proof.
  unfold store. destruct (get_session (self w)); [|done].
  destruct (session_scope _ _ _) as [[| |a] w1]; try done.
  apply task_done_continue_never_returns.
Qed.

(** The loop returns only through the stop marker, and then the current
    run has been ended in storage before the engine was disposed. *)
Lemma loop_return_closes
    (split_entity_id : string → string * string)
    (purge_old_data : Z → datetime → list Events * list States → list Events * list States)
    (env : Env) (w w' : World) :
  loop_body split_entity_id purge_old_data env w = Stop (Returned w') →
  run_tracked w →
  queue (self w) = ItemNone :: queue (self w')
  ∧ unfinished_runs (db w') = []
  ∧ run_info (self w') = None
  ∧ engine (self w') = None
  ∧ get_session (self w') = None
  ∧ trace w' = trace w ++ [EQueueGet; EAdd; ECommit; EClose; EDispose; ETaskDone].
Proof.
  intros Hret (run & Hrun & _ & Hopen). revert Hret.
  unfold loop_body.
  destruct (queue_get (self w)) as [[item r]|] eqn:Hget; [|done].
  apply queue_get_inv in Hget as [Hq Hr].
  destruct item as [| |event].
  - destruct (_close_run _ _) as [[] w1|] eqn:Hclose; [|done].
    apply _close_run_returns with (run := run) in Hclose as (Hnone & Hself & Htrace);
      [| simpl; by rewrite Hr | done].
    unfold _close_connection.
    destruct (engine (self w1)); [|done].
    unfold task_done, queue_task_done. simpl.
    destruct (unfinished_tasks (self w1)); [done|].
    intros [= <-]. simpl. rewrite Hself, Htrace, Hq. simpl.
    rewrite <- !app_assoc. done.
  - by destruct (call_purge _ _ _).
  - event_branches ltac:(intros H; by apply task_done_continue_never_returns in H)
                   ltac:(intros H; by apply store_never_returns in H).
Qed.

Lemma loop_continue_tracked
    (split_entity_id : string → string * string)
    (purge_old_data : Z → datetime → list Events * list States → list Events * list States)
    (env : Env) (w w1 : World) :
  loop_body split_entity_id purge_old_data env w = Continue w1 →
  run_tracked w → run_tracked w1.
Proof.
  intros Hstep (run & Hrun & Hid & Hopen).
  apply loop_continue_keeps in Hstep as (item & n & _ & _ & Hruns & Hself & _ & _).
  unfold run_tracked, unfinished_runs.
  rewrite Hruns, Hself. simpl. eauto 10.
Qed.

Lemma loop_continue_serving
    (split_entity_id : string → string * string)
    (purge_old_data : Z → datetime → list Events * list States → list Events * list States)
    (env : Env) (w w1 : World) :
  loop_body split_entity_id purge_old_data env w = Continue w1 →
  serving w → serving w1.
Proof.
  intros Hstep (Hsf & Heng & Htracked).
  pose proof (loop_continue_tracked _ _ _ _ _ Hstep Htracked) as Htracked1.
  apply loop_continue_keeps in Hstep as (item & n & _ & _ & _ & Hself & _ & _).
  unfold serving. rewrite Hself. simpl. done.
Qed.

(** From a world whose current run is tracked, every world the loop
    passes through or returns in has at most one stored run without an
    end. *)
Lemma loop_reaches_unfinished
    (split_entity_id : string → string * string)
    (purge_old_data : Z → datetime → list Events * list States → list Events * list States)
    (env : Env) (w w' : World) :
  loop_reaches split_entity_id purge_old_data env w w' →
  run_tracked w →
  (length (unfinished_runs (db w')) ≤ 1)%nat.
Proof.
  induction 1 as [w | w w1 w' Hstep _ IH | w w' Hret]; intros Htracked.
  - destruct Htracked as (run & _ & _ & ->). simpl. lia.
  - apply IH. by eapply loop_continue_tracked.
  - apply loop_return_closes in Hret as (_ & -> & _); [simpl; lia | done].
Qed.

(** C5. When [_setup_run] returns, every run that was stored without an
    end has been closed with [closed_incorrect = true] and
    [end = recording_start]; the new run, with
    [start = recording_start], is the only stored run without an end
    and is the one [self.run_info] refers to; and from then on, through
    every pass of the consume loop up to and including the one that
    returns, at most one stored run has no end. *)
Theorem C5_run_recovery
    (split_entity_id : string → string * string)
    (purge_old_data : Z → datetime → list Events * list States → list Events * list States)
    (env : Env) (w w' : World) :
  _setup_run env w = Return tt w' →
  (∀ i run,
     recorder_runs (db w) !! i = Some run → end_ run = None →
     ∃ run', recorder_runs (db w') !! i = Some run'
             ∧ run_id run' = run_id run ∧ start run' = start run
             ∧ closed_incorrect run' = true
             ∧ end_ run' = Some (recording_start (self w)))
  ∧ (∃ new,
       unfinished_runs (db w') = [new]
       ∧ run_info (self w') = Some new
       ∧ start new = recording_start (self w)
       ∧ end_ new = None
       ∧ recorder_runs (db w') !! length (recorder_runs (db w)) = Some new
       ∧ length (recorder_runs (db w')) = S (length (recorder_runs (db w))))
  ∧ (∀ env' w'',
       loop_reaches split_entity_id purge_old_data env' w' w'' →
       (length (unfinished_runs (db w'')) ≤ 1)%nat).
Proof.
  intros Hret.
  apply _setup_run_returns in Hret as (Hruns & _ & _ & Hself & _ & _).
  cbv zeta in Hruns, Hself.
  set (runs := (λ run, if end_is_None run
                       then end_unfinished (recording_start (self w)) run else run)
                 <$> recorder_runs (db w)) in *.
  set (new := {| run_id := Some (fresh_id (run_id <$> runs));
                 start := recording_start (self w); end_ := None;
                 closed_incorrect := false;
                 created := utcnow_at env (clock_reads w) |}) in *.
  assert (Hlen : length runs = length (recorder_runs (db w)))
    by (subst runs; apply length_fmap).
  assert (Hopen : unfinished_runs (db w') = [new]).
  { unfold unfinished_runs. rewrite Hruns, List.filter_app.
    subst runs. rewrite ended_runs_none_unfinished. done. }
  split; [|split].
  - intros i run Hi Hend.
    exists (end_unfinished (recording_start (self w)) run).
    split; [|done].
    rewrite Hruns, lookup_app_l by (rewrite Hlen; by eapply lookup_lt_Some).
    subst runs. rewrite (ended_runs_lookup _ _ _ _ Hi).
    unfold end_is_None. by rewrite Hend.
  - exists new. repeat split; try done.
    + by rewrite Hself.
    + rewrite Hruns, <- Hlen. by apply list_lookup_middle.
    + rewrite Hruns, length_app, Hlen. simpl. lia.
  - intros env' w'' Hreach.
    apply (loop_reaches_unfinished _ _ _ _ _ Hreach).
    exists new. rewrite Hself. simpl. repeat split; [by eexists | done].
Qed.

(** C7. In a serving worker whose storage layer does not raise during
    the pass, the pass that dequeues the stop marker (the items queued
    before it have been taken in order by the earlier passes) returns
    from [run]; it has set the end
    of the current run to the clock reading, attached the run to a
    session and committed that session, and only then disposed the
    engine; afterwards the stored row of the run has that non-null end,
    no stored run is without an end, and [self.run_info],
    [self.engine] and [self.get_session] are [None]. *)
Theorem C7_orderly_shutdown
    (split_entity_id : string → string * string)
    (purge_old_data : Z → datetime → list Events * list States → list Events * list States)
    (env : Env) (w : World) (r : Recorder) :
  queue_get (self w) = Some (ItemNone, r) →
  serving w → counted w →
  raises_at env (calls w) = false →
  raises_at env (S (calls w)) = false →
  ∃ w' run,
    run_info (self w) = Some run
    ∧ loop_body split_entity_id purge_old_data env w = Stop (Returned w')
    ∧ trace w' = trace w ++ [EQueueGet; EAdd; ECommit; EClose; EDispose; ETaskDone]
    ∧ (∃ row, row ∈ recorder_runs (db w') ∧ run_id row = run_id run)
    ∧ (∀ row, row ∈ recorder_runs (db w') → run_id row = run_id run →
              end_ row = Some (utcnow_at env (clock_reads w)))
    ∧ unfinished_runs (db w') = []
    ∧ run_info (self w') = None
    ∧ engine (self w') = None
    ∧ get_session (self w') = None.
Proof.
  intros Hget (Hsf & Heng & run & Hrun & Hid & Hopen) Hcount Hb Hc.
  assert (Hpos : (0 < unfinished_tasks (self w))%nat).
  { apply queue_get_inv in Hget as [Hq _].
    unfold counted in Hcount. rewrite Hq in Hcount. simpl in Hcount. lia. }
  destruct (stop_marker_step split_entity_id purge_old_data env w r run)
    as (w' & Hstep & Hruns & Hnone & Hinfo & Hengine & Hsession & Htrace); try done.
  exists w', run. repeat split; try done.
  - assert (Hin : run ∈ recorder_runs (db w)).
    { apply list_elem_of_In.
      assert (Hf : In run (unfinished_runs (db w))) by (rewrite Hopen; by left).
      by apply filter_In in Hf as [? _]. }
    exists (set_end (Some (utcnow_at env (clock_reads w))) run).
    split; [|done].
    rewrite Hruns. unfold update_run_end.
    apply list_elem_of_fmap. exists run. split; [|done].
    unfold has_run_id. simpl. by rewrite bool_decide_eq_true_2.
  - intros row Hin Hrow. rewrite Hruns in Hin.
    unfold update_run_end in Hin.
    apply list_elem_of_fmap in Hin as (row0 & -> & _).
    unfold has_run_id in *. simpl in *.
    destruct (bool_decide (run_id row0 = run_id run)) eqn:Hdec; [done|].
    apply bool_decide_eq_false in Hdec. done.
Qed.

(** ** The set-up routines as steps *)

Lemma setup_step_refl (w : World) : setup_step w w.
Proof.
  unfold setup_step. repeat split; try done.
  exists []. by rewrite app_nil_r.
Qed.

Lemma setup_step_trans (w1 w2 w3 : World) :
  setup_step w1 w2 → setup_step w2 w3 → setup_step w1 w3.
Proof.
  intros ((tr1 & Ht1 & Hf1) & Hq1 & Hu1 & Ha1 & Hr1 & Hfi1 & Hp1 & He1 & Hs1)
         ((tr2 & Ht2 & Hf2) & Hq2 & Hu2 & Ha2 & Hr2 & Hfi2 & Hp2 & He2 & Hs2).
  unfold setup_step. repeat split; try congruence.
  exists (tr1 ++ tr2). split.
  - by rewrite Ht2, Ht1, app_assoc.
  - apply Forall_app. done.
Qed.

Lemma setup_step_emit (w : World) (tr : list Effect) :
  Forall (λ e, setup_effect e = true) tr → setup_step w (emit tr w).
Proof. intros Hf. unfold setup_step. simpl. repeat split; try done. by exists tr. Qed.

Lemma _setup_connection_step (env : Env) (w : World) :
  setup_step w (py_world (_setup_connection env w)).
Proof.
  unfold _setup_connection, raises. simpl.
  destruct (raises_at env (calls w)); simpl.
  { unfold setup_step. simpl. repeat split; try done.
    exists []. by rewrite app_nil_r. }
  destruct (raises_at env (S (calls w))); simpl.
  - unfold setup_step. simpl. repeat split; try done.
    exists [ECreateEngine]. split; [done|]. by repeat constructor.
  - unfold setup_step. simpl. repeat split; try done.
    exists [ECreateEngine; ECreateAll]. split; [by rewrite <- app_assoc|].
    by repeat constructor.
Qed.

Lemma _setup_connection_connects (env : Env) (w w' : World) :
  _setup_connection env w = Return tt w' →
  is_Some (engine (self w')) ∧ is_Some (get_session (self w')).
Proof.
  unfold _setup_connection, raises. simpl.
  destruct (raises_at env (calls w)); simpl; [done|].
  destruct (raises_at env (S (calls w))); [done|].
  intros [= <-]. simpl. eauto.
Qed.

Lemma migrate_schema_step (env : Env) (w : World) :
  setup_step w (py_world (migrate_schema env w))
  ∧ self (py_world (migrate_schema env w)) = self w
  ∧ db (py_world (migrate_schema env w)) = db w.
Proof.
  unfold migrate_schema, raises. simpl.
  destruct (raises_at env (calls w)); simpl.
  - split; [|done]. unfold setup_step. simpl. repeat split; try done.
    exists []. by rewrite app_nil_r.
  - split; [|done]. unfold setup_step. simpl. repeat split; try done.
    exists [EMigrateSchema]. split; [done|]. by repeat constructor.
Qed.

Lemma warnings_are_setup_effects (runs : list RecorderRuns) :
  Forall (λ e, setup_effect e = true)
         (flat_map (λ _ : RecorderRuns, [ELogWarning; EAdd]) runs).
Proof. induction runs; simpl; by repeat constructor. Qed.

Lemma _setup_run_step (env : Env) (w : World) :
  setup_step w (py_world (_setup_run env w)).
Proof.
  unfold _setup_run.
  destruct (get_session (self w)); [|apply setup_step_refl].
  unfold session_scope, raises. simpl.
  destruct (raises_at env (calls w)); simpl.
  { unfold setup_step. simpl. repeat split; try done.
    exists [ERollback; EClose]. split; [done|]. by repeat constructor. }
  assert (Hquiet : ∀ tail,
    Forall (λ e, setup_effect e = true) tail →
    Forall (λ e, setup_effect e = true)
      (([EQuery] ++ flat_map (λ _ : RecorderRuns, [ELogWarning; EAdd])
                      (List.filter end_is_None (recorder_runs (db w))))
       ++ [EAdd; EFlush; EExpunge] ++ tail)).
  { intros tail Htail. apply Forall_app. split.
    - apply Forall_app. split; [by repeat constructor|].
      apply warnings_are_setup_effects.
    - apply Forall_app. split; [by repeat constructor|done]. }
  destruct (raises_at env (S (calls w))); simpl.
  - unfold setup_step. simpl. repeat split; try done. eexists. split.
    + rewrite <- !app_assoc. reflexivity.
    + rewrite !app_assoc. rewrite <- (app_assoc _ [EAdd; EFlush; EExpunge]).
      apply Hquiet. by repeat constructor.
  - unfold setup_step. simpl. repeat split; try done. eexists. split.
    + rewrite <- !app_assoc. reflexivity.
    + rewrite !app_assoc. rewrite <- (app_assoc _ [EAdd; EFlush; EExpunge]).
      apply Hquiet. by repeat constructor.
Qed.

(** A [try] block that raises has done set-up work only. *)
Lemma try_setup_raises (env : Env) (w w' : World) :
  try_setup env w = Raise w' → setup_step w w'.
Proof.
  unfold try_setup.
  pose proof (_setup_connection_step env w) as H1.
  destruct (_setup_connection env w) as [[] w1|w1]; simpl in H1;
    [|by intros [= <-]].
  destruct (migrate_schema_step env w1) as (H2 & _).
  destruct (migrate_schema env w1) as [[] w2|w2]; simpl in H2;
    [|intros [= <-]; by eapply setup_step_trans].
  pose proof (_setup_run_step env w2) as H3.
  destruct (_setup_run env w2) as [[] w3|w3]; simpl in H3; [done|].
  intros [= <-]. eapply setup_step_trans; [|exact H3]. by eapply setup_step_trans.
Qed.

(** A [try] block that reaches its [break] has connected, tracks its
    run, and has signalled readiness as its last act. *)
Lemma try_setup_returns (env : Env) (w w' : World) :
  try_setup env w = Return tt w' →
  ∃ w1, setup_step w w1
        ∧ serving w1
        ∧ db w' = db w1
        ∧ self w' = with_async_db_ready true (self w1)
        ∧ trace w' = trace w1 ++ [ESetReady].
Proof.
  unfold try_setup.
  pose proof (_setup_connection_step env w) as H1.
  destruct (_setup_connection env w) as [[] w1|w1] eqn:Hconn; simpl in H1; [|done].
  apply _setup_connection_connects in Hconn as [Heng Hsf].
  destruct (migrate_schema_step env w1) as (H2 & Hself2 & _).
  destruct (migrate_schema env w1) as [[] w2|w2]; simpl in H2, Hself2; [|done].
  pose proof (_setup_run_step env w2) as H3.
  destruct (_setup_run env w2) as [[] w3|w3] eqn:Hrun; simpl in H3; [|done].
  intros [= <-]. exists w3. simpl.
  split; [eapply setup_step_trans; [|exact H3]; by eapply setup_step_trans|].
  split; [|done].
  apply _setup_run_returns in Hrun as (Hruns & _ & _ & Hself & _ & _).
  cbv zeta in Hruns, Hself.
  unfold serving, run_tracked, unfinished_runs.
  rewrite Hself, Hruns, Hself2. simpl.
  rewrite List.filter_app, ended_runs_none_unfinished. simpl.
  repeat split; try done. eexists. repeat split; done.
Qed.

(** ** The retry loop *)

Lemma setup_effects_filtered (tr : list Effect) :
  Forall (λ e, setup_effect e = true) tr →
  List.filter is_sleep tr = [] ∧ List.filter is_ready tr = []
  ∧ List.filter is_notify tr = [].
Proof.
  induction 1 as [|e tr He _ (IH1 & IH2 & IH3)]; [done|].
  destruct e; simpl in *; try done.
Qed.

(** Every pass of the retry loop that fails sleeps once for
    [CONNECT_RETRY_WAIT]; the loop ends within as many passes as
    [retry] still allows, either at the [break] with the readiness
    signal as its last act, or at the [return] that follows the
    notification, without any readiness signal. *)
Lemma connect_loop_bounded (env : Env) (fuel : nat) :
  ∀ (retry : option Z) (w : World),
  1 ≤ locals_setdefault retry 10 →
  (Z.to_nat (locals_setdefault retry 10) ≤ fuel)%nat →
  ∃ ok w' tr,
    connect_loop env fuel retry w = Some (ok, w')
    ∧ trace w' = trace w ++ tr
    ∧ queue (self w') = queue (self w)
    ∧ unfinished_tasks (self w') = unfinished_tasks (self w)
    ∧ if ok
      then (∃ k, (k < Z.to_nat (locals_setdefault retry 10))%nat
                 ∧ List.filter is_sleep tr = repeat (ESleep CONNECT_RETRY_WAIT) k)
           ∧ List.filter is_notify tr = []
           ∧ List.filter is_ready tr = [ESetReady]
           ∧ last tr = Some ESetReady
           ∧ async_db_ready (self w') = true
           ∧ serving w'
      else List.filter is_sleep tr
             = repeat (ESleep CONNECT_RETRY_WAIT) (Z.to_nat (locals_setdefault retry 10))
           ∧ List.filter is_notify tr
             = [ENotify "The recorder could not start, please check the log" "Recorder"]
           ∧ List.filter is_ready tr = []
           ∧ last tr
             = Some (ENotify "The recorder could not start, please check the log" "Recorder")
           ∧ async_db_ready (self w') = async_db_ready (self w).
Proof.
  induction fuel as [|fuel IH]; intros retry w Hbudget Hfuel; [lia|].
  simpl.
  destruct (try_setup env w) as [[] w1|w1] eqn:Htry.
  - apply try_setup_returns in Htry
      as (w0 & ((tr0 & Htr0 & Hq0) & Hqueue & Hunf & _) & Hserving & Hdb & Hself & Htrace).
    destruct (setup_effects_filtered _ Hq0) as (Hs & Hr & Hn).
    assert (Hserving1 : serving w1).
    { destruct Hserving as (Hsf & Heng & run & Hrun & Hid & Hopen).
      unfold serving, run_tracked. rewrite Hself, Hdb. simpl. eauto 10. }
    exists true, w1, (tr0 ++ [ESetReady]).
    split; [done|]. split; [by rewrite Htrace, Htr0, app_assoc|].
    rewrite Hself. simpl. split; [done|]. split; [done|].
    rewrite !List.filter_app, Hs, Hr, Hn, last_snoc. simpl.
    split; [exists 0%nat; split; [lia|done]|].
    repeat split; try done; by destruct Hserving1 as (? & ? & ?).
  - apply try_setup_raises in Htry
      as ((tr0 & Htr0 & Hq0) & Hqueue & Hunf & Hready & _).
    destruct (setup_effects_filtered _ Hq0) as (Hs & Hr & Hn).
    destruct (locals_setdefault retry 10 - 1 =? 0) eqn:Hzero.
    + apply Z.eqb_eq in Hzero.
      exists false, (emit [ENotify "The recorder could not start, please check the log"
                             "Recorder"]
                       (emit [ELogError; ESleep CONNECT_RETRY_WAIT] w1)),
        (tr0 ++ [ELogError; ESleep CONNECT_RETRY_WAIT]
             ++ [ENotify "The recorder could not start, please check the log" "Recorder"]).
      split; [done|]. simpl. split; [by rewrite Htr0, <- !app_assoc|].
      split; [done|]. split; [done|].
      rewrite !List.filter_app, Hs, Hr, Hn. simpl.
      replace (Z.to_nat (locals_setdefault retry 10)) with 1%nat by lia.
      repeat split; try done.
      rewrite last_app. done.
    + apply Z.eqb_neq in Hzero.
      destruct (IH (Some (locals_setdefault retry 10 - 1))
                   (emit [ELogError; ESleep CONNECT_RETRY_WAIT] w1))
        as (ok & w' & tr & Hloop & Htr & Hq' & Hu' & Hrest).
      { simpl. lia. }
      { simpl. lia. }
      exists ok, w', (tr0 ++ [ELogError; ESleep CONNECT_RETRY_WAIT] ++ tr).
      split; [done|]. simpl in *.
      split; [by rewrite Htr, Htr0, <- !app_assoc|].
      split; [congruence|]. split; [congruence|].
      rewrite !List.filter_app, Hs, Hr, Hn. simpl.
      assert (Hsucc : Z.to_nat (locals_setdefault retry 10)
                      = S (Z.to_nat (locals_setdefault retry 10 - 1))) by lia.
      destruct ok.
      * destruct Hrest as ((k & Hk & Hsl) & Hno & Hrd & Hlast & Hasync & Hserving).
        split; [exists (S k); split; [lia|by rewrite Hsl]|].
        split; [done|]. split; [done|].
        split; [by rewrite last_app, !last_cons, Hlast|]. done.
      * destruct Hrest as (Hsl & Hno & Hrd & Hlast & Hasync).
        rewrite Hsl, Hsucc.
        split; [done|]. split; [done|]. split; [done|].
        split; [by rewrite last_app, !last_cons, Hlast|]. congruence.
Qed.

(** The three routines of a [try] block that reaches its [break]. *)
Lemma try_setup_return_inv (env : Env) (w w' : World) :
  try_setup env w = Return tt w' →
  ∃ w1 w2 w3,
    _setup_connection env w = Return tt w1
    ∧ migrate_schema env w1 = Return tt w2
    ∧ _setup_run env w2 = Return tt w3
    ∧ w' = set_self (with_async_db_ready true) (emit [ESetReady] w3).
Proof.
  unfold try_setup.
  destruct (_setup_connection env w) as [[] w1|w1] eqn:H1; [|done].
  destruct (migrate_schema env w1) as [[] w2|w2] eqn:H2; [|done].
  destruct (_setup_run env w2) as [[] w3|w3] eqn:H3; [|done].
  intros [= <-]. by exists w1, w2, w3.
Qed.

(** The passes of the retry loop one by one: the loop ends after [k]
    failed passes, each with its log entry and its sleep; either [k] is
    within what [retry] allows and the next pass reaches the [break], or
    [k] is all that [retry] allows and the loop notifies and returns
    right after the sleep of the last failed pass. *)
Lemma connect_loop_attempts (env : Env) (fuel : nat) :
  ∀ (retry : option Z) (w : World),
  1 ≤ locals_setdefault retry 10 →
  (Z.to_nat (locals_setdefault retry 10) ≤ fuel)%nat →
  ∃ (k : nat) (wk : World),
    after_failures env k w = Some wk
    ∧ (∃ trk, trace wk = trace w ++ trk
              ∧ List.filter is_sleep trk = repeat (ESleep CONNECT_RETRY_WAIT) k)
    ∧ (((k < Z.to_nat (locals_setdefault retry 10))%nat
        ∧ ∃ w', try_setup env wk = Return tt w'
                ∧ connect_loop env fuel retry w = Some (true, w'))
       ∨ (k = Z.to_nat (locals_setdefault retry 10)
          ∧ connect_loop env fuel retry w
            = Some (false,
                    emit [ENotify "The recorder could not start, please check the log"
                                  "Recorder"] wk))).
Proof.
  induction fuel as [|fuel IH]; intros retry w Hbudget Hfuel; [lia|].
  destruct (try_setup env w) as [[] w1|w1] eqn:Htry.
  - exists 0%nat, w. split; [done|].
    split; [exists []; by rewrite app_nil_r|].
    left. split; [lia|]. exists w1. split; [done|]. simpl. by rewrite Htry.
  - pose proof Htry as Hstep.
    apply try_setup_raises in Hstep as ((tr0 & Htr0 & Hq0) & _).
    destruct (setup_effects_filtered _ Hq0) as (Hs & _ & _).
    destruct (locals_setdefault retry 10 - 1 =? 0) eqn:Hzero.
    + apply Z.eqb_eq in Hzero.
      exists 1%nat, (emit [ELogError; ESleep CONNECT_RETRY_WAIT] w1).
      split; [simpl; by rewrite Htry|].
      split.
      { exists (tr0 ++ [ELogError; ESleep CONNECT_RETRY_WAIT]). simpl.
        split; [by rewrite Htr0, <- app_assoc|].
        by rewrite List.filter_app, Hs. }
      right. split; [lia|]. simpl. by rewrite Htry, Hzero.
    + destruct (IH (Some (locals_setdefault retry 10 - 1))
                   (emit [ELogError; ESleep CONNECT_RETRY_WAIT] w1))
        as (k & wk & Hafter & (trk & Htrk & Hsl) & Hend).
      { apply Z.eqb_neq in Hzero. simpl. lia. }
      { apply Z.eqb_neq in Hzero. simpl. lia. }
      exists (S k), wk.
      split; [simpl; by rewrite Htry|].
      split.
      { exists (tr0 ++ [ELogError; ESleep CONNECT_RETRY_WAIT] ++ trk). simpl in Htrk.
        split; [by rewrite Htrk, Htr0, <- !app_assoc|].
        rewrite !List.filter_app, Hs, Hsl. done. }
      simpl in Hend. simpl. rewrite Htry, Hzero.
      apply Z.eqb_neq in Hzero.
      destruct Hend as [(Hk & w' & Hlast & Hloop)|(Hk & Hloop)].
      * left. split; [lia|]. by exists w'.
      * right. split; [lia|done].
Qed.

(** C3. Whatever the storage layer does, the set-up loop of a starting
    worker ends after some number [k] of failed passes, at most ten,
    each of them followed by its sleep of [CONNECT_RETRY_WAIT] = 10 and
    by another pass.  When fewer than ten passes have failed, the next
    pass succeeds: connection, migration and run set-up return one
    after the other and readiness is signalled as the last act.  When
    ten passes have failed, the worker notifies the user right after the
    sleep of the tenth and [run] returns: no further attempt is made,
    and readiness has not been signalled (no [ESetReady] in the trace,
    [async_db_ready] as it was). *)
Theorem C3_connection_retries_bounded
    (split_entity_id : string → string * string)
    (purge_old_data : Z → datetime → list Events * list States → list Events * list States)
    (env : Env) (host : Host) (fuel : nat) (w : World) :
  (10 ≤ fuel)%nat →
  ∃ ok w' tr (k : nat) wk,
    connect_loop env fuel None w = Some (ok, w')
    ∧ trace w' = trace w ++ tr
    ∧ (∀ s, ESleep s ∈ tr → s = 10)
    ∧ after_failures env k w = Some wk
    ∧ List.filter is_sleep tr = repeat (ESleep 10) k
    ∧ if ok
      then (k < 10)%nat
           ∧ (∃ w1 w2 w3,
                _setup_connection env wk = Return tt w1
                ∧ migrate_schema env w1 = Return tt w2
                ∧ _setup_run env w2 = Return tt w3
                ∧ w' = set_self (with_async_db_ready true) (emit [ESetReady] w3))
           ∧ List.filter is_notify tr = []
           ∧ last tr = Some ESetReady
           ∧ async_db_ready (self w') = true
      else k = 10%nat
           ∧ w' = emit [ENotify "The recorder could not start, please check the log"
                                "Recorder"] wk
           ∧ List.filter is_notify tr
             = [ENotify "The recorder could not start, please check the log" "Recorder"]
           ∧ last tr
             = Some (ENotify "The recorder could not start, please check the log" "Recorder")
           ∧ (ESetReady ∉ tr)
           ∧ async_db_ready (self w') = async_db_ready (self w)
           ∧ run split_entity_id purge_old_data env host fuel w = Returned w'.
Proof.
  intros Hfuel.
  destruct (connect_loop_bounded env fuel None w) as (ok & w' & tr & Hloop & Htr & _ & _ & Hrest).
  { simpl. lia. }
  { simpl. lia. }
  destruct (connect_loop_attempts env fuel None w)
    as (k & wk & Hafter & (trk & Htrk & Hsl) & Hend).
  { simpl. lia. }
  { simpl. lia. }
  simpl in Hend.
  exists ok, w', tr, k, wk. split; [done|]. split; [done|].
  assert (Hsleeps : ∀ n, List.filter is_sleep tr = repeat (ESleep CONNECT_RETRY_WAIT) n →
                    ∀ s, ESleep s ∈ tr → s = 10).
  { intros n Hn s Hin.
    assert (Hf : In (ESleep s) (List.filter is_sleep tr))
      by (apply filter_In; split; [by apply list_elem_of_In|done]).
    rewrite Hn in Hf. apply repeat_spec in Hf. by injection Hf. }
  destruct Hend as [(Hk & w0 & Hlast & Hloop')|(Hk & Hloop')];
    rewrite Hloop' in Hloop; injection Hloop as <- <-.
  - destruct Hrest as (_ & Hno & _ & Hlasttr & Hasync & _).
    assert (Hcount : List.filter is_sleep tr = repeat (ESleep CONNECT_RETRY_WAIT) k).
    { pose proof Hlast as Hstep.
      apply try_setup_returns in Hstep
        as (w1' & ((tr0 & Htr0 & Hq0) & _) & _ & _ & _ & Htrace).
      destruct (setup_effects_filtered _ Hq0) as (Hs & _ & _).
      rewrite Htrace, Htr0, Htrk, <- !app_assoc in Htr.
      apply app_inv_head in Htr as <-.
      rewrite !List.filter_app, Hsl, Hs. simpl. by rewrite app_nil_r. }
    split; [by apply (Hsleeps k)|]. split; [done|]. split; [exact Hcount|].
    split; [lia|].
    split; [by apply try_setup_return_inv|]. done.
  - destruct Hrest as (_ & Hno & Hrd & Hlasttr & Hasync).
    assert (Hcount : List.filter is_sleep tr = repeat (ESleep CONNECT_RETRY_WAIT) k).
    { simpl in Htr. rewrite Htrk, <- !app_assoc in Htr.
      apply app_inv_head in Htr as <-.
      rewrite List.filter_app, Hsl. simpl. by rewrite app_nil_r. }
    split; [by apply (Hsleeps k)|]. split; [done|]. split; [exact Hcount|].
    split; [lia|]. split; [done|]. split; [done|]. split; [done|].
    split.
    { intros Hin.
      assert (Hf : In ESetReady (List.filter is_ready tr))
        by (apply filter_In; split; [by apply list_elem_of_In|done]).
      by rewrite Hrd in Hf. }
    split; [done|]. unfold run. by rewrite Hloop'.
Qed.

Lemma setup_effects_are_startup_effects (tr : list Effect) :
  Forall (λ e, setup_effect e = true) tr → Forall (λ e, startup_effect e = true) tr.
Proof. intros H. eapply Forall_impl; [exact H|]. intros e He. by destruct e. Qed.

(** What the retry loop has done when it ends, however it ends: start-up
    effects only, the queue and the stored events and states as they
    were; and after the [break] the worker is serving and ready. *)
Lemma connect_loop_inv (env : Env) (fuel : nat) :
  ∀ (retry : option Z) (w w' : World) (ok : bool),
  connect_loop env fuel retry w = Some (ok, w') →
  (∃ tr, trace w' = trace w ++ tr ∧ Forall (λ e, startup_effect e = true) tr)
  ∧ queue (self w') = queue (self w)
  ∧ unfinished_tasks (self w') = unfinished_tasks (self w)
  ∧ events (db w') = events (db w)
  ∧ states (db w') = states (db w)
  ∧ purge_days (self w') = purge_days (self w)
  ∧ (ok = true → serving w' ∧ async_db_ready (self w') = true).
Proof.
  induction fuel as [|fuel IH]; intros retry w w' ok; [done|].
  simpl.
  destruct (try_setup env w) as [[] w1|w1] eqn:Htry.
  - intros [= <- <-].
    apply try_setup_returns in Htry
      as (w0 & ((tr0 & Htr0 & Hq0) & Hqueue & Hunf & _ & _ & _ & Hpd & Hev & Hst)
             & Hserving & Hdb & Hself & Htrace).
    split.
    { exists (tr0 ++ [ESetReady]). split; [by rewrite Htrace, Htr0, app_assoc|].
      apply Forall_app. split; [by apply setup_effects_are_startup_effects|].
      by repeat constructor. }
    assert (Hserving1 : serving w1).
    { destruct Hserving as (Hsf & Heng & run & Hrun & Hid & Hopen).
      unfold serving, run_tracked. rewrite Hself, Hdb. simpl. eauto 10. }
    rewrite Hself, Hdb. simpl. repeat split; try done.
    all: by destruct Hserving1 as (? & ? & ?).
  - apply try_setup_raises in Htry
      as ((tr0 & Htr0 & Hq0) & Hqueue & Hunf & _ & _ & _ & Hpd & Hev & Hst).
    apply setup_effects_are_startup_effects in Hq0.
    destruct (locals_setdefault retry 10 - 1 =? 0).
    + intros [= <- <-]. simpl. split.
      { eexists. split; [rewrite Htr0, <- !app_assoc; reflexivity|].
        apply Forall_app. split; [done|]. by repeat constructor. }
      repeat split; done.
    + intros Hloop.
      apply IH in Hloop as ((tr & Htr & Hq) & Hq' & Hu' & He' & Hs' & Hpd' & Hok).
      simpl in *. split.
      { exists (tr0 ++ [ELogError; ESleep CONNECT_RETRY_WAIT] ++ tr).
        split; [by rewrite Htr, Htr0, <- !app_assoc|].
        apply Forall_app. split; [done|].
        apply Forall_app. split; [by repeat constructor|done]. }
      repeat split; try congruence; by apply Hok.
Qed.

(** The start-up of a later session ends every run it finds stored
    without an end. *)
Lemma _setup_run_ends_unfinished (env : Env) (w w' : World) (run : RecorderRuns) :
  _setup_run env w = Return tt w' →
  run ∈ recorder_runs (db w) →
  end_ run = None →
  ∃ i run',
    recorder_runs (db w') !! i = Some run'
    ∧ run_id run' = run_id run
    ∧ closed_incorrect run' = true
    ∧ end_ run' = Some (recording_start (self w)).
Proof.
  intros Hret Hin Hend.
  apply _setup_run_returns in Hret as (Hruns & _). cbv zeta in Hruns.
  apply list_elem_of_lookup in Hin as [i Hi].
  exists i, (end_unfinished (recording_start (self w)) run).
  split; [|done].
  rewrite Hruns, lookup_app_l
    by (rewrite length_fmap; by eapply lookup_lt_Some).
  rewrite (ended_runs_lookup _ _ _ _ Hi).
  unfold end_is_None. by rewrite Hend.
Qed.

(** ** Shutdown before start *)

Lemma await_result_done (sigs : list HostSignal) (g : Gate) (w : World) (r : Started) :
  hass_started g = Some r → await_result sigs g w = (Some r, w).
Proof. intros H. destruct sigs; simpl; by rewrite H. Qed.

Lemma enqueue_queue (items : list Item) (w : World) :
  queue (self (enqueue items w)) = queue (self w) ++ items
  ∧ unfinished_tasks (self (enqueue items w)) = (unfinished_tasks (self w) + length items)%nat
  ∧ self (enqueue items w)
    = with_queue (queue (self w) ++ items)
                 (unfinished_tasks (self w) + length items)%nat (self w)
  ∧ db (enqueue items w) = db w
  ∧ trace (enqueue items w) = trace w.
Proof.
  unfold enqueue. destruct w as [r d tr c k]. simpl.
  assert (H : foldl (λ r x, queue_put x r) r items
              = with_queue (queue r ++ items) (unfinished_tasks r + length items)%nat r).
  { revert r. induction items as [|x items IH]; intros r; simpl.
    - destruct r. unfold with_queue. simpl. by rewrite app_nil_r, Nat.add_0_r.
    - rewrite IH. unfold queue_put, with_queue. simpl.
      rewrite <- app_assoc. simpl. f_equal. lia. }
  rewrite H. done.
Qed.

Lemma enqueue_app (l k : list Item) (w : World) :
  enqueue k (enqueue l w) = enqueue (l ++ k) w.
Proof. unfold enqueue, set_self. destruct w. simpl. by rewrite foldl_app. Qed.

(** While the host only delivers bus events and timer calls, the worker
    keeps waiting and the queue grows. *)
Lemma await_result_traffic (pre sigs : list HostSignal) :
  ∀ (g : Gate) (w : World) (purge_days_ : option Z),
  hass_started g = None →
  purge_timer g = (if purge_days_ is Some _ then true else false) →
  Forall (λ sig, is_traffic sig = true) pre →
  await_result (pre ++ sigs) g w
  = await_result sigs g (enqueue (flat_map (queued_by purge_days_) pre) w).
Proof.
  induction pre as [|sig pre IH]; intros g w pd Hg Htimer Htraffic.
  - simpl. unfold enqueue. simpl. by destruct w.
  - apply Forall_cons in Htraffic as [Hsig Hpre].
    simpl. rewrite Hg.
    assert (Hfire : fire sig g w = (g, enqueue (queued_by pd sig) w)).
    { destruct sig as [| |event|]; try done; simpl.
      rewrite Htimer. destruct pd; [reflexivity|]. unfold enqueue. simpl. by destruct w. }
    rewrite Hfire, (IH _ _ pd) by done.
    f_equal. apply enqueue_app.
Qed.

(** C10. When the connection has been set up, the host is not yet
    running, and the stop listener is called before the start listener
    (with bus events and timer calls at most in between), [run] returns
    at the gate.  Nothing has been taken from the queue (the queued
    items are all still there, behind them what the host has put since
    and the stop marker of the shutdown callback), no event or state has
    been stored, the trace holds start-up effects and the registration
    only (so no session of [_close_run] and no [dispose]), the run
    created at start-up is still stored without an end, engine and
    session factory are still in place; and the start-up of a later
    session on that database ends this run with
    [closed_incorrect = true]. *)
Theorem C10_shutdown_before_start
    (split_entity_id : string → string * string)
    (purge_old_data : Z → datetime → list Events * list States → list Events * list States)
    (env : Env) (host : Host) (fuel : nat) (w w1 : World)
    (pre rest : list HostSignal) :
  connect_loop env fuel None w = Some (true, w1) →
  running host = false →
  signals host = pre ++ HOMEASSISTANT_STOP :: rest →
  Forall (λ sig, is_traffic sig = true) pre →
  ∃ w' tr current,
    run split_entity_id purge_old_data env host fuel w = Returned w'
    ∧ w' = set_self (queue_put ItemNone)
             (enqueue (flat_map (queued_by (purge_days (self w))) pre)
                      (emit [EAddJob] w1))
    ∧ queue (self w') =
        queue (self w) ++ flat_map (queued_by (purge_days (self w))) pre ++ [ItemNone]
    ∧ events (db w') = events (db w)
    ∧ states (db w') = states (db w)
    ∧ trace w' = trace w ++ tr ++ [EAddJob]
    ∧ Forall (λ e, startup_effect e = true) tr
    ∧ run_info (self w') = Some current
    ∧ end_ current = None
    ∧ current ∈ recorder_runs (db w')
    ∧ unfinished_runs (db w') = [current]
    ∧ is_Some (engine (self w'))
    ∧ is_Some (get_session (self w'))
    ∧ (∀ env2 w2 w3,
         db w2 = db w' →
         _setup_run env2 w2 = Return tt w3 →
         ∃ i run',
           recorder_runs (db w3) !! i = Some run'
           ∧ run_id run' = run_id current
           ∧ closed_incorrect run' = true
           ∧ end_ run' = Some (recording_start (self w2))).
Proof.
  intros Hloop Hrunning Hsignals Htraffic.
  pose proof (connect_loop_inv _ _ _ _ _ _ Hloop)
    as ((tr & Htr & Hquiet) & Hq & Hu & Hev & Hst & Hpd & Hok).
  destruct (Hok eq_refl) as ((Hsf & Heng & current & Hrun & Hid & Hopen) & _).
  assert (Hin : In current (unfinished_runs (db w1))) by (rewrite Hopen; by left).
  apply filter_In in Hin as [Hin Hend].
  set (items := flat_map (queued_by (purge_days (self w))) pre).
  destruct (enqueue_queue items (emit [EAddJob] w1)) as (Hq2 & _ & Hself2 & Hdb2 & Htr2).
  exists (set_self (queue_put ItemNone) (enqueue items (emit [EAddJob] w1))), tr, current.
  split.
  { unfold run. rewrite Hloop, Hsignals, Hrunning.
    rewrite (await_result_traffic _ _ _ _ (purge_days (self w)));
      [| done | simpl; by rewrite Hpd | done].
    simpl. rewrite Hpd. fold items.
    by rewrite (await_result_done _ _ _ shutdown_task). }
  split; [done|].
  remember (enqueue items (emit [EAddJob] w1)) as w2 eqn:Hw2. clear Hw2.
  simpl in Hq2, Hself2, Hdb2, Htr2.
  simpl. rewrite Hq2, Hself2, Hdb2, Htr2. simpl. rewrite Hq, Htr, <- !app_assoc.
  repeat split; try done.
  - unfold end_is_None in Hend. by destruct (end_ current).
  - by apply list_elem_of_In.
  - intros env2 w3 w4 Hdb Hret.
    apply (_setup_run_ends_unfinished env2 w3 w4 current Hret).
    + rewrite Hdb. simpl. rewrite ?Hdb2. by apply list_elem_of_In.
    + unfold end_is_None in Hend. by destruct (end_ current).
Qed.

(** ** [run_information] *)

Lemma head_filter_unique {A : Type} (f : A → bool) (l : list A) (x : A) :
  x ∈ l → f x = true → (∀ y, y ∈ l → f y = true → y = x) →
  head (List.filter f l) = Some x.
Proof.
  induction l as [|y l IH]; intros Hin Hx Huniq.
  - by apply elem_of_nil in Hin.
  - simpl. destruct (f y) eqn:Hy.
    + simpl. f_equal. apply Huniq; [by left|done].
    + apply IH; [|done|].
      * apply elem_of_cons in Hin as [->|Hin]; [congruence|done].
      * intros z Hz. apply Huniq. by right.
Qed.

Lemma filter_none {A : Type} (f : A → bool) (l : list A) :
  (∀ y, y ∈ l → f y = false) → List.filter f l = [].
Proof.
  induction l as [|y l IH]; intros Hall; [done|].
  simpl. rewrite (Hall y) by (by left). apply IH. intros z Hz. apply Hall. by right.
Qed.

(** A scope that only reads leaves the database as it was. *)
Lemma run_information_query (env : Env) (w : World) (t : datetime) :
  t ≤ recording_start (self w) →
  is_Some (get_session (self w)) →
  raises_at env (calls w) = false →
  raises_at env (S (calls w)) = false →
  ∃ w',
    run_information env w (Some t)
    = Return (head (List.filter (covers t) (recorder_runs (db w)))) w'
    ∧ trace w' =
        trace w ++ [EQuery]
        ++ (if head (List.filter (covers t) (recorder_runs (db w)))
            is Some _ then [EExpunge] else [])
        ++ [ECommit; EClose]
    ∧ db w' = db w
    ∧ self w' = self w.
Proof.
  intros Ht [sf Hsf] Hb Hc.
  unfold run_information.
  assert (Hgt : (t >? recording_start (self w)) = false) by lia.
  rewrite Hgt, Hsf.
  unfold session_scope, raises. simpl. rewrite Hb.
  destruct (head (List.filter (covers t) (recorder_runs (db w)))) as [res|] eqn:Hres;
    simpl; rewrite Hc; simpl; eexists; (split; [reflexivity|]); simpl;
    rewrite <- !app_assoc; simpl; (split; [done|]); split; try done;
    by destruct (db w).
Qed.

(** C6 as the code has it.  For [point_in_time] absent or strictly
    later than [recording_start], [run_information] returns
    [self.run_info] and does nothing else: no session, no query.  For a
    point in time strictly inside the interval of a prior run, one that
    ended no later than [recording_start] and is the only stored run
    whose interval contains the point, it queries the storage and
    returns that run, expunged from the session before the scope
    commits; and it returns [None], after the query, when the point is
    not later than [recording_start] and no stored run covers it. *)
Theorem C6_run_information_strict (env : Env) (w : World) :
  run_information env w None = Return (run_info (self w)) w
  ∧ (∀ t, recording_start (self w) < t →
          run_information env w (Some t) = Return (run_info (self w)) w)
  ∧ (is_Some (get_session (self w)) →
     raises_at env (calls w) = false →
     raises_at env (S (calls w)) = false →
     (∀ t prior e,
        prior ∈ recorder_runs (db w) →
        end_ prior = Some e → e ≤ recording_start (self w) →
        start prior < t → t < e →
        (∀ other, other ∈ recorder_runs (db w) → covers t other = true → other = prior) →
        ∃ w', run_information env w (Some t) = Return (Some prior) w'
              ∧ trace w' = trace w ++ [EQuery; EExpunge; ECommit; EClose]
              ∧ db w' = db w ∧ self w' = self w)
     ∧ (∀ t,
          t ≤ recording_start (self w) →
          (∀ other, other ∈ recorder_runs (db w) → covers t other = false) →
          ∃ w', run_information env w (Some t) = Return None w'
                ∧ trace w' = trace w ++ [EQuery; ECommit; EClose]
                ∧ db w' = db w ∧ self w' = self w)).
Proof.
  split; [done|]. split.
  { intros t Ht. unfold run_information.
    assert (Hgt : (t >? recording_start (self w)) = true) by lia.
    by rewrite Hgt. }
  intros Hsf Hb Hc. split.
  - intros t prior e Hin Hend Hprior Hstart Ht Huniq.
    destruct (run_information_query env w t) as (w' & Hret & Htrace & Hdb & Hself);
      [lia|done..|].
    assert (Hhead : head (List.filter (covers t) (recorder_runs (db w))) = Some prior).
    { apply head_filter_unique; [done| |done].
      unfold covers. rewrite Hend.
      apply andb_true_intro. split; lia. }
    rewrite Hhead in Hret, Htrace. by exists w'.
  - intros t Ht Hnone.
    destruct (run_information_query env w t) as (w' & Hret & Htrace & Hdb & Hself);
      [done..|].
    rewrite (filter_none _ _ Hnone) in Hret, Htrace. by exists w'.
Qed.

(** C6 as stated fails at [point_in_time = recording_start]: the test
    of the code is strict, so the storage is queried, and no stored run
    strictly contains that instant. *)
Lemma C6_counterexample_at_recording_start :
  ¬ (∀ (env : Env) (w : World) (t : datetime),
       recording_start (self w) ≤ t →
       run_information env w (Some t) = Return (run_info (self w)) w).
Proof.
  intros Hclaim.
  specialize (Hclaim calm (restarted_world []) 500).
  assert (Hge : recording_start (self (restarted_world [])) ≤ 500)
    by (vm_compute; discriminate).
  specialize (Hclaim Hge).
  vm_compute in Hclaim. discriminate Hclaim.
Qed.

(** ** Marking queue items as done *)

(** The pass over the purge marker goes round again without it. *)
Lemma purge_pass_leaves_task_unfinished
    (split_entity_id : string → string * string)
    (purge_old_data : Z → datetime → list Events * list States → list Events * list States)
    (env : Env) (w w1 : World) (r : Recorder) :
  queue_get (self w) = Some (ItemPurge, r) →
  loop_body split_entity_id purge_old_data env w = Continue w1 →
  unfinished_tasks (self w1) = unfinished_tasks (self w)
  ∧ queue (self w) = ItemPurge :: queue (self w1)
  ∧ (ETaskDone ∉ drop (length (trace w)) (trace w1)).
Proof.
  intros Hget. unfold loop_body. rewrite Hget.
  apply queue_get_inv in Hget as [Hq Hr].
  unfold call_purge. simpl.
  assert (Hp : purge_days r = purge_days (self w)) by (by rewrite Hr).
  rewrite Hp. destruct (purge_days (self w)) as [days|]; [|done].
  destruct (raises_at env (calls w)); [done|].
  destruct (purge_old_data _ _ _) as [events_ states_].
  intros [= <-]. simpl.
  rewrite Hq. split; [by rewrite Hr|]. split; [done|].
  rewrite <- app_assoc, drop_app_length. simpl.
  rewrite !not_elem_of_cons. repeat split; try discriminate. apply not_elem_of_nil.
Qed.

(** Every pass over an event that goes round again has called
    [task_done] once. *)
Lemma event_pass_marks_done
    (split_entity_id : string → string * string)
    (purge_old_data : Z → datetime → list Events * list States → list Events * list States)
    (env : Env) (w w1 : World) (event : Event) (r : Recorder) :
  queue_get (self w) = Some (ItemEvent event, r) →
  loop_body split_entity_id purge_old_data env w = Continue w1 →
  S (unfinished_tasks (self w1)) = unfinished_tasks (self w).
Proof.
  intros Hget Hstep.
  apply queue_get_inv in Hget as [Hq _].
  apply loop_continue_keeps in Hstep as (item & n & Hq1 & _ & _ & Hself & Hn & Hpos).
  rewrite Hq in Hq1. injection Hq1 as <- Hq1.
  rewrite Hself. simpl. rewrite Hn.
  assert ((0 < unfinished_tasks (self w))%nat) by (by apply Hpos). lia.
Qed.

Lemma task_done_continue_never_blocks (w w' : World) :
  task_done_continue w ≠ Stop (Blocked w').
Proof. unfold task_done_continue. by destruct (task_done w). Qed.

Lemma store_never_blocks (env : Env) (event : Event) (w w' : World) :
  store env event w ≠ Stop (Blocked w').
Proof.
  unfold store. destruct (get_session (self w)); [|done].
  destruct (session_scope _ _ _) as [[| |a] w1]; try done.
  apply task_done_continue_never_blocks.
Qed.

(** The loop waits only on an empty queue. *)
Lemma loop_blocks_on_empty_queue
    (split_entity_id : string → string * string)
    (purge_old_data : Z → datetime → list Events * list States → list Events * list States)
    (env : Env) (w w' : World) :
  loop_body split_entity_id purge_old_data env w = Stop (Blocked w') →
  queue (self w) = [] ∧ w' = w.
Proof.
  unfold loop_body, queue_get.
  destruct (queue (self w)) as [|item q]; [by intros [= <-]|].
  destruct item as [| |event].
  - destruct (_close_run _ _); [|done].
    destruct (_close_connection _); [|done].
    by destruct (task_done _).
  - by destruct (call_purge _ _ _).
  - event_branches ltac:(intros H; by apply task_done_continue_never_blocks in H)
                   ltac:(intros H; by apply store_never_blocks in H).
Qed.

(** Without purge markers the count of unfinished tasks follows the
    queue: when the loop has taken every item and waits for the next
    one, [block_till_done] returns. *)
Lemma consume_drains_without_purge
    (split_entity_id : string → string * string)
    (purge_old_data : Z → datetime → list Events * list States → list Events * list States)
    (env : Env) (fuel : nat) :
  ∀ (w w' : World),
  unfinished_tasks (self w) = length (queue (self w)) →
  Forall (λ item, item ≠ ItemPurge) (queue (self w)) →
  consume split_entity_id purge_old_data env fuel w = Blocked w' →
  queue (self w') = [] ∧ block_till_done_returns w' = true.
Proof.
  induction fuel as [|fuel IH]; intros w w' Hcount Hnopurge; [done|].
  simpl.
  destruct (loop_body split_entity_id purge_old_data env w) as [w1|o] eqn:Hstep.
  - apply loop_continue_keeps in Hstep as (item & n & Hq & _ & _ & Hself & Hn & Hpos).
    rewrite Hq in Hnopurge, Hcount. apply Forall_cons in Hnopurge as [Hitem Hrest].
    apply IH; [|done].
    rewrite Hself. simpl. rewrite Hn.
    destruct item; try done; simpl in Hcount; lia.
  - intros ->.
    apply loop_blocks_on_empty_queue in Hstep as [Hq ->].
    split; [done|].
    unfold block_till_done_returns, queue_join_returns.
    apply bool_decide_eq_true. by rewrite Hcount, Hq.
Qed.

(** C2 at the purge marker.  A started worker with one purge marker in
    its queue takes the marker, purges, and goes back to [get], where it
    waits on the empty queue; the marker was never marked done, so one
    task stays unfinished and [block_till_done] does not return. *)
Theorem C2_purge_marker_is_never_marked_done :
  ∃ w',
    consume split_at_dot purge_older calm 5 (plain_world [ItemPurge]) = Blocked w'
    ∧ queue (self w') = []
    ∧ EPurge 10 ∈ trace w'
    ∧ (ETaskDone ∉ trace w')
    ∧ unfinished_tasks (self w') = 1%nat
    ∧ block_till_done_returns w' = false.
Proof.
  eexists. split; [vm_compute; reflexivity|].
  split; [reflexivity|]. simpl.
  split; [apply list_elem_of_In; simpl; tauto|].
  split; [|split; reflexivity].
  rewrite !not_elem_of_cons. repeat split; try discriminate. apply not_elem_of_nil.
Qed.

(** C4 at a state change.  A started worker stores the state change
    [light.kitchen -> on]: the scope commits and is closed, one events
    row is inserted and receives the identifier 1, one states row is
    inserted, and the [event_id] of that states row is null, because
    [dbevent.event_id] was read before any flush had generated it. *)
Theorem C4_state_row_is_stored_without_event_id :
  ∃ w' e s,
    loop_body split_at_dot purge_older calm
      (plain_world [ItemEvent (state_changed "light.kitchen" "on" 501)]) = Continue w'
    ∧ events (db w') = [e]
    ∧ states (db w') = [s]
    ∧ event_id e = Some 1%nat
    ∧ states_entity_id s = Some "light.kitchen"
    ∧ states_event_id s = None
    ∧ trace w' =
        trace (plain_world [ItemEvent (state_changed "light.kitchen" "on" 501)])
        ++ [EQueueGet; EAdd; EAdd; ECommit; EClose; ETaskDone].
Proof.
  eexists _, _, _. split; [vm_compute; reflexivity|].
  repeat split; reflexivity.
Qed.

(** ** The fuel of the loop *)

Lemma task_done_continue_stops_raised (w : World) (o : Outcome) :
  task_done_continue w = Stop o → ∃ w', o = Raised w'.
Proof.
  unfold task_done_continue. destruct (task_done w); [done|].
  intros [= <-]. eauto.
Qed.

Lemma store_stops_raised (env : Env) (event : Event) (w : World) (o : Outcome) :
  store env event w = Stop o → ∃ w', o = Raised w'.
Proof.
  unfold store. destruct (get_session (self w)); [|intros [= <-]; eauto].
  destruct (session_scope _ _ _) as [[| |a] w1]; try (intros [= <-]; eauto).
  apply task_done_continue_stops_raised.
Qed.

(** The loop body never runs out of fuel by itself, and every pass that
    goes round again has shortened the queue: a fuel above the length of
    the queue covers the whole loop. *)
Lemma consume_has_enough_fuel
    (split_entity_id : string → string * string)
    (purge_old_data : Z → datetime → list Events * list States → list Events * list States)
    (env : Env) (fuel : nat) :
  ∀ (w w' : World),
  (length (queue (self w)) < fuel)%nat →
  consume split_entity_id purge_old_data env fuel w ≠ OutOfFuel w'.
Proof.
  induction fuel as [|fuel IH]; intros w w' Hfuel; [lia|].
  simpl.
  destruct (loop_body split_entity_id purge_old_data env w) as [w1|o] eqn:Hstep.
  - apply IH.
    apply loop_continue_keeps in Hstep as (item & n & Hq & _).
    rewrite Hq in Hfuel. simpl in Hfuel. lia.
  - intros ->. revert Hstep. unfold loop_body.
    destruct (queue_get (self w)) as [[item r]|]; [|done].
    destruct item as [| |event].
    + destruct (_close_run _ _); [|done].
      destruct (_close_connection _); [|done].
      by destruct (task_done _).
    + by destruct (call_purge _ _ _).
    + assert (Htd : ∀ w0, task_done_continue w0 ≠ Stop (OutOfFuel w')).
      { intros w0 H. by apply task_done_continue_stops_raised in H as [? ?]. }
      assert (Hst : ∀ w0, store env event w0 ≠ Stop (OutOfFuel w')).
      { intros w0 H. by apply store_stops_raised in H as [? ?]. }
      event_branches ltac:(apply Htd) ltac:(apply Hst).
Qed.

(** ** From start-up to the stop marker *)

Lemma loop_continue_counted
    (split_entity_id : string → string * string)
    (purge_old_data : Z → datetime → list Events * list States → list Events * list States)
    (env : Env) (w w1 : World) :
  loop_body split_entity_id purge_old_data env w = Continue w1 →
  counted w → counted w1.
Proof.
  intros Hstep Hcount. unfold counted in *.
  apply loop_continue_keeps in Hstep as (item & n & Hq & _ & _ & Hself & Hn & _).
  rewrite Hq in Hcount. rewrite Hself. simpl in *. rewrite Hn.
  destruct item; lia.
Qed.

(** With a storage layer that never raises, a serving worker gets past
    every item that is not the stop marker. *)
Lemma loop_progress
    (split_entity_id : string → string * string)
    (purge_old_data : Z → datetime → list Events * list States → list Events * list States)
    (env : Env) (w : World) (item : Item) (q : list Item) :
  serving w → counted w →
  queue (self w) = item :: q →
  item ≠ ItemNone →
  (item = ItemPurge → is_Some (purge_days (self w))) →
  (∀ n, raises_at env n = false) →
  ∃ w1, loop_body split_entity_id purge_old_data env w = Continue w1.
Proof.
  intros (Hsf & _ & _) Hcount Hq Hitem Hpurge Hcalm.
  unfold counted in Hcount. rewrite Hq in Hcount. simpl in Hcount.
  unfold loop_body, queue_get. rewrite Hq.
  set (w0 := emit [EQueueGet]
               (set_self (λ _, with_queue q (unfinished_tasks (self w)) (self w)) w)).
  assert (Hpos : (0 < unfinished_tasks (self w0))%nat) by (simpl; lia).
  assert (Hdone : ∃ w1, task_done_continue w0 = Continue w1).
  { unfold task_done_continue. rewrite task_done_positive by done. eauto. }
  assert (Hstore : ∀ event, ∃ w1, store env event w0 = Continue w1).
  { intros event.
    destruct (store_commits env event w0) as (w1 & Hst & _); try done.
    by exists w1. }
  destruct item as [| |event]; [done| |].
  - destruct (Hpurge eq_refl) as [days Hdays].
    unfold call_purge, raises, utcnow. simpl. rewrite Hdays, Hcalm.
    destruct (purge_old_data _ _ _). eauto.
  - event_branches ltac:(exact Hdone) ltac:(apply Hstore).
Qed.

(** An orderly shutdown as a whole: a serving worker whose queue holds
    some items and then the stop marker, with a storage layer that never
    raises, works through the items in order, reaches the marker, ends
    its run in storage, disposes the engine and returns. *)
Lemma consume_to_stop_marker
    (split_entity_id : string → string * string)
    (purge_old_data : Z → datetime → list Events * list States → list Events * list States)
    (env : Env) (rest : list Item) (items : list Item) :
  ∀ (fuel : nat) (w : World),
  serving w → counted w →
  queue (self w) = items ++ ItemNone :: rest →
  Forall (λ item, item ≠ ItemNone) items →
  (purge_days (self w) = None → Forall (λ item, item ≠ ItemPurge) items) →
  (∀ n, raises_at env n = false) →
  (length items < fuel)%nat →
  ∃ w0 w',
    loop_reaches split_entity_id purge_old_data env w w0
    ∧ queue (self w0) = ItemNone :: rest
    ∧ consume split_entity_id purge_old_data env fuel w = Returned w'
    ∧ trace w' = trace w0 ++ [EQueueGet; EAdd; ECommit; EClose; EDispose; ETaskDone]
    ∧ queue (self w') = rest
    ∧ unfinished_runs (db w') = []
    ∧ run_info (self w') = None
    ∧ engine (self w') = None
    ∧ get_session (self w') = None.
Proof.
  induction items as [|item items IH]; intros fuel w Hserving Hcount Hq Hitems Hpurge Hcalm Hfuel.
  - destruct fuel as [|fuel]; [simpl in Hfuel; lia|].
    simpl in Hq.
    destruct Hserving as (Hsf & Heng & run & Hrun & Hid & Hopen).
    destruct (stop_marker_step split_entity_id purge_old_data env w
                (with_queue rest (unfinished_tasks (self w)) (self w)) run)
      as (w' & Hstep & _ & Hnone & Hinfo & Hengine & Hsession & Htrace); try done.
    { unfold queue_get. by rewrite Hq. }
    { unfold counted in Hcount. rewrite Hq in Hcount. simpl in Hcount. lia. }
    exists w, w'. split; [constructor|]. split; [done|].
    simpl. rewrite Hstep. repeat split; try done.
    apply loop_return_closes in Hstep as (Hq' & _); [|by exists run].
    rewrite Hq in Hq'. by injection Hq'.
  - destruct fuel as [|fuel]; [simpl in Hfuel; lia|].
    apply Forall_cons in Hitems as [Hitem Hitems].
    destruct (loop_progress split_entity_id purge_old_data env w item
                (items ++ ItemNone :: rest)) as [w1 Hstep]; try done.
    { intros ->. destruct (purge_days (self w)) eqn:Hpd; [eauto|].
      specialize (Hpurge eq_refl). apply Forall_cons in Hpurge as [? _]. done. }
    pose proof (loop_continue_serving _ _ _ _ _ Hstep Hserving) as Hserving1.
    pose proof (loop_continue_counted _ _ _ _ _ Hstep Hcount) as Hcount1.
    pose proof Hstep as Hkeep.
    apply loop_continue_keeps in Hkeep as (item' & n & Hq1 & _ & _ & Hself & _).
    rewrite Hq in Hq1. simpl in Hq1. injection Hq1 as _ Hq1.
    destruct (IH fuel w1) as (w0 & w' & Hreach & Hrest); try done.
    { rewrite Hself. simpl. intros Hpd. specialize (Hpurge Hpd).
      by apply Forall_cons in Hpurge as [_ ?]. }
    { simpl in Hfuel. lia. }
    exists w0, w'. split; [by eapply reaches_continue|].
    simpl. rewrite Hstep. done.
Qed.

Lemma try_setup_calm (env : Env) (w : World) :
  (∀ n, raises_at env n = false) → ∃ w', try_setup env w = Return tt w'.
Proof.
  intros Hcalm.
  unfold try_setup.
  unfold _setup_connection, raises. simpl. rewrite Hcalm. simpl. rewrite Hcalm.
  unfold migrate_schema, raises. simpl. rewrite Hcalm.
  unfold _setup_run. simpl.
  unfold session_scope, raises. simpl. rewrite Hcalm. simpl. rewrite Hcalm. simpl.
  eauto.
Qed.

(** The whole thread, from [start] to its end, when nothing raises, the
    host is already running and the stop marker is queued behind the
    items: one set-up pass, no sleep, and an orderly shutdown after the
    last item. *)
Lemma run_orderly
    (split_entity_id : string → string * string)
    (purge_old_data : Z → datetime → list Events * list States → list Events * list States)
    (env : Env) (host : Host) (fuel : nat) (w : World) (items rest : list Item) :
  counted w →
  queue (self w) = items ++ ItemNone :: rest →
  Forall (λ item, item ≠ ItemNone) items →
  (purge_days (self w) = None → Forall (λ item, item ≠ ItemPurge) items) →
  (∀ n, raises_at env n = false) →
  running host = true →
  (length items < fuel)%nat →
  ∃ w',
    run split_entity_id purge_old_data env host fuel w = Returned w'
    ∧ queue (self w') = rest
    ∧ unfinished_runs (db w') = []
    ∧ run_info (self w') = None
    ∧ engine (self w') = None
    ∧ get_session (self w') = None.
Proof.
  intros Hcount Hq Hitems Hpurge Hcalm Hrunning Hfuel.
  destruct fuel as [|fuel]; [lia|].
  destruct (try_setup_calm env w Hcalm) as [w1 Htry].
  assert (Hloop : connect_loop env (S fuel) None w = Some (true, w1))
    by (simpl; by rewrite Htry).
  pose proof (connect_loop_inv _ _ _ _ _ _ Hloop)
    as (_ & Hq1 & Hu1 & _ & _ & Hpd & Hok).
  destruct (Hok eq_refl) as (Hserving & Hready).
  destruct (consume_to_stop_marker split_entity_id purge_old_data env rest items
              (S fuel) (emit [EAddJob] w1))
    as (w0 & w' & Hreach & _ & Hconsume & _ & Hrest & Hnone & Hinfo & Heng & Hsf);
    try done.
  { unfold counted in *. simpl. by rewrite Hq1, Hu1. }
  { simpl. by rewrite Hq1. }
  { simpl. by rewrite Hpd. }
  exists w'. split.
  { unfold run. rewrite Hloop, Hrunning.
    by rewrite (await_result_done _ _ _ result_None). }
  repeat split; done.
Qed.

(** ** Worked instances *)

(** The filter scenarios of the specification.  With the domain [light]
    excluded and the entity [light.kitchen] included, a state change of
    the kitchen light is stored and one of the hallway light is dropped
    (and marked done). *)
Example kitchen_light_is_recorded :
  ∃ w',
    loop_body split_at_dot purge_older calm
      (kitchen_world [ItemEvent (state_changed "light.kitchen" "on" 501)]) = Continue w'
    ∧ length (events (db w')) = 1%nat
    ∧ length (states (db w')) = 1%nat
    ∧ unfinished_tasks (self w') = 0%nat.
Proof. eexists. split; [vm_compute; reflexivity|]. repeat split; reflexivity. Qed.

Example hallway_light_is_dropped :
  ∃ w',
    loop_body split_at_dot purge_older calm
      (kitchen_world [ItemEvent (state_changed "light.hallway" "on" 501)]) = Continue w'
    ∧ events (db w') = []
    ∧ states (db w') = []
    ∧ unfinished_tasks (self w') = 0%nat.
Proof. eexists. split; [vm_compute; reflexivity|]. repeat split; reflexivity. Qed.

(** With the domain [sensor] included and nothing excluded, a switch is
    dropped and a sensor is stored. *)
Example switch_is_dropped_sensor_is_recorded :
  ∃ w',
    consume split_at_dot purge_older calm 3
      (sensor_world [ItemEvent (state_changed "switch.x" "on" 501);
                     ItemEvent (state_changed "sensor.y" "21" 502)]) = Blocked w'
    ∧ states_entity_id <$> states (db w') = [Some "sensor.y"]
    ∧ block_till_done_returns w' = true.
Proof. eexists. split; [vm_compute; reflexivity|]. split; reflexivity. Qed.

(** A storage layer that raises at its first call only: the first pass
    of the set-up loop fails, the worker sleeps once, the second pass
    succeeds. *)
Example retry_after_one_failure :
  ∃ w',
    connect_loop (raising_at 0) 10 None (restart_world []) = Some (true, w')
    ∧ List.filter is_sleep (trace w') = [ESleep 10]
    ∧ last (trace w') = Some ESetReady
    ∧ async_db_ready (self w') = true.
Proof. eexists. split; [vm_compute; reflexivity|]. repeat split; reflexivity. Qed.

(** The runs table after the restart on [crashed_db]: the run of the
    crashed session is ended at the new [recording_start] and marked,
    the finished run is untouched, the new run is open. *)
Example restart_ends_the_crashed_run :
  recorder_runs (db (restarted_world [])) =
  [ {| run_id := Some 1%nat; start := 100; end_ := Some 200;
       closed_incorrect := false; created := 100 |};
    {| run_id := Some 2%nat; start := 300; end_ := Some 500;
       closed_incorrect := true; created := 300 |};
    {| run_id := Some 3%nat; start := 500; end_ := None;
       closed_incorrect := false; created := 1000 |} ].
Proof. vm_compute. reflexivity. Qed.

(** C3 with a storage layer that always raises, and fuel 10: ten
    failed passes, ten sleeps, the notification, and [run] returns
    without any readiness signal. *)
Lemma C3_connection_retries_bounded_witness :
  let w := restart_world [] in
  let host := {| running := false; signals := [] |} in
  (10 ≤ 10)%nat
  ∧ ∃ w' tr wk,
      connect_loop broken 10 None w = Some (false, w')
      ∧ trace w' = trace w ++ tr
      ∧ (∀ s, ESleep s ∈ tr → s = 10)
      ∧ after_failures broken 10 w = Some wk
      ∧ List.filter is_sleep tr = repeat (ESleep 10) 10
      ∧ w' = emit [ENotify "The recorder could not start, please check the log"
                           "Recorder"] wk
      ∧ List.filter is_notify tr
        = [ENotify "The recorder could not start, please check the log" "Recorder"]
      ∧ last tr
        = Some (ENotify "The recorder could not start, please check the log" "Recorder")
      ∧ (ESetReady ∉ tr)
      ∧ async_db_ready (self w') = async_db_ready (self w)
      ∧ run split_at_dot purge_older broken host 10 w = Returned w'.
Proof.
  intros w host.
  split; [exact (le_n 10)|].
  destruct (C3_connection_retries_bounded split_at_dot purge_older broken host 10 w (le_n 10))
    as (ok & w' & tr & k & wk & Hloop & Htr & Hsleep & Hafter & Hcount & Hrest).
  assert (Hfatal : ok = false).
  { assert (Hc : fst <$> connect_loop broken 10 None w = Some false)
      by (vm_compute; reflexivity).
    rewrite Hloop in Hc. simpl in Hc. by injection Hc. }
  subst ok.
  destruct Hrest as (Hk & Hw' & Hnotify & Hlast & Hready & Hasync & Hrun).
  subst k.
  exists w', tr, wk.
  repeat (match goal with |- _ ∧ _ => split end); assumption.
Defined.

(** C5 at the restart on [crashed_db]. *)
Lemma C5_run_recovery_witness :
  let w := connected (restart_world []) in
  let w' := py_world (_setup_run calm w) in
  _setup_run calm w = Return tt w'
  ∧ ∃ new,
      unfinished_runs (db w') = [new]
      ∧ run_info (self w') = Some new
      ∧ start new = recording_start (self w)
      ∧ end_ new = None
      ∧ recorder_runs (db w') !! length (recorder_runs (db w)) = Some new
      ∧ length (recorder_runs (db w')) = S (length (recorder_runs (db w))).
Proof.
  intros w w'.
  assert (H : _setup_run calm w = Return tt w') by (vm_compute; reflexivity).
  split; [exact H|].
  exact (proj1 (proj2 (C5_run_recovery split_at_dot purge_older calm w w' H))).
Defined.

(** C6 at the instant 400, inside the run of the crashed session, which
    the restart has ended at 500. *)
Lemma C6_run_information_strict_witness :
  let w := restarted_world [] in
  let prior := {| run_id := Some 2%nat; start := 300; end_ := Some 500;
                  closed_incorrect := true; created := 300 |} in
  (is_Some (get_session (self w))
   ∧ raises_at calm (calls w) = false
   ∧ raises_at calm (S (calls w)) = false
   ∧ prior ∈ recorder_runs (db w)
   ∧ end_ prior = Some 500 ∧ 500 ≤ recording_start (self w)
   ∧ start prior < 400 ∧ 400 < 500
   ∧ (∀ other, other ∈ recorder_runs (db w) → covers 400 other = true → other = prior))
  ∧ ∃ w', run_information calm w (Some 400) = Return (Some prior) w'
          ∧ trace w' = trace w ++ [EQuery; EExpunge; ECommit; EClose]
          ∧ db w' = db w ∧ self w' = self w.
Proof.
  intros w prior.
  assert (H1 : is_Some (get_session (self w))) by (vm_compute; eauto).
  assert (H2 : raises_at calm (calls w) = false) by reflexivity.
  assert (H3 : raises_at calm (S (calls w)) = false) by reflexivity.
  assert (Hruns : recorder_runs (db w) =
                  [ {| run_id := Some 1%nat; start := 100; end_ := Some 200;
                       closed_incorrect := false; created := 100 |};
                    prior;
                    {| run_id := Some 3%nat; start := 500; end_ := None;
                       closed_incorrect := false; created := 1000 |} ])
    by (vm_compute; reflexivity).
  assert (H4 : prior ∈ recorder_runs (db w))
    by (rewrite Hruns; apply list_elem_of_In; simpl; tauto).
  assert (H5 : end_ prior = Some 500) by reflexivity.
  assert (H6 : 500 ≤ recording_start (self w)) by (vm_compute; discriminate).
  assert (H7 : start prior < 400) by reflexivity.
  assert (H8 : 400 < 500) by reflexivity.
  assert (H9 : ∀ other, other ∈ recorder_runs (db w) → covers 400 other = true → other = prior).
  { intros other Hin. rewrite Hruns in Hin. apply list_elem_of_In in Hin. simpl in Hin.
    destruct Hin as [<-|[<-|[<-|[]]]]; vm_compute; intros Hc;
      first [reflexivity | discriminate Hc]. }
  split; [repeat (split; [assumption|]); assumption|].
  exact (proj1 (proj2 (proj2 (C6_run_information_strict calm w)) H1 H2 H3)
           400 prior 500 H4 H5 H6 H7 H8 H9).
Defined.

(** C7 at a started worker whose queue holds the stop marker. *)
Lemma C7_orderly_shutdown_witness :
  let w := plain_world [ItemNone] in
  let r := with_queue [] 1%nat (self w) in
  (queue_get (self w) = Some (ItemNone, r)
   ∧ serving w ∧ counted w
   ∧ raises_at calm (calls w) = false
   ∧ raises_at calm (S (calls w)) = false)
  ∧ ∃ w',
      loop_body split_at_dot purge_older calm w = Stop (Returned w')
      ∧ trace w' = trace w ++ [EQueueGet; EAdd; ECommit; EClose; EDispose; ETaskDone]
      ∧ unfinished_runs (db w') = []
      ∧ run_info (self w') = None
      ∧ engine (self w') = None.
Proof.
  intros w r.
  assert (H1 : queue_get (self w) = Some (ItemNone, r)) by (vm_compute; reflexivity).
  assert (H2 : serving w).
  { split; [vm_compute; eauto|]. split; [vm_compute; eauto|].
    eexists. split; [vm_compute; reflexivity|].
    split; [vm_compute; eauto|vm_compute; reflexivity]. }
  assert (H3 : counted w) by (vm_compute; exact (le_n 1)).
  assert (H4 : raises_at calm (calls w) = false) by reflexivity.
  assert (H5 : raises_at calm (S (calls w)) = false) by reflexivity.
  split; [repeat (split; [assumption|]); assumption|].
  destruct (C7_orderly_shutdown split_at_dot purge_older calm w r H1 H2 H3 H4 H5)
    as (w' & current & _ & Hstep & Htrace & _ & _ & Hnone & Hinfo & Hengine & _).
  exists w'. repeat (split; [assumption|]); assumption.
Defined.

(** C10 with one event queued before the start-up, and a host that
    delivers an event and a timer call and then calls the stop listener
    before the start listener. *)
Lemma C10_shutdown_before_start_witness :
  let w := start_world 500 (Some 10) ∅ ∅
             [ItemEvent (state_changed "light.kitchen" "on" 501)] empty_db in
  let pre := [BUS_EVENT (service_registered 502); TIME_INTERVAL] in
  let host := {| running := false;
                 signals := pre ++ HOMEASSISTANT_STOP :: [HOMEASSISTANT_START] |} in
  (connect_loop calm 5 None w = Some (true, started w)
   ∧ running host = false
   ∧ signals host = pre ++ HOMEASSISTANT_STOP :: [HOMEASSISTANT_START]
   ∧ Forall (λ sig, is_traffic sig = true) pre)
  ∧ ∃ w',
      run split_at_dot purge_older calm host 5 w = Returned w'
      ∧ queue (self w') =
          queue (self w) ++ flat_map (queued_by (purge_days (self w))) pre ++ [ItemNone]
      ∧ events (db w') = events (db w)
      ∧ states (db w') = states (db w).
Proof.
  intros w pre host.
  assert (H1 : connect_loop calm 5 None w = Some (true, started w))
    by (vm_compute; reflexivity).
  assert (H2 : running host = false) by reflexivity.
  assert (H3 : signals host = pre ++ HOMEASSISTANT_STOP :: [HOMEASSISTANT_START])
    by reflexivity.
  assert (H4 : Forall (λ sig, is_traffic sig = true) pre)
    by (repeat constructor).
  split; [repeat (split; [assumption|]); assumption|].
  destruct (C10_shutdown_before_start split_at_dot purge_older calm host 5 w (started w)
              pre [HOMEASSISTANT_START] H1 H2 H3 H4)
    as (w' & tr & current & Hrun & _ & Hq & Hev & Hst & _).
  exists w'. repeat (split; [assumption|]); assumption.
Defined.


(** * Further properties *)

(** ** Passes over events *)

(** The pass over an event is the per-event scope when the event is
    accepted, and [task_done; continue] otherwise. *)
Lemma event_pass
    (split_entity_id : string → string * string)
    (purge_old_data : Z → datetime → list Events * list States → list Events * list States)
    (env : Env) (w : World) (event : Event) (r : Recorder) :
  queue_get (self w) = Some (ItemEvent event, r) →
  loop_body split_entity_id purge_old_data env w =
  if accepted split_entity_id (filters (self w)) event
  then store env event (emit [EQueueGet] (set_self (λ _, r) w))
  else task_done_continue (emit [EQueueGet] (set_self (λ _, r) w)).
Proof.
  intros Hget. unfold loop_body, accepted. rewrite Hget.
  apply queue_get_inv in Hget as [_ Hr].
  assert (Hf : filters r = filters (self w)) by (by rewrite Hr).
  simpl. rewrite Hf.
  destruct (String.eqb _ _); simpl; [done|].
  destruct (data event !! ATTR_ENTITY_ID); [|done].
  destruct (excluded _ _ _); simpl; [done|].
  by destruct (not_included _ _ _).
Qed.

(** A pass that drops its event, in a world whose queue is counted. *)
Lemma dropped_pass
    (split_entity_id : string → string * string)
    (purge_old_data : Z → datetime → list Events * list States → list Events * list States)
    (env : Env) (w : World) (event : Event) (r : Recorder) :
  queue_get (self w) = Some (ItemEvent event, r) →
  accepted split_entity_id (filters (self w)) event = false →
  counted w →
  ∃ w',
    loop_body split_entity_id purge_old_data env w = Continue w'
    ∧ db w' = db w
    ∧ calls w' = calls w
    ∧ trace w' = trace w ++ [EQueueGet; ETaskDone]
    ∧ self w' = with_queue (queue r) (Nat.pred (unfinished_tasks (self w))) (self w).
Proof.
  intros Hget Hacc Hcount.
  rewrite (event_pass _ _ _ _ _ _ Hget), Hacc.
  apply queue_get_inv in Hget as [Hq Hr].
  unfold counted in Hcount. rewrite Hq in Hcount. simpl in Hcount.
  unfold task_done_continue. rewrite task_done_positive by (simpl; rewrite Hr; simpl; lia).
  eexists. split; [reflexivity|]. simpl. rewrite <- app_assoc.
  repeat split; try done. rewrite Hr. done.
Qed.

(** ** The filter as configured *)

(** X1. Without a recorder section in the configuration, or with one
    that has neither include nor exclude, the three filter lists of the
    recorder are empty; and a worker with these lists sends every event
    that is not a time tick to the per-event scope, whatever entity it
    carries. *)
Theorem unconfigured_filter_stores_everything
    (split_entity_id : string → string * string)
    (purge_old_data : Z → datetime → list Events * list States → list Events * list States)
    (config_path : string → string) (env0 : Env) (d : Database)
    (config : option RecorderConf) :
  (config = None
   ∨ ∃ conf, config = Some conf ∧ conf_include conf = None ∧ conf_exclude conf = None) →
  filters (self (async_setup config_path env0 config d)) = mkFilterLists [] [] []
  ∧ ∀ (env : Env) (w : World) (event : Event) (r : Recorder),
      filters (self w) = filters (self (async_setup config_path env0 config d)) →
      queue_get (self w) = Some (ItemEvent event, r) →
      event_type event ≠ EVENT_TIME_CHANGED →
      loop_body split_entity_id purge_old_data env w
      = store env event (emit [EQueueGet] (set_self (λ _, r) w)).
Proof.
  intros Hconf.
  assert (Hf : filters (self (async_setup config_path env0 config d)) = mkFilterLists [] [] []).
  { destruct Hconf as [->|(conf & -> & Hi & He)]; [done|].
    unfold async_setup. simpl. by rewrite Hi, He. }
  split; [done|]. intros env w event r Hw Hget Htick.
  rewrite (event_pass _ _ _ _ _ _ Hget), Hw, Hf. unfold accepted.
  apply String.eqb_neq in Htick. rewrite Htick. simpl.
  by destruct (data event !! ATTR_ENTITY_ID).
Qed.

(** X2. [Recorder.__init__] joins the excluded entities and the excluded
    domains into one list, and the first filter test looks both the
    entity id and the domain up in that list: an entity is dropped when
    its id or its domain occurs under either key (the domain only while
    the entity is not an included entity). *)
Theorem exclude_keys_are_merged
    (now : datetime) (purge_days_ : option Z) (uri : string)
    (include exclude_ : gmap string (list string)) (e d : string) :
  let f := filters (Recorder_init now purge_days_ uri include exclude_) in
  excluded f e d = true
  ↔ e ∈ dict_get exclude_ CONF_ENTITIES ∨ e ∈ dict_get exclude_ CONF_DOMAINS
    ∨ ((d ∈ dict_get exclude_ CONF_ENTITIES ∨ d ∈ dict_get exclude_ CONF_DOMAINS)
       ∧ (e ∉ dict_get include CONF_ENTITIES)).
Proof.
  simpl. rewrite excluded_rule1, bool_decide_eq_true. simpl.
  rewrite !elem_of_app. tauto.
Qed.

(** X3. An entity whose id is in the exclude list is never stored, even
    when it is an included entity of an included domain: the pass marks
    the task done and touches neither the tables nor the storage
    layer. *)
Theorem excluded_entity_is_dropped
    (split_entity_id : string → string * string)
    (purge_old_data : Z → datetime → list Events * list States → list Events * list States)
    (env : Env) (w : World) (event : Event) (r : Recorder) (e : string) :
  queue_get (self w) = Some (ItemEvent event, r) →
  data event !! ATTR_ENTITY_ID = Some e →
  e ∈ exclude (filters (self w)) →
  counted w →
  ∃ w',
    loop_body split_entity_id purge_old_data env w = Continue w'
    ∧ db w' = db w
    ∧ calls w' = calls w
    ∧ trace w' = trace w ++ [EQueueGet; ETaskDone].
Proof.
  intros Hget He Hex Hcount.
  destruct (dropped_pass split_entity_id purge_old_data env w event r)
    as (w' & Hstep & Hdb & Hcalls & Htrace & _); try done.
  - unfold accepted. rewrite He. unfold excluded.
    apply py_in_decide in Hex. rewrite Hex. simpl. apply andb_false_r.
  - by exists w'.
Qed.

(** X4. Included entities cannot reach beyond the included domains:
    when [include_domains] is not empty and does not hold the domain of
    the entity, the event is dropped, whether or not the entity is an
    included entity. *)
Theorem include_entities_cannot_extend_include_domains
    (split_entity_id : string → string * string)
    (purge_old_data : Z → datetime → list Events * list States → list Events * list States)
    (env : Env) (w : World) (event : Event) (r : Recorder) (e : string) :
  queue_get (self w) = Some (ItemEvent event, r) →
  data event !! ATTR_ENTITY_ID = Some e →
  include_d (filters (self w)) ≠ [] →
  fst (split_entity_id e) ∉ include_d (filters (self w)) →
  counted w →
  ∃ w',
    loop_body split_entity_id purge_old_data env w = Continue w'
    ∧ db w' = db w
    ∧ calls w' = calls w
    ∧ trace w' = trace w ++ [EQueueGet; ETaskDone].
Proof.
  intros Hget He Hne Hd Hcount.
  destruct (dropped_pass split_entity_id purge_old_data env w event r)
    as (w' & Hstep & Hdb & Hcalls & Htrace & _); try done.
  - unfold accepted. rewrite He.
    assert (Hni : not_included (filters (self w)) e (fst (split_entity_id e)) = true).
    { unfold not_included.
      apply truthy_nonempty in Hne. apply py_in_false in Hd.
      by rewrite Hne, Hd. }
    rewrite Hni. simpl. rewrite andb_false_r. apply andb_false_r.
  - by exists w'.
Qed.

(** X5. Once anything is excluded, [include_entities] no longer
    restricts what is stored: an entity that is not excluded, neither by
    id nor by domain, and that passes the included domains, goes to the
    per-event scope whether or not it is among the included entities. *)
Theorem include_entities_do_not_restrict_beside_an_exclude
    (split_entity_id : string → string * string)
    (purge_old_data : Z → datetime → list Events * list States → list Events * list States)
    (env : Env) (w : World) (event : Event) (r : Recorder) (e : string) :
  queue_get (self w) = Some (ItemEvent event, r) →
  event_type event ≠ EVENT_TIME_CHANGED →
  data event !! ATTR_ENTITY_ID = Some e →
  exclude (filters (self w)) ≠ [] →
  e ∉ exclude (filters (self w)) →
  fst (split_entity_id e) ∉ exclude (filters (self w)) →
  (include_d (filters (self w)) = [] ∨ fst (split_entity_id e) ∈ include_d (filters (self w))) →
  loop_body split_entity_id purge_old_data env w
  = store env event (emit [EQueueGet] (set_self (λ _, r) w)).
Proof.
  intros Hget Htick He Hne Hex Hdx Hdom.
  rewrite (event_pass _ _ _ _ _ _ Hget).
  assert (Hacc : accepted split_entity_id (filters (self w)) event = true); [|by rewrite Hacc].
  unfold accepted. apply String.eqb_neq in Htick. rewrite Htick, He. simpl.
  unfold excluded, not_included.
  apply py_in_false in Hex, Hdx. rewrite Hex, Hdx. simpl.
  apply truthy_nonempty in Hne. rewrite Hne. simpl. rewrite andb_false_r, orb_false_r.
  destruct Hdom as [Hd|Hd].
  - by rewrite Hd.
  - apply py_in_decide in Hd. rewrite Hd. simpl. by rewrite andb_false_r.
Qed.

(** ** Draining the queue *)

(** X6. FIFO persistence.  A serving worker whose queue holds events
    only, all counted, with a storage layer that never raises, takes
    them all and then waits; [block_till_done] returns; the events table
    has grown by one row per accepted event, in queue order, each with a
    generated identifier and otherwise as [Events.from_event] built it;
    the states table has grown likewise by one row per accepted
    state-changed event; the runs are untouched. *)
Theorem drained_queue_is_stored_in_order
    (split_entity_id : string → string * string)
    (purge_old_data : Z → datetime → list Events * list States → list Events * list States)
    (env : Env) (evs : list Event) :
  ∀ (fuel : nat) (w : World),
  serving w →
  queue (self w) = ItemEvent <$> evs →
  unfinished_tasks (self w) = length evs →
  (∀ n, raises_at env n = false) →
  (length evs < fuel)%nat →
  ∃ w' new_events new_states,
    consume split_entity_id purge_old_data env fuel w = Blocked w'
    ∧ queue (self w') = []
    ∧ block_till_done_returns w' = true
    ∧ events (db w') = events (db w) ++ new_events
    ∧ set_event_id None <$> new_events
      = Events_from_event
          <$> List.filter (accepted split_entity_id (filters (self w))) evs
    ∧ Forall (λ row, is_Some (event_id row)) new_events
    ∧ states (db w') = states (db w) ++ new_states
    ∧ set_state_id None <$> new_states
      = States_from_event
          <$> List.filter (λ event, accepted split_entity_id (filters (self w)) event
                                    && String.eqb (event_type event) EVENT_STATE_CHANGED) evs
    ∧ recorder_runs (db w') = recorder_runs (db w).
Proof.
  induction evs as [|event evs IH]; intros fuel w Hserving Hq Hcount Hcalm Hfuel.
  - destruct fuel as [|fuel]; [simpl in Hfuel; lia|].
    exists w, [], []. simpl. unfold loop_body, queue_get. rewrite Hq. simpl.
    rewrite !app_nil_r. repeat split; try done.
    unfold block_till_done_returns, queue_join_returns. by rewrite Hcount.
  - destruct fuel as [|fuel]; [simpl in Hfuel; lia|].
    simpl in Hq, Hcount, Hfuel.
    set (r := with_queue (ItemEvent <$> evs) (unfinished_tasks (self w)) (self w)).
    assert (Hget : queue_get (self w) = Some (ItemEvent event, r))
      by (unfold queue_get; by rewrite Hq).
    assert (Hcounted : counted w) by (unfold counted; rewrite Hq, Hcount; simpl; rewrite length_fmap; lia).
    assert (Hstep : ∃ w1,
      loop_body split_entity_id purge_old_data env w = Continue w1
      ∧ self w1 = with_queue (ItemEvent <$> evs) (length evs) (self w)
      ∧ recorder_runs (db w1) = recorder_runs (db w)
      ∧ events (db w1) = events (db w)
          ++ (if accepted split_entity_id (filters (self w)) event
              then [set_event_id (Some (fresh_id (event_id <$> events (db w))))
                                 (Events_from_event event)] else [])
      ∧ states (db w1) = states (db w)
          ++ (if accepted split_entity_id (filters (self w)) event
                 && String.eqb (event_type event) EVENT_STATE_CHANGED
              then [set_state_id (Some (fresh_id (state_id <$> states (db w))))
                      (set_states_event_id None (States_from_event event))] else [])).
    { destruct (accepted split_entity_id (filters (self w)) event) eqn:Hacc.
      - rewrite (event_pass _ _ _ _ _ _ Hget), Hacc.
        destruct (store_commits env event (emit [EQueueGet] (set_self (λ _, r) w)))
          as (w1 & Hst & Hev & Hstates & Hruns & _ & Hself); try done.
        { simpl. by destruct Hserving as (? & _). }
        { simpl. rewrite Hcount. lia. }
        exists w1. split; [done|]. simpl in *.
        rewrite Hself, Hcount, Hev, Hstates, Hruns. done.
      - destruct (dropped_pass split_entity_id purge_old_data env w event r)
          as (w1 & Hst & Hdb & _ & _ & Hself); try done.
        exists w1. split; [done|]. rewrite Hself, Hdb, Hcount. simpl.
        by rewrite !app_nil_r. }
    destruct Hstep as (w1 & Hstep & Hself & Hruns & Hev & Hst).
    destruct (IH fuel w1)
      as (w' & ne & ns & Hcons & Hq' & Hdone & Hev' & Hne & Hids & Hst' & Hns & Hruns');
      [by eapply loop_continue_serving | by rewrite Hself | by rewrite Hself
      | done | lia |].
    assert (Hf : filters (self w1) = filters (self w)) by (by rewrite Hself).
    rewrite Hf in Hne, Hns.
    destruct (accepted split_entity_id (filters (self w)) event) eqn:Hacc; simpl in *.
    + exists w',
        (set_event_id (Some (fresh_id (event_id <$> events (db w)))) (Events_from_event event)
           :: ne),
        ((if String.eqb (event_type event) EVENT_STATE_CHANGED
          then [set_state_id (Some (fresh_id (state_id <$> states (db w))))
                  (set_states_event_id None (States_from_event event))] else []) ++ ns).
      rewrite Hstep, Hacc. simpl.
      split; [done|]. split; [done|]. split; [done|].
      split; [by rewrite Hev', Hev, <- app_assoc|].
      split; [f_equal; exact Hne|].
      split; [constructor; [by eexists|done]|].
      split; [by rewrite Hst', Hst, <- app_assoc|].
      split; [|congruence].
      destruct (String.eqb (event_type event) EVENT_STATE_CHANGED); simpl;
        [f_equal|]; exact Hns.
    + exists w', ne, ns. rewrite Hstep, Hacc. simpl.
      rewrite Hev', Hev, Hst', Hst, !app_nil_r.
      repeat split; try done. congruence.
Qed.

(** X7. Whatever the storage layer does, when the loop has taken every
    item and waits on the empty queue, the tasks still unfinished are
    exactly the purge markers it has taken: [block_till_done] returns
    if and only if no purge marker was queued. *)
Theorem unfinished_tasks_are_the_purge_markers
    (split_entity_id : string → string * string)
    (purge_old_data : Z → datetime → list Events * list States → list Events * list States)
    (env : Env) (fuel : nat) (w w' : World) :
  unfinished_tasks (self w) = length (queue (self w)) →
  consume split_entity_id purge_old_data env fuel w = Blocked w' →
  queue (self w') = []
  ∧ unfinished_tasks (self w') = length (List.filter is_purge (queue (self w)))
  ∧ (block_till_done_returns w' = true
     ↔ Forall (λ item, item ≠ ItemPurge) (queue (self w))).
Proof.
  intros Hcount Hblocked.
  assert (Hgen : ∀ fuel w k,
            unfinished_tasks (self w) = (length (queue (self w)) + k)%nat →
            consume split_entity_id purge_old_data env fuel w = Blocked w' →
            queue (self w') = []
            ∧ unfinished_tasks (self w')
              = (k + length (List.filter is_purge (queue (self w))))%nat).
  { clear. induction fuel as [|fuel IH]; intros w k Hcount; [done|].
    simpl.
    destruct (loop_body split_entity_id purge_old_data env w) as [w1|o] eqn:Hstep.
    - apply loop_continue_keeps in Hstep as (item & n & Hq & _ & _ & Hself & Hn & Hpos).
      rewrite Hq in Hcount |- *. simpl in Hcount.
      assert (Hp : (0 < unfinished_tasks (self w))%nat) by lia.
      destruct item as [| |event]; simpl in *.
      + intros Hcons. apply (IH _ k) in Hcons as [Hq' Hu']; [done|].
        rewrite Hself. simpl. lia.
      + intros Hcons. apply (IH _ (S k)) in Hcons as [Hq' Hu'].
        * split; [done|]. lia.
        * rewrite Hself. simpl. lia.
      + intros Hcons. apply (IH _ k) in Hcons as [Hq' Hu']; [done|].
        rewrite Hself. simpl. lia.
    - intros ->. apply loop_blocks_on_empty_queue in Hstep as [Hq ->].
      rewrite Hq in Hcount |- *. simpl in *. split; [done|lia]. }
  destruct (Hgen fuel w 0%nat) as [Hq Hu]; [lia|done|].
  split; [done|]. split; [done|].
  unfold block_till_done_returns, queue_join_returns.
  rewrite bool_decide_eq_true, Hu. simpl.
  generalize (queue (self w)). clear. intros q.
  induction q as [|item q IH]; simpl.
  - split; [constructor|done].
  - destruct item; simpl.
    + rewrite IH. split; [by constructor|by intros [_ ?]%Forall_cons].
    + split; [done|by intros [? _]%Forall_cons].
    + rewrite IH. split; [by constructor|by intros [_ ?]%Forall_cons].
Qed.

(** ** When the storage layer raises *)

(** X8. A failure of the per-event scope is not recovered: when the
    body or the commit raises for an accepted event, the exception
    leaves [run]; the scope has been rolled back and closed, the tables
    are as before, the items behind the event stay in the queue, and the
    task of the event is never marked done, so [block_till_done] does
    not return. *)
Theorem store_failure_ends_the_worker
    (split_entity_id : string → string * string)
    (purge_old_data : Z → datetime → list Events * list States → list Events * list States)
    (env : Env) (fuel : nat) (w : World) (event : Event) (r : Recorder) :
  queue_get (self w) = Some (ItemEvent event, r) →
  accepted split_entity_id (filters (self w)) event = true →
  serving w → counted w →
  raises_at env (calls w) = true ∨ raises_at env (S (calls w)) = true →
  ∃ w' tr,
    consume split_entity_id purge_old_data env (S fuel) w = Raised w'
    ∧ db w' = db w
    ∧ self w' = r
    ∧ trace w' = trace w ++ [EQueueGet] ++ tr ++ [ERollback; EClose]
    ∧ Forall (λ e, e = EAdd) tr
    ∧ block_till_done_returns w' = false.
Proof.
  intros Hget Hacc (Hsf & _) Hcount Hraise.
  simpl. rewrite (event_pass _ _ _ _ _ _ Hget), Hacc.
  apply queue_get_inv in Hget as [Hq Hr].
  destruct Hsf as [sf Hsf].
  assert (Hsfr : get_session r = Some sf) by (by rewrite Hr).
  assert (Hjoin : queue_join_returns r = false).
  { unfold queue_join_returns. apply bool_decide_eq_false.
    unfold counted in Hcount. rewrite Hq in Hcount. rewrite Hr. simpl in *. lia. }
  unfold store. simpl. rewrite Hsfr.
  unfold session_scope, raises. simpl.
  destruct (raises_at env (calls w)) eqn:Hb; simpl.
  - eexists _, []. split; [reflexivity|]. simpl. rewrite <- app_assoc.
    repeat split; done.
  - destruct Hraise as [?|Hc]; [done|].
    destruct (String.eqb (event_type event) EVENT_STATE_CHANGED); simpl; rewrite Hc; simpl.
    + eexists _, [EAdd; EAdd]. split; [reflexivity|]. simpl. rewrite <- !app_assoc.
      repeat split; try done. by repeat constructor.
    + eexists _, [EAdd]. split; [reflexivity|]. simpl. rewrite <- !app_assoc.
      repeat split; try done. by repeat constructor.
Qed.

(** X9. When the scope of [_close_run] raises at the stop marker, the
    exception leaves [run] before the connection is closed and before
    the marker is marked done: engine and session factory stay in
    place, nothing is disposed, and the stored run keeps its null end
    (the assignment to [self.run_info.end] is lost with the rollback),
    so that the next start-up will end it as [closed_incorrect]. *)
Theorem close_run_failure_leaves_the_run_open
    (split_entity_id : string → string * string)
    (purge_old_data : Z → datetime → list Events * list States → list Events * list States)
    (env : Env) (w : World) (r : Recorder) :
  queue_get (self w) = Some (ItemNone, r) →
  serving w →
  raises_at env (calls w) = true ∨ raises_at env (S (calls w)) = true →
  ∃ w' current,
    loop_body split_entity_id purge_old_data env w = Stop (Raised w')
    ∧ db w' = db w
    ∧ unfinished_runs (db w') = [current]
    ∧ engine (self w') = engine (self w)
    ∧ get_session (self w') = get_session (self w)
    ∧ unfinished_tasks (self w') = unfinished_tasks (self w)
    ∧ (trace w' = trace w ++ [EQueueGet; ERollback; EClose]
       ∨ trace w' = trace w ++ [EQueueGet; EAdd; ERollback; EClose])
    ∧ (∀ env2 w2 w3,
         db w2 = db w' →
         _setup_run env2 w2 = Return tt w3 →
         ∃ i run',
           recorder_runs (db w3) !! i = Some run'
           ∧ run_id run' = run_id current
           ∧ closed_incorrect run' = true
           ∧ end_ run' = Some (recording_start (self w2))).
Proof.
  intros Hget ([sf Hsf] & _ & current & Hrun & _ & Hopen) Hraise.
  unfold loop_body. rewrite Hget.
  apply queue_get_inv in Hget as [Hq Hr].
  assert (Hsfr : get_session r = Some sf) by (by rewrite Hr).
  assert (Hrunr : run_info r = Some current) by (by rewrite Hr).
  assert (Hlater : ∀ env2 w2 w3,
            db w2 = db w →
            _setup_run env2 w2 = Return tt w3 →
            ∃ i run',
              recorder_runs (db w3) !! i = Some run'
              ∧ run_id run' = run_id current
              ∧ closed_incorrect run' = true
              ∧ end_ run' = Some (recording_start (self w2))).
  { intros env2 w2 w3 Hdb Hret.
    assert (Hin : In current (unfinished_runs (db w))) by (rewrite Hopen; by left).
    apply filter_In in Hin as [Hin Hend].
    apply (_setup_run_ends_unfinished env2 w2 w3 current Hret).
    - rewrite Hdb. by apply list_elem_of_In.
    - unfold end_is_None in Hend. by destruct (end_ current). }
  unfold _close_run. simpl. rewrite Hsfr.
  unfold session_scope, raises. simpl.
  destruct (raises_at env (calls w)) eqn:Hb; simpl.
  - eexists _, current. split; [reflexivity|]. simpl. rewrite <- app_assoc.
    rewrite Hr. simpl. repeat split; try done. by left.
  - destruct Hraise as [?|Hc]; [done|].
    rewrite Hrunr. simpl. rewrite Hc. simpl.
    eexists _, current. split; [reflexivity|]. simpl. rewrite <- !app_assoc.
    rewrite Hr. simpl. repeat split; try done. by right.
Qed.

(** X10. With a storage layer that never raises, no pass of a serving
    worker raises: every pass either goes round again or, at the stop
    marker, returns.  (A purge marker needs [purge_days] to be set, as
    it is whenever the timer that queues the marker was installed.) *)
Theorem calm_pass_never_raises
    (split_entity_id : string → string * string)
    (purge_old_data : Z → datetime → list Events * list States → list Events * list States)
    (env : Env) (w : World) (item : Item) (r : Recorder) :
  queue_get (self w) = Some (item, r) →
  serving w → counted w →
  (item = ItemPurge → is_Some (purge_days (self w))) →
  (∀ n, raises_at env n = false) →
  ∃ w',
    (item ≠ ItemNone ∧ loop_body split_entity_id purge_old_data env w = Continue w')
    ∨ (item = ItemNone
       ∧ loop_body split_entity_id purge_old_data env w = Stop (Returned w')).
Proof.
  intros Hget Hserving Hcount Hpurge Hcalm.
  apply queue_get_inv in Hget as Hinv. destruct Hinv as [Hq Hr].
  destruct (decide (is_stop item = true)) as [Hstop|Hstop].
  - destruct item; try done.
    destruct Hserving as (Hsf & Heng & run & Hrun & Hid & Hopen).
    destruct (stop_marker_step split_entity_id purge_old_data env w r run)
      as (w' & Hstep & _); try done.
    { unfold counted in Hcount. rewrite Hq in Hcount. simpl in Hcount. lia. }
    exists w'. by right.
  - assert (Hitem : item ≠ ItemNone) by (by destruct item).
    destruct (loop_progress split_entity_id purge_old_data env w item (queue r))
      as [w' Hstep]; try done.
    exists w'. by left.
Qed.

(** ** Start-up attempts and the stored runs *)

Lemma _setup_connection_db (env : Env) (w : World) :
  db (py_world (_setup_connection env w)) = db w
  ∧ recording_start (self (py_world (_setup_connection env w))) = recording_start (self w).
Proof.
  unfold _setup_connection, raises. simpl.
  destruct (raises_at env (calls w)); simpl; [done|].
  by destruct (raises_at env (S (calls w))).
Qed.

(** [_setup_connection] either raises in [create_engine], and then has
    touched neither [self] nor the trace, or leaves an engine behind and
    [create_engine] in the trace. *)
Lemma _setup_connection_engine (env : Env) (w : World) :
  (self (py_world (_setup_connection env w)) = self w
   ∧ trace (py_world (_setup_connection env w)) = trace w
   ∧ ∃ w', _setup_connection env w = Raise w')
  ∨ (is_Some (engine (self (py_world (_setup_connection env w))))
     ∧ ∃ tr, trace (py_world (_setup_connection env w)) = trace w ++ ECreateEngine :: tr).
Proof.
  unfold _setup_connection, raises. simpl.
  destruct (raises_at env (calls w)); simpl; [left; eauto|].
  right. destruct (raises_at env (S (calls w))); simpl.
  - split; [eauto|]. by exists [].
  - split; [eauto|]. exists [ECreateAll]. by rewrite <- app_assoc.
Qed.

Lemma _setup_run_raise_db (env : Env) (w w' : World) :
  _setup_run env w = Raise w' →
  db w' = db w ∧ engine (self w') = engine (self w).
Proof.
  unfold _setup_run.
  destruct (get_session (self w)); [|by intros [= <-]].
  unfold session_scope, raises. simpl.
  destruct (raises_at env (calls w)); simpl; [by intros [= <-]|].
  destruct (raises_at env (S (calls w))); simpl; [by intros [= <-]|done].
Qed.

(** A [try] block that raises has left the tables as they were; and
    either [create_engine] raised, with [self] and the trace untouched,
    or an engine is left behind. *)
Lemma try_setup_raise_db (env : Env) (w w' : World) :
  try_setup env w = Raise w' →
  db w' = db w
  ∧ ((self w' = self w ∧ trace w' = trace w)
     ∨ (is_Some (engine (self w'))
        ∧ ∃ tr, trace w' = trace w ++ ECreateEngine :: tr)).
Proof.
  unfold try_setup.
  destruct (_setup_connection_db env w) as (Hdb1 & _).
  pose proof (_setup_connection_engine env w) as Heng1.
  destruct (_setup_connection env w) as [[] w1|w1]; simpl in *.
  - destruct Heng1 as [(_ & _ & ? & ?)|(Heng1 & tr1 & Htr1)]; [done|].
    destruct (migrate_schema_step env w1) as (((tr2 & Htr2 & _) & _) & Hself2 & Hdb2).
    destruct (migrate_schema env w1) as [[] w2|w2]; simpl in *.
    + pose proof (_setup_run_step env w2) as ((tr3 & Htr3 & _) & _).
      destruct (_setup_run env w2) as [[] w3|w3] eqn:Hrun; [done|].
      apply _setup_run_raise_db in Hrun as [Hdb3 Heng3]. simpl in Htr3.
      intros [= <-]. split; [by rewrite Hdb3, Hdb2|]. right.
      split; [by rewrite Heng3, Hself2|].
      exists (tr1 ++ tr2 ++ tr3).
      by rewrite Htr3, Htr2, Htr1, <- !app_assoc.
    + intros [= <-]. split; [by rewrite Hdb2|]. right.
      split; [by rewrite Hself2|].
      exists (tr1 ++ tr2). by rewrite Htr2, Htr1, <- !app_assoc.
  - intros [= <-]. split; [done|].
    destruct Heng1 as [(Hself & Htr & _)|(Heng1 & tr1 & Htr1)]; [by left|].
    right. split; [done|]. by exists tr1.
Qed.

(** The rows of a [try] block that reaches its [break]. *)
Lemma try_setup_return_rows (env : Env) (w w' : World) :
  try_setup env w = Return tt w' →
  ∃ new,
    recorder_runs (db w') =
      ((λ run, if end_is_None run
               then end_unfinished (recording_start (self w)) run else run)
         <$> recorder_runs (db w)) ++ [new]
    ∧ run_info (self w') = Some new
    ∧ start new = recording_start (self w)
    ∧ end_ new = None
    ∧ closed_incorrect new = false
    ∧ run_id new
      = Some (fresh_id (run_id <$>
                ((λ run, if end_is_None run
                         then end_unfinished (recording_start (self w)) run else run)
                   <$> recorder_runs (db w)))).
Proof.
  unfold try_setup.
  destruct (_setup_connection_db env w) as (Hdb1 & Hrs1).
  destruct (_setup_connection env w) as [[] w1|w1]; simpl in *; [|done].
  destruct (migrate_schema_step env w1) as (_ & Hself2 & Hdb2).
  destruct (migrate_schema env w1) as [[] w2|w2]; simpl in *; [|done].
  destruct (_setup_run env w2) as [[] w3|w3] eqn:Hrun; [|done].
  apply _setup_run_returns in Hrun as (Hruns & _ & _ & Hself & _).
  cbv zeta in Hruns, Hself.
  intros [= <-]. simpl. rewrite Hself, Hruns, Hdb2, Hdb1, Hself2, Hrs1. simpl.
  eexists. split; [reflexivity|]. repeat split; try done.
Qed.

Lemma connect_loop_fatal (env : Env) (fuel : nat) :
  ∀ (retry : option Z) (w w' : World),
  connect_loop env fuel retry w = Some (false, w') →
  db w' = db w
  ∧ ∃ tr, trace w' = trace w ++ tr
          ∧ (is_Some (engine (self w'))
             ↔ is_Some (engine (self w)) ∨ ECreateEngine ∈ tr).
Proof.
  induction fuel as [|fuel IH]; intros retry w w'; [done|].
  simpl.
  destruct (try_setup env w) as [[] w1|w1] eqn:Htry; [done|].
  apply try_setup_raise_db in Htry as [Hdb Heng].
  assert (Hone : ∃ tr1, trace w1 = trace w ++ tr1
                        ∧ (is_Some (engine (self w1))
                           ↔ is_Some (engine (self w)) ∨ ECreateEngine ∈ tr1)).
  { destruct Heng as [[Hself Htr]|(Heng & tr1 & Htr1)].
    - exists []. rewrite app_nil_r, Hself. split; [done|].
      split; [by left|]. intros [?|Hin]; [done|]. by apply elem_of_nil in Hin.
    - exists (ECreateEngine :: tr1). split; [done|].
      split; [intros _; right; by left|done]. }
  destruct Hone as (tr1 & Htr1 & Hiff1).
  destruct (_ =? 0).
  - intros [= <-]. simpl. split; [done|].
    eexists. split; [rewrite Htr1, <- !app_assoc; reflexivity|].
    rewrite Hiff1, !elem_of_app, !elem_of_cons, elem_of_nil.
    intuition discriminate.
  - intros Hloop. apply IH in Hloop as (Hdb' & tr & Htr & Hiff). simpl in *.
    split; [by rewrite Hdb', Hdb|].
    exists (tr1 ++ [ELogError; ESleep CONNECT_RETRY_WAIT] ++ tr).
    split; [by rewrite Htr, Htr1, <- !app_assoc|].
    rewrite Hiff, Hiff1, !elem_of_app, !elem_of_cons, elem_of_nil.
    intuition discriminate.
Qed.

(** X11. A start-up that gives up has changed nothing in storage: every
    failed attempt was rolled back, so the runs a crashed session left
    without an end are still without an end. *)
Theorem fatal_startup_leaves_storage_untouched
    (env : Env) (fuel : nat) (w w' : World) :
  connect_loop env fuel None w = Some (false, w') →
  db w' = db w.
Proof. intros H. by apply connect_loop_fatal in H as [? _]. Qed.

(** X12. A start-up that gives up has disposed nothing, and it leaves
    [self.engine] set exactly when it was set before or [create_engine]
    has returned in at least one of the attempts: the engine of a later
    attempt, or of an earlier one when [create_engine] raised
    afterwards, stays in place; and when [create_engine] raised in every
    attempt of a fresh recorder, [self.engine] is still [None]. *)
Theorem fatal_startup_never_disposes_the_engine
    (env : Env) (fuel : nat) (w w' : World) :
  connect_loop env fuel None w = Some (false, w') →
  ∃ tr, trace w' = trace w ++ tr
        ∧ (EDispose ∉ tr)
        ∧ (is_Some (engine (self w'))
           ↔ is_Some (engine (self w)) ∨ ECreateEngine ∈ tr).
Proof.
  intros H. pose proof H as Hinv.
  apply connect_loop_fatal in H as (_ & tr & Htr & Hiff).
  apply connect_loop_inv in Hinv as ((tr' & Htr' & Hstart) & _).
  exists tr. split; [done|]. split; [|done].
  rewrite Htr in Htr'. apply app_inv_head in Htr' as ->. intros Hin.
  rewrite Forall_forall in Hstart. by apply Hstart in Hin.
Qed.

Lemma connect_loop_success_rows
    (env : Env) (fuel : nat) :
  ∀ (retry : option Z) (w w' : World),
  connect_loop env fuel retry w = Some (true, w') →
  ∃ new,
    recorder_runs (db w') =
      ((λ run, if end_is_None run
               then end_unfinished (recording_start (self w)) run else run)
         <$> recorder_runs (db w)) ++ [new]
    ∧ events (db w') = events (db w)
    ∧ states (db w') = states (db w)
    ∧ run_info (self w') = Some new
    ∧ start new = recording_start (self w)
    ∧ end_ new = None
    ∧ closed_incorrect new = false
    ∧ run_id new
      = Some (fresh_id (run_id <$>
                ((λ run, if end_is_None run
                         then end_unfinished (recording_start (self w)) run else run)
                   <$> recorder_runs (db w)))).
Proof.
  induction fuel as [|fuel IH]; intros retry w w'; [done|].
  intros Hloop. pose proof Hloop as Hinv.
  apply connect_loop_inv in Hinv as (_ & _ & _ & Hev & Hst & _).
  revert Hloop. simpl.
  destruct (try_setup env w) as [[] w1|w1] eqn:Htry.
  - intros [= <-].
    apply try_setup_return_rows in Htry as (new & Hruns & Hinfo & Hs & He & Hc & Hid).
    exists new. done.
  - pose proof Htry as Hstep.
    apply try_setup_raise_db in Htry as [Hdb _].
    apply try_setup_raises in Hstep as (_ & _ & _ & _ & Hrs & _).
    destruct (_ =? 0); [done|].
    intros Hloop. apply IH in Hloop as (new & Hruns & _ & _ & Hinfo & Hs & He & Hc & Hid).
    simpl in *. exists new. rewrite Hruns, Hid, Hdb, Hrs, Hs, Hrs. done.
Qed.

(** X13. However many attempts failed before, a start-up that succeeds
    has added exactly one run, with [start = recording_start], no end
    and [closed_incorrect = false]; it has ended the runs that were
    stored without an end and has changed nothing else. *)
Theorem successful_startup_adds_one_run
    (env : Env) (fuel : nat) (retry : option Z) (w w' : World) :
  connect_loop env fuel retry w = Some (true, w') →
  ∃ new,
    recorder_runs (db w') =
      ((λ run, if end_is_None run
               then end_unfinished (recording_start (self w)) run else run)
         <$> recorder_runs (db w)) ++ [new]
    ∧ events (db w') = events (db w)
    ∧ states (db w') = states (db w)
    ∧ run_info (self w') = Some new
    ∧ start new = recording_start (self w)
    ∧ end_ new = None
    ∧ closed_incorrect new = false.
Proof.
  intros Hloop.
  apply connect_loop_success_rows in Hloop as (new & H1 & H2 & H3 & H4 & H5 & H6 & H7 & _).
  by exists new.
Qed.

(** ** A whole session and its run *)

Lemma fresh_run_id_is_new (tbl : list RecorderRuns) (row : RecorderRuns) :
  row ∈ tbl → run_id row ≠ Some (fresh_id (run_id <$> tbl)).
Proof.
  intros Hin Hid. unfold fresh_id in Hid.
  assert (Hk : S (max_list (omap id (run_id <$> tbl))) ∈ omap id (run_id <$> tbl)).
  { apply list_elem_of_omap. exists (run_id row). split; [|done].
    apply list_elem_of_fmap. by exists row. }
  apply max_list_elem_of_le in Hk. lia.
Qed.

Lemma update_run_end_last (R : list RecorderRuns) (new : RecorderRuns) (t : datetime) :
  run_id new = Some (fresh_id (run_id <$> R)) →
  update_run_end (set_end (Some t) new) (R ++ [new]) = R ++ [set_end (Some t) new].
Proof.
  intros Hid. unfold update_run_end. rewrite fmap_app.
  change (run_id (set_end (Some t) new)) with (run_id new). f_equal.
  - assert (Hrows : ∀ row, row ∈ R → has_run_id (run_id new) row = false).
    { intros row Hin. unfold has_run_id. apply bool_decide_eq_false.
      rewrite Hid. by apply fresh_run_id_is_new. }
    clear Hid. induction R as [|row R IH]; [done|].
    rewrite fmap_cons, (Hrows row) by (by left).
    f_equal. apply IH. intros row' Hin. apply Hrows. by right.
  - simpl. unfold has_run_id. by rewrite bool_decide_eq_true_2.
Qed.

(** The rows after the pass that returns. *)
Lemma loop_return_rows
    (split_entity_id : string → string * string)
    (purge_old_data : Z → datetime → list Events * list States → list Events * list States)
    (env : Env) (w w' : World) (run : RecorderRuns) :
  loop_body split_entity_id purge_old_data env w = Stop (Returned w') →
  run_info (self w) = Some run →
  recorder_runs (db w')
  = update_run_end (set_end (Some (utcnow_at env (clock_reads w))) run)
                   (recorder_runs (db w))
  ∧ events (db w') = events (db w)
  ∧ states (db w') = states (db w).
Proof.
  intros Hret Hrun. revert Hret. unfold loop_body.
  destruct (queue_get (self w)) as [[item r]|] eqn:Hget; [|done].
  apply queue_get_inv in Hget as [_ Hr].
  assert (Hrunr : run_info r = Some run) by (by rewrite Hr).
  destruct item as [| |event].
  - unfold _close_run. simpl.
    destruct (get_session r); [|done].
    unfold session_scope, raises. simpl. rewrite Hrunr.
    destruct (raises_at env (calls w)); simpl; [done|].
    destruct (raises_at env (S (calls w))); simpl; [done|].
    destruct (negb _); simpl; [done|].
    unfold _close_connection. simpl.
    destruct (engine r); [|done].
    unfold task_done, queue_task_done. simpl.
    destruct (unfinished_tasks r); [done|].
    by intros [= <-].
  - by destruct (call_purge _ _ _).
  - event_branches ltac:(intros H; by apply task_done_continue_never_returns in H)
                   ltac:(intros H; by apply store_never_returns in H).
Qed.

(** X14. A session that starts up and shuts down in order leaves its
    own run finished and not marked [closed_incorrect], and leaves every
    other run exactly as its start-up left it: between the start-up and
    the return of the loop the runs table changes in one place only, the
    end of the last row. *)
Theorem orderly_session_finishes_its_own_run_only
    (split_entity_id : string → string * string)
    (purge_old_data : Z → datetime → list Events * list States → list Events * list States)
    (env env2 : Env) (fuel : nat) (w w1 w2 w3 : World) :
  connect_loop env fuel None w = Some (true, w1) →
  db w2 = db w1 → run_info (self w2) = run_info (self w1) →
  loop_reaches split_entity_id purge_old_data env2 w2 w3 →
  run_info (self w3) = None →
  ∃ others new t,
    recorder_runs (db w1) = others ++ [new]
    ∧ recorder_runs (db w3) = others ++ [set_end (Some t) new]
    ∧ start new = recording_start (self w)
    ∧ closed_incorrect new = false.
Proof.
  intros Hloop Hdb Hinfo Hreach Hnone.
  apply connect_loop_success_rows in Hloop
    as (new & Hruns & _ & _ & Hrun & Hstart & _ & Hclosed & Hid).
  set (others := (λ run, if end_is_None run
                         then end_unfinished (recording_start (self w)) run else run)
                   <$> recorder_runs (db w)) in *.
  assert (Hruns1 := Hruns).
  rewrite <- Hdb in Hruns. rewrite <- Hinfo in Hrun.
  clear Hdb Hinfo.
  assert (Hgoal : ∃ t, recorder_runs (db w3) = others ++ [set_end (Some t) new]).
  { clear Hruns1. revert Hruns Hrun Hnone.
    induction Hreach as [w2 | w2 w2' w3 Hstep _ IH | w2 w3 Hret];
      intros Hruns Hrun Hnone.
    - congruence.
    - apply loop_continue_keeps in Hstep as (? & ? & _ & _ & Hrows & Hself & _).
      apply IH; [by rewrite Hrows | by rewrite Hself | done].
    - apply loop_return_rows with (run := new) in Hret as [Hrows _]; [|done].
      eexists. rewrite Hrows, Hruns. by apply update_run_end_last. }
  destruct Hgoal as [t Ht]. by exists others, new, t.
Qed.

(** ** [run_information] beyond the calm case *)

(** X15. [run_information] only reads: whether it returns or raises,
    and whatever the storage layer does, the stored tables and the
    recorder are as before. *)
Theorem run_information_is_read_only
    (env : Env) (w : World) (point_in_time : option datetime) :
  db (py_world (run_information env w point_in_time)) = db w
  ∧ self (py_world (run_information env w point_in_time)) = self w.
Proof.
  unfold run_information.
  destruct (match point_in_time with None => true | Some t => t >? recording_start (self w) end);
    [done|].
  destruct point_in_time as [t|]; [|done].
  destruct (get_session (self w)); [|done].
  unfold session_scope, raises. simpl.
  destruct (raises_at env (calls w)); simpl; [done|].
  destruct (head (List.filter (covers t) (recorder_runs (db w)))); simpl;
    destruct (raises_at env (S (calls w))); simpl; try done;
    by destruct (db w).
Qed.

Lemma head_filter_first {A : Type} (f : A → bool) (l : list A) (x : A) :
  head (List.filter f l) = Some x →
  ∃ i : nat, l !! i = Some x ∧ f x = true
    ∧ ∀ (j : nat) y, (j < i)%nat → l !! j = Some y → f y = false.
Proof.
  induction l as [|y l IH]; [done|]. simpl.
  destruct (f y) eqn:Hy; simpl.
  - intros [= ->]. exists 0%nat. repeat split; [done|]. intros j z Hj. lia.
  - intros H. destruct (IH H) as (i & Hi & Hx & Hbefore).
    exists (S i). repeat split; try done.
    intros [|j] z Hj; simpl; [by intros [= <-]|].
    apply Hbefore. lia.
Qed.

Lemma head_filter_none {A : Type} (f : A → bool) (l : list A) :
  head (List.filter f l) = None → ∀ y, y ∈ l → f y = false.
Proof.
  induction l as [|z l IH]; intros H y Hin; [by apply elem_of_nil in Hin|].
  simpl in H. destruct (f z) eqn:Hz; [done|].
  apply elem_of_cons in Hin as [->|Hin]; [done|by apply IH].
Qed.

(** X16. What the query of [run_information] can return, whatever is
    stored: a stored run that started strictly before the point in time
    and has an end strictly after it, namely the first such run in table
    order; a run without an end, such as the current one, is never
    returned by the query; and [None] is returned only when no stored
    run covers the point. *)
Theorem run_information_returns_a_covering_run
    (env : Env) (w w' : World) (t : datetime) (res : option RecorderRuns) :
  t ≤ recording_start (self w) →
  run_information env w (Some t) = Return res w' →
  match res with
  | Some found =>
      ∃ (i : nat) e,
        recorder_runs (db w) !! i = Some found
        ∧ start found < t ∧ end_ found = Some e ∧ t < e
        ∧ ∀ (j : nat) earlier, (j < i)%nat →
            recorder_runs (db w) !! j = Some earlier → covers t earlier = false
  | None => ∀ other, other ∈ recorder_runs (db w) → covers t other = false
  end.
Proof.
  intros Ht. unfold run_information.
  assert (Hgt : (t >? recording_start (self w)) = false) by lia.
  rewrite Hgt.
  destruct (get_session (self w)); [|done].
  unfold session_scope, raises. simpl.
  destruct (raises_at env (calls w)); simpl; [done|].
  destruct (head (List.filter (covers t) (recorder_runs (db w)))) as [found|] eqn:Hhead;
    simpl; destruct (raises_at env (S (calls w))); simpl; try done; intros [= <- _].
  - apply head_filter_first in Hhead as (i & Hi & Hcov & Hbefore).
    unfold covers in Hcov. apply andb_prop in Hcov as [Hs He].
    destruct (end_ found) as [e|] eqn:Hend; [|done].
    exists i, e. repeat split; try done; lia.
  - by apply head_filter_none.
Qed.

(** ** The gate *)

(** X17. When start-up has succeeded, the future is resolved with
    [None] either at registration, because the host is already running,
    or by the start listener; the worker then enters the consume loop.
    What the host has delivered while the worker waited is in the
    queue, in order of delivery, and nothing of it has been taken or
    stored; the calls the host makes after the start are not consumed at
    the gate. *)
Theorem start_opens_the_gate
    (split_entity_id : string → string * string)
    (purge_old_data : Z → datetime → list Events * list States → list Events * list States)
    (env : Env) (host : Host) (fuel : nat) (w w1 : World)
    (pre rest : list HostSignal) :
  connect_loop env fuel None w = Some (true, w1) →
  (running host = true →
   run split_entity_id purge_old_data env host fuel w
   = consume split_entity_id purge_old_data env fuel (emit [EAddJob] w1))
  ∧ (running host = false →
     signals host = pre ++ HOMEASSISTANT_START :: rest →
     Forall (λ sig, is_traffic sig = true) pre →
     run split_entity_id purge_old_data env host fuel w
     = consume split_entity_id purge_old_data env fuel
         (enqueue (flat_map (queued_by (purge_days (self w))) pre) (emit [EAddJob] w1))).
Proof.
  intros Hloop.
  pose proof (connect_loop_inv _ _ _ _ _ _ Hloop) as (_ & _ & _ & _ & _ & Hpd & _).
  split.
  - intros Hrunning. unfold run. rewrite Hloop, Hrunning.
    by rewrite (await_result_done _ _ _ result_None).
  - intros Hrunning Hsignals Htraffic. unfold run.
    rewrite Hloop, Hsignals, Hrunning.
    rewrite (await_result_traffic _ _ _ _ (purge_days (self w)));
      [| done | simpl; by rewrite Hpd | done].
    simpl. by rewrite (await_result_done _ _ _ result_None).
Qed.

(** X18. While the host is not running and calls neither the start nor
    the stop listener, the worker waits at the gate: it takes nothing
    from the queue and stores nothing, and every bus event the host
    delivers (and every timer call, when [purge_days] is set) is queued
    behind what was queued before. *)
Theorem gate_waits_for_start_or_stop
    (split_entity_id : string → string * string)
    (purge_old_data : Z → datetime → list Events * list States → list Events * list States)
    (env : Env) (host : Host) (fuel : nat) (w w1 : World) :
  connect_loop env fuel None w = Some (true, w1) →
  running host = false →
  Forall (λ sig, is_traffic sig = true) (signals host) →
  ∃ w',
    run split_entity_id purge_old_data env host fuel w = Blocked w'
    ∧ queue (self w')
      = queue (self w) ++ flat_map (queued_by (purge_days (self w))) (signals host)
    ∧ events (db w') = events (db w)
    ∧ states (db w') = states (db w)
    ∧ db w' = db w1
    ∧ (EQueueGet ∉ trace w1 → EQueueGet ∉ trace w').
Proof.
  intros Hloop Hrunning Htraffic.
  pose proof (connect_loop_inv _ _ _ _ _ _ Hloop)
    as (_ & Hq & _ & Hev & Hst & Hpd & _).
  set (items := flat_map (queued_by (purge_days (self w))) (signals host)).
  destruct (enqueue_queue items (emit [EAddJob] w1)) as (Hq2 & _ & _ & Hdb2 & Htr2).
  exists (enqueue items (emit [EAddJob] w1)).
  split.
  { unfold run. rewrite Hloop, Hrunning.
    rewrite <- (app_nil_r (signals host)).
    rewrite (await_result_traffic _ _ _ _ (purge_days (self w)));
      [| done | simpl; by rewrite Hpd | done].
    done. }
  remember (enqueue items (emit [EAddJob] w1)) as w2 eqn:Hw2. clear Hw2.
  simpl in Hq2, Hdb2, Htr2.
  rewrite Hq2, Hdb2, Htr2, Hq.
  repeat split; try done.
  intros Hno. rewrite not_elem_of_app. split; [done|].
  rewrite not_elem_of_cons. split; [done|apply not_elem_of_nil].
Qed.

(** One call of the host: what it can do to the gate and the queue. *)
Lemma fire_step (sig : HostSignal) (g g' : Gate) (w w' : World) :
  fire sig g w = (g', w') →
  db w' = db w
  ∧ trace w' = trace w
  ∧ purge_timer g' = purge_timer g
  ∧ (stop_listener g = false → stop_listener g' = false)
  ∧ (∀ r, hass_started g = Some r → hass_started g' = Some r)
  ∧ ∃ items,
      queue (self w') = queue (self w) ++ items
      ∧ unfinished_tasks (self w') = (unfinished_tasks (self w) + length items)%nat
      ∧ (length (List.filter is_stop items)
         + (if stop_listener g' then 1 else 0)
         ≤ (if stop_listener g then 1 else 0))%nat
      ∧ (purge_timer g = false → List.filter is_purge items = []).
Proof.
  destruct sig as [| |event|]; simpl.
  - destruct (start_listener g); intros [= <- <-]; simpl.
    + repeat split; try done.
      * intros r Hr. by rewrite Hr.
      * exists []. rewrite app_nil_r. repeat split; try done; lia.
    + repeat split; try done.
      exists []. rewrite app_nil_r. repeat split; try done; lia.
  - destruct (stop_listener g) eqn:Hstop; intros [= <- <-]; simpl.
    + repeat split; try done.
      * intros r Hr. by rewrite Hr.
      * exists [ItemNone]. simpl. repeat split; try done; lia.
    + repeat split; try done.
      exists []. rewrite app_nil_r, Hstop. repeat split; try done; lia.
  - intros [= <- <-]. simpl. repeat split; try done.
    exists [ItemEvent event]. simpl. repeat split; try done; lia.
  - destruct (purge_timer g) eqn:Htimer; intros [= <- <-]; simpl.
    + repeat split; try done.
      exists [ItemPurge]. simpl. repeat split; try done; lia.
    + repeat split; try done.
      exists []. rewrite app_nil_r. repeat split; try done; lia.
Qed.

Lemma deliver_steps (sigs : list HostSignal) :
  ∀ (g g' : Gate) (w w' : World),
  deliver sigs g w = (g', w') →
  db w' = db w
  ∧ trace w' = trace w
  ∧ (∀ r, hass_started g = Some r → hass_started g' = Some r)
  ∧ ∃ items,
      queue (self w') = queue (self w) ++ items
      ∧ unfinished_tasks (self w') = (unfinished_tasks (self w) + length items)%nat
      ∧ (length (List.filter is_stop items) ≤ (if stop_listener g then 1 else 0))%nat
      ∧ (purge_timer g = false → List.filter is_purge items = []).
Proof.
  induction sigs as [|sig sigs IH]; intros g g' w w'; simpl.
  - intros [= <- <-]. repeat split; try done.
    exists []. rewrite app_nil_r. repeat split; try done; simpl; lia.
  - destruct (fire sig g w) as [g1 w1] eqn:Hfire.
    apply fire_step in Hfire
      as (Hdb1 & Htr1 & Htimer1 & _ & Hfut1 & items1 & Hq1 & Hu1 & Hstop1 & Hpurge1).
    intros Hrest.
    apply IH in Hrest as (Hdb & Htr & Hfut & items & Hq & Hu & Hstop & Hpurge).
    split; [congruence|]. split; [congruence|].
    split; [intros r Hr; by apply Hfut, Hfut1|].
    exists (items1 ++ items).
    rewrite Hq, Hq1, Hu, Hu1, length_app, List.filter_app, List.filter_app, length_app,
      <- app_assoc.
    repeat split; try done; try lia.
    intros Htimer. rewrite Hpurge1, Hpurge by congruence. done.
Qed.

(** X19. Whatever the host calls, and in whatever order and however
    often, after [register]: the stop marker is put on the queue at most
    once (the stop listener listens once), a future that is done keeps
    its result, every [put] is counted as an unfinished task, and the
    callbacks touch neither the storage nor the worker's trace. *)
Theorem host_calls_put_one_stop_marker_at_most
    (sigs : list HostSignal) (running_ : bool) (purge_days_ : option Z)
    (g' : Gate) (w w' : World) :
  deliver sigs (register running_ purge_days_) w = (g', w') →
  ∃ items,
    queue (self w') = queue (self w) ++ items
    ∧ unfinished_tasks (self w') = (unfinished_tasks (self w) + length items)%nat
    ∧ (length (List.filter is_stop items) ≤ 1)%nat
    ∧ (running_ = true → hass_started g' = Some result_None)
    ∧ db w' = db w
    ∧ trace w' = trace w.
Proof.
  intros Hdel.
  apply deliver_steps in Hdel as (Hdb & Htr & Hfut & items & Hq & Hu & Hstop & _).
  exists items. repeat split; try done.
  intros ->. by apply Hfut.
Qed.

(** X20. Without [purge_days] no timer is installed, so the host never
    queues a purge marker: the purge markers in the queue are those that
    were there before. *)
Theorem no_purge_marker_without_purge_days
    (sigs : list HostSignal) (running_ : bool) (g' : Gate) (w w' : World) :
  deliver sigs (register running_ None) w = (g', w') →
  List.filter is_purge (queue (self w')) = List.filter is_purge (queue (self w)).
Proof.
  intros Hdel.
  apply deliver_steps in Hdel as (_ & _ & _ & items & Hq & _ & _ & Hpurge).
  rewrite Hq, List.filter_app, Hpurge by done. apply app_nil_r.
Qed.

(** ** The engine and the URL *)

Lemma substring_append (pre needle post : string) :
  String.substring (String.length pre) (String.length needle) (pre +:+ needle +:+ post)
  = needle.
Proof.
  induction pre as [|c pre IH]; simpl; [|done].
  induction needle as [|c needle IH]; simpl; [by destruct post|by f_equal].
Qed.

Lemma substring_is_prefix (needle : string) :
  ∀ hay : string,
  String.substring 0 (String.length needle) hay = needle →
  ∃ post, hay = needle +:+ post.
Proof.
  induction needle as [|c needle IH]; intros hay; simpl.
  - intros _. by exists hay.
  - destruct hay as [|c' hay]; [done|]. intros [= -> H].
    destruct (IH _ H) as (post & ->). by exists post.
Qed.

Lemma substring_is_infix (needle : string) (m : nat) :
  ∀ hay : string,
  String.substring m (String.length needle) hay = needle →
  ∃ pre post, hay = pre +:+ needle +:+ post.
Proof.
  induction m as [|m IH]; intros hay.
  - intros H. apply substring_is_prefix in H as [post ->].
    by exists EmptyString, post.
  - destruct hay as [|c hay]; simpl.
    + intros <-. by exists EmptyString, EmptyString.
    + intros H. destruct (IH _ H) as (pre & post & ->).
      by exists (String c pre), post.
Qed.

(** [needle in hay] is true exactly when [needle] occurs in [hay]. *)
Lemma contains_infix (needle hay : string) :
  needle ≠ EmptyString →
  contains needle hay = true ↔ ∃ pre post, hay = pre +:+ needle +:+ post.
Proof.
  intros Hne. unfold contains.
  destruct (String.index 0 needle hay) as [m|] eqn:Hidx.
  - split; [intros _|done].
    apply String.index_correct1 in Hidx. by apply substring_is_infix in Hidx.
  - split; [done|]. intros (pre & post & ->).
    apply (String.index_correct3 0 (String.length pre)) in Hidx; [|done|lia].
    by rewrite substring_append in Hidx.
Qed.

(** X21. [_setup_connection] calls [create_engine] first.  When that
    call raises, [self], the stored tables and the trace are as before:
    [self.engine] keeps its old value.  When it returns, [self.engine]
    is assigned whether or not creating the tables raises afterwards;
    it is the in-memory engine with the static pool exactly when the
    URL is [sqlite://] or has [:memory:] somewhere in it, and otherwise
    the engine of the URL as configured. *)
Theorem memory_urls_get_the_static_pool (env : Env) (w : World) :
  (raises_at env (calls w) = true →
   ∃ w', _setup_connection env w = Raise w'
         ∧ self w' = self w ∧ db w' = db w ∧ trace w' = trace w)
  ∧ (raises_at env (calls w) = false →
     (engine (self (py_world (_setup_connection env w))) = Some StaticPoolEngine
      ↔ db_url (self w) = "sqlite://"
        ∨ ∃ pre post, db_url (self w) = pre +:+ ":memory:" +:+ post)
     ∧ (engine (self (py_world (_setup_connection env w))) ≠ Some StaticPoolEngine →
        engine (self (py_world (_setup_connection env w)))
        = Some (UrlEngine (db_url (self w))))).
Proof.
  split.
  - intros Hraise. unfold _setup_connection, raises. simpl. rewrite Hraise.
    eexists. split; [reflexivity|]. done.
  - intros Hcreated.
    assert (Heng : engine (self (py_world (_setup_connection env w)))
                   = Some (if String.eqb (db_url (self w)) "sqlite://"
                              || contains ":memory:" (db_url (self w))
                           then StaticPoolEngine else UrlEngine (db_url (self w)))).
    { unfold _setup_connection, raises. simpl. rewrite Hcreated. simpl.
      by destruct (raises_at env (S (calls w))). }
    rewrite Heng.
    rewrite <- (contains_infix ":memory:" (db_url (self w))) by done.
    rewrite <- String.eqb_eq, <- orb_true_iff.
    destruct (String.eqb _ _ || contains _ _); split; try done.
Qed.

(** X22. [async_setup] treats an empty [db_url] like a missing one: in
    both cases, and when there is no recorder section at all, the
    recorder gets the default URL made of the path of
    [home-assistant_v2.db] in the configuration directory; a configured
    URL that is not empty is taken as it is; so the URL of the recorder
    is never empty. *)
Theorem empty_db_url_means_default
    (config_path : string → string) (env : Env) (config : option RecorderConf)
    (d : Database) :
  db_url (self (async_setup config_path env config d)) ≠ EmptyString
  ∧ (∀ conf u, config = Some conf → conf_db_url conf = Some u → u ≠ EmptyString →
       db_url (self (async_setup config_path env config d)) = u)
  ∧ ((config = None
      ∨ ∃ conf, config = Some conf
                ∧ (conf_db_url conf = None ∨ conf_db_url conf = Some EmptyString)) →
     db_url (self (async_setup config_path env config d))
     = "sqlite:///" +:+ config_path "home-assistant_v2.db").
Proof.
  unfold async_setup, setup_db_url. simpl. split; [|split].
  - by destruct (conf_db_url (conf_of config)) as [[|c s]|].
  - intros conf u -> Hu Hne. simpl. rewrite Hu. by destruct u.
  - intros [->|(conf & -> & [Hu|Hu])]; simpl; [done|by rewrite Hu..].
Qed.

(** ** What the loop never changes *)

Lemma loop_return_config
    (split_entity_id : string → string * string)
    (purge_old_data : Z → datetime → list Events * list States → list Events * list States)
    (env : Env) (w w' : World) :
  loop_body split_entity_id purge_old_data env w = Stop (Returned w') →
  purge_days (self w') = purge_days (self w)
  ∧ recording_start (self w') = recording_start (self w)
  ∧ db_url (self w') = db_url (self w)
  ∧ filters (self w') = filters (self w)
  ∧ async_db_ready (self w') = async_db_ready (self w).
Proof.
  unfold loop_body.
  destruct (queue_get (self w)) as [[item r]|] eqn:Hget; [|done].
  apply queue_get_inv in Hget as [_ Hr].
  destruct item as [| |event].
  - unfold _close_run. simpl.
    destruct (get_session r); [|done].
    unfold session_scope, raises. simpl.
    destruct (run_info r); simpl.
    + destruct (raises_at env (calls w)); simpl; [done|].
      destruct (raises_at env (S (calls w))); simpl; [done|].
      destruct (negb _); simpl; [done|].
      unfold _close_connection. simpl.
      destruct (engine r); [|done].
      unfold task_done, queue_task_done. simpl.
      destruct (unfinished_tasks r); [done|].
      intros [= <-]. simpl. by rewrite Hr.
    + by destruct (raises_at env (calls w)).
  - by destruct (call_purge _ _ _).
  - event_branches ltac:(intros H; by apply task_done_continue_never_returns in H)
                   ltac:(intros H; by apply store_never_returns in H).
Qed.

(** X23. The consume loop never changes what the recorder was
    configured with, and never takes readiness back: through every pass,
    the returning one included, [purge_days], [recording_start],
    [db_url] and the filter lists are as they were, and
    [wait_connection_ready] stays done once it is done, also after the
    connection has been closed. *)
Theorem loop_keeps_configuration_and_readiness
    (split_entity_id : string → string * string)
    (purge_old_data : Z → datetime → list Events * list States → list Events * list States)
    (env : Env) (w w' : World) :
  loop_reaches split_entity_id purge_old_data env w w' →
  purge_days (self w') = purge_days (self w)
  ∧ recording_start (self w') = recording_start (self w)
  ∧ db_url (self w') = db_url (self w)
  ∧ filters (self w') = filters (self w)
  ∧ wait_connection_ready_done w' = wait_connection_ready_done w.
Proof.
  unfold wait_connection_ready_done.
  induction 1 as [w | w w1 w' Hstep _ IH | w w' Hret].
  - done.
  - apply loop_continue_keeps in Hstep as (? & ? & _ & _ & _ & Hself & _).
    rewrite Hself in IH. exact IH.
  - by apply loop_return_config in Hret.
Qed.

(** ** One session after another *)

Lemma ended_runs_unchanged (t : datetime) (runs : list RecorderRuns) :
  List.filter end_is_None runs = [] →
  (λ run, if end_is_None run then end_unfinished t run else run) <$> runs = runs.
Proof.
  induction runs as [|run runs IH]; [done|]. simpl.
  destruct (end_is_None run); [done|]. intros H. f_equal. by apply IH.
Qed.

(** X24. A session that follows an orderly shutdown finds no run to
    recover: its start-up, however many attempts it takes, leaves every
    stored run as the shutdown left it, marks none [closed_incorrect],
    and only appends its own run. *)
Theorem session_after_orderly_shutdown_changes_no_run
    (split_entity_id : string → string * string)
    (purge_old_data : Z → datetime → list Events * list States → list Events * list States)
    (env env2 : Env) (fuel : nat) (w w' w2 w3 : World) :
  loop_body split_entity_id purge_old_data env w = Stop (Returned w') →
  run_tracked w →
  db w2 = db w' →
  connect_loop env2 fuel None w2 = Some (true, w3) →
  ∃ new,
    recorder_runs (db w3) = recorder_runs (db w') ++ [new]
    ∧ start new = recording_start (self w2)
    ∧ end_ new = None
    ∧ closed_incorrect new = false
    ∧ run_info (self w3) = Some new.
Proof.
  intros Hret Htracked Hdb Hloop.
  apply loop_return_closes in Hret as (_ & Hnone & _); [|done].
  apply connect_loop_success_rows in Hloop
    as (new & Hruns & _ & _ & Hinfo & Hstart & Hend & Hclosed & _).
  exists new. rewrite Hruns, Hdb.
  rewrite ended_runs_unchanged by exact Hnone. done.
Qed.


(** ** The further properties at work *)

(** X1 without a recorder section. *)
Lemma unconfigured_filter_stores_everything_witness :
  let w := plain_world [ItemEvent (state_changed "switch.x" "on" 501)] in
  let r := with_queue [] 1%nat (self w) in
  (filters (self w) = filters (self (async_setup (λ p, p) calm None empty_db))
   ∧ queue_get (self w) = Some (ItemEvent (state_changed "switch.x" "on" 501), r)
   ∧ event_type (state_changed "switch.x" "on" 501) ≠ EVENT_TIME_CHANGED)
  ∧ loop_body split_at_dot purge_older calm w
    = store calm (state_changed "switch.x" "on" 501)
        (emit [EQueueGet] (set_self (λ _, r) w)).
Proof.
  intros w r.
  assert (H1 : filters (self w) = filters (self (async_setup (λ p, p) calm None empty_db)))
    by (vm_compute; reflexivity).
  assert (H2 : queue_get (self w)
               = Some (ItemEvent (state_changed "switch.x" "on" 501), r))
    by (vm_compute; reflexivity).
  assert (H3 : event_type (state_changed "switch.x" "on" 501) ≠ EVENT_TIME_CHANGED)
    by discriminate.
  split; [repeat (match goal with |- _ ∧ _ => split end); assumption|].
  exact (proj2 (unconfigured_filter_stores_everything split_at_dot purge_older
                  (λ p, p) calm empty_db None (or_introl eq_refl))
           calm w _ r H1 H2 H3).
Defined.

(** X3 at the attic light, which is included by id and by domain and
    excluded by id. *)
Lemma excluded_entity_is_dropped_witness :
  let event := state_changed "light.attic" "on" 501 in
  let w := attic_world [ItemEvent event] in
  let r := with_queue [] 1%nat (self w) in
  (queue_get (self w) = Some (ItemEvent event, r)
   ∧ data event !! ATTR_ENTITY_ID = Some "light.attic"
   ∧ "light.attic" ∈ exclude (filters (self w))
   ∧ counted w)
  ∧ ∃ w',
      loop_body split_at_dot purge_older calm w = Continue w'
      ∧ db w' = db w
      ∧ calls w' = calls w
      ∧ trace w' = trace w ++ [EQueueGet; ETaskDone].
Proof.
  intros event w r.
  assert (H1 : queue_get (self w) = Some (ItemEvent event, r)) by (vm_compute; reflexivity).
  assert (H2 : data event !! ATTR_ENTITY_ID = Some "light.attic")
    by (vm_compute; reflexivity).
  assert (H3 : "light.attic" ∈ exclude (filters (self w)))
    by (apply py_in_decide; vm_compute; reflexivity).
  assert (H4 : counted w) by (vm_compute; exact (le_n 1)).
  split; [repeat (match goal with |- _ ∧ _ => split end); assumption|].
  exact (excluded_entity_is_dropped split_at_dot purge_older calm w event r
           "light.attic" H1 H2 H3 H4).
Defined.

(** X4 at a switch, with the domain [sensor] included. *)
Lemma include_entities_cannot_extend_include_domains_witness :
  let event := state_changed "switch.x" "on" 501 in
  let w := sensor_world [ItemEvent event] in
  let r := with_queue [] 1%nat (self w) in
  (queue_get (self w) = Some (ItemEvent event, r)
   ∧ data event !! ATTR_ENTITY_ID = Some "switch.x"
   ∧ include_d (filters (self w)) ≠ []
   ∧ (fst (split_at_dot "switch.x") ∉ include_d (filters (self w)))
   ∧ counted w)
  ∧ ∃ w',
      loop_body split_at_dot purge_older calm w = Continue w'
      ∧ db w' = db w
      ∧ calls w' = calls w
      ∧ trace w' = trace w ++ [EQueueGet; ETaskDone].
Proof.
  intros event w r.
  assert (H1 : queue_get (self w) = Some (ItemEvent event, r)) by (vm_compute; reflexivity).
  assert (H2 : data event !! ATTR_ENTITY_ID = Some "switch.x")
    by (vm_compute; reflexivity).
  assert (H3 : include_d (filters (self w)) ≠ [])
    by (apply truthy_nonempty; vm_compute; reflexivity).
  assert (H4 : fst (split_at_dot "switch.x") ∉ include_d (filters (self w)))
    by (apply py_in_false; vm_compute; reflexivity).
  assert (H5 : counted w) by (vm_compute; exact (le_n 1)).
  split; [repeat (match goal with |- _ ∧ _ => split end); assumption|].
  exact (include_entities_cannot_extend_include_domains split_at_dot purge_older calm
           w event r "switch.x" H1 H2 H3 H4 H5).
Defined.

(** X5 at a switch, with the domain [light] excluded and the kitchen
    light the only included entity. *)
Lemma include_entities_do_not_restrict_beside_an_exclude_witness :
  let event := state_changed "switch.x" "on" 501 in
  let w := kitchen_world [ItemEvent event] in
  let r := with_queue [] 1%nat (self w) in
  (queue_get (self w) = Some (ItemEvent event, r)
   ∧ event_type event ≠ EVENT_TIME_CHANGED
   ∧ data event !! ATTR_ENTITY_ID = Some "switch.x"
   ∧ exclude (filters (self w)) ≠ []
   ∧ ("switch.x" ∉ exclude (filters (self w)))
   ∧ (fst (split_at_dot "switch.x") ∉ exclude (filters (self w)))
   ∧ include_d (filters (self w)) = [])
  ∧ loop_body split_at_dot purge_older calm w
    = store calm event (emit [EQueueGet] (set_self (λ _, r) w)).
Proof.
  intros event w r.
  assert (H1 : queue_get (self w) = Some (ItemEvent event, r)) by (vm_compute; reflexivity).
  assert (H2 : event_type event ≠ EVENT_TIME_CHANGED) by discriminate.
  assert (H3 : data event !! ATTR_ENTITY_ID = Some "switch.x")
    by (vm_compute; reflexivity).
  assert (H4 : exclude (filters (self w)) ≠ [])
    by (apply truthy_nonempty; vm_compute; reflexivity).
  assert (H5 : "switch.x" ∉ exclude (filters (self w)))
    by (apply py_in_false; vm_compute; reflexivity).
  assert (H6 : fst (split_at_dot "switch.x") ∉ exclude (filters (self w)))
    by (apply py_in_false; vm_compute; reflexivity).
  assert (H7 : include_d (filters (self w)) = []) by (vm_compute; reflexivity).
  split; [repeat (match goal with |- _ ∧ _ => split end); assumption|].
  exact (include_entities_do_not_restrict_beside_an_exclude split_at_dot purge_older calm
           w event r "switch.x" H1 H2 H3 H4 H5 H6 (or_introl H7)).
Defined.

(** X6 at a switch and a sensor, with the domain [sensor] included. *)
Lemma drained_queue_is_stored_in_order_witness :
  let evs := [state_changed "switch.x" "on" 501; state_changed "sensor.y" "21" 502] in
  let w := sensor_world (ItemEvent <$> evs) in
  (serving w
   ∧ queue (self w) = ItemEvent <$> evs
   ∧ unfinished_tasks (self w) = length evs
   ∧ (∀ n, raises_at calm n = false)
   ∧ (length evs < 3)%nat)
  ∧ ∃ w' new_events new_states,
      consume split_at_dot purge_older calm 3 w = Blocked w'
      ∧ block_till_done_returns w' = true
      ∧ events (db w') = events (db w) ++ new_events
      ∧ set_event_id None <$> new_events
        = Events_from_event <$> List.filter (accepted split_at_dot (filters (self w))) evs
      ∧ states (db w') = states (db w) ++ new_states.
Proof.
  intros evs w.
  assert (H1 : serving w) by serving_by_computation.
  assert (H2 : queue (self w) = ItemEvent <$> evs) by (vm_compute; reflexivity).
  assert (H3 : unfinished_tasks (self w) = length evs) by (vm_compute; reflexivity).
  assert (H4 : ∀ n, raises_at calm n = false) by reflexivity.
  assert (H5 : (length evs < 3)%nat) by exact (le_n 3).
  split; [repeat (match goal with |- _ ∧ _ => split end); assumption|].
  destruct (drained_queue_is_stored_in_order split_at_dot purge_older calm evs 3%nat w
              H1 H2 H3 H4 H5)
    as (w' & ne & ns & Hc & _ & Hdone & Hev & Hne & _ & Hst & _).
  exists w', ne, ns. repeat (match goal with |- _ ∧ _ => split end); assumption.
Defined.

(** X7 at a queue of an event and a purge marker. *)
Lemma unfinished_tasks_are_the_purge_markers_witness :
  let w := plain_world [ItemEvent (service_registered 501); ItemPurge] in
  let w' := outcome_world (consume split_at_dot purge_older calm 3 w) in
  (unfinished_tasks (self w) = length (queue (self w))
   ∧ consume split_at_dot purge_older calm 3 w = Blocked w')
  ∧ queue (self w') = []
  ∧ unfinished_tasks (self w') = length (List.filter is_purge (queue (self w))).
Proof.
  intros w w'.
  assert (H1 : unfinished_tasks (self w) = length (queue (self w)))
    by (vm_compute; reflexivity).
  assert (H2 : consume split_at_dot purge_older calm 3 w = Blocked w')
    by (vm_compute; reflexivity).
  split; [split; assumption|].
  destruct (unfinished_tasks_are_the_purge_markers split_at_dot purge_older calm 3%nat
              w w' H1 H2) as (Hq & Hu & _).
  split; assumption.
Defined.

(** X8 with a storage layer that raises when the scope of the event
    begins. *)
Lemma store_failure_ends_the_worker_witness :
  let event := service_registered 501 in
  let w := plain_world [ItemEvent event; ItemNone] in
  let r := with_queue [ItemNone] 2%nat (self w) in
  (queue_get (self w) = Some (ItemEvent event, r)
   ∧ accepted split_at_dot (filters (self w)) event = true
   ∧ serving w ∧ counted w
   ∧ raises_at (raising_at 5) (calls w) = true)
  ∧ ∃ w',
      consume split_at_dot purge_older (raising_at 5) 1 w = Raised w'
      ∧ db w' = db w
      ∧ self w' = r
      ∧ block_till_done_returns w' = false.
Proof.
  intros event w r.
  assert (H1 : queue_get (self w) = Some (ItemEvent event, r)) by (vm_compute; reflexivity).
  assert (H2 : accepted split_at_dot (filters (self w)) event = true)
    by (vm_compute; reflexivity).
  assert (H3 : serving w) by serving_by_computation.
  assert (H4 : counted w) by (vm_compute; exact (le_n 2)).
  assert (H5 : raises_at (raising_at 5) (calls w) = true) by (vm_compute; reflexivity).
  split; [repeat (match goal with |- _ ∧ _ => split end); assumption|].
  destruct (store_failure_ends_the_worker split_at_dot purge_older (raising_at 5) 0%nat
              w event r H1 H2 H3 H4 (or_introl H5))
    as (w' & tr & Hc & Hdb & Hself & _ & _ & Hjoin).
  exists w'. repeat (match goal with |- _ ∧ _ => split end); assumption.
Defined.

(** X9 with a storage layer that raises at the commit of [_close_run]. *)
Lemma close_run_failure_leaves_the_run_open_witness :
  let w := plain_world [ItemNone] in
  let r := with_queue [] 1%nat (self w) in
  (queue_get (self w) = Some (ItemNone, r)
   ∧ serving w
   ∧ raises_at (raising_at 6) (S (calls w)) = true)
  ∧ ∃ w' current,
      loop_body split_at_dot purge_older (raising_at 6) w = Stop (Raised w')
      ∧ db w' = db w
      ∧ unfinished_runs (db w') = [current]
      ∧ engine (self w') = engine (self w)
      ∧ get_session (self w') = get_session (self w).
Proof.
  intros w r.
  assert (H1 : queue_get (self w) = Some (ItemNone, r)) by (vm_compute; reflexivity).
  assert (H2 : serving w) by serving_by_computation.
  assert (H3 : raises_at (raising_at 6) (S (calls w)) = true) by (vm_compute; reflexivity).
  split; [repeat (match goal with |- _ ∧ _ => split end); assumption|].
  destruct (close_run_failure_leaves_the_run_open split_at_dot purge_older (raising_at 6)
              w r H1 H2 (or_intror H3))
    as (w' & current & Hstep & Hdb & Hopen & Heng & Hsf & _).
  exists w', current. repeat (match goal with |- _ ∧ _ => split end); assumption.
Defined.

(** X10 at a purge marker. *)
Lemma calm_pass_never_raises_witness :
  let w := plain_world [ItemPurge] in
  let r := with_queue [] 1%nat (self w) in
  (queue_get (self w) = Some (ItemPurge, r)
   ∧ serving w ∧ counted w
   ∧ is_Some (purge_days (self w))
   ∧ (∀ n, raises_at calm n = false))
  ∧ ∃ w',
      (ItemPurge ≠ ItemNone ∧ loop_body split_at_dot purge_older calm w = Continue w')
      ∨ (ItemPurge = ItemNone
         ∧ loop_body split_at_dot purge_older calm w = Stop (Returned w')).
Proof.
  intros w r.
  assert (H1 : queue_get (self w) = Some (ItemPurge, r)) by (vm_compute; reflexivity).
  assert (H2 : serving w) by serving_by_computation.
  assert (H3 : counted w) by (vm_compute; exact (le_n 1)).
  assert (H4 : is_Some (purge_days (self w))) by (vm_compute; eauto).
  assert (H5 : ∀ n, raises_at calm n = false) by reflexivity.
  split; [repeat (match goal with |- _ ∧ _ => split end); assumption|].
  exact (calm_pass_never_raises split_at_dot purge_older calm w ItemPurge r
           H1 H2 H3 (λ _, H4) H5).
Defined.

(** X11 with a storage layer that always raises, on the database of
    the crashed session. *)
Lemma fatal_startup_leaves_storage_untouched_witness :
  let w := restart_world [] in
  let w' := default w (snd <$> connect_loop broken 10 None w) in
  connect_loop broken 10 None w = Some (false, w')
  ∧ db w' = db w.
Proof.
  intros w w'.
  assert (H : connect_loop broken 10 None w = Some (false, w'))
    by (vm_compute; reflexivity).
  split; [exact H|].
  exact (fatal_startup_leaves_storage_untouched broken 10 w w' H).
Defined.

(** X12 twice on the database of the crashed session: with a storage
    layer that always raises, [create_engine] never returns and the
    engine is still [None]; with one in which creating the tables
    raises every time, the engine of the last attempt stays. *)
Lemma fatal_startup_never_disposes_the_engine_witness :
  let w := restart_world [] in
  let w1 := default w (snd <$> connect_loop broken 10 None w) in
  let w2 := default w (snd <$> connect_loop stumbling 10 None w) in
  (connect_loop broken 10 None w = Some (false, w1)
   ∧ connect_loop stumbling 10 None w = Some (false, w2))
  ∧ (∃ tr, trace w1 = trace w ++ tr
           ∧ (EDispose ∉ tr)
           ∧ (is_Some (engine (self w1))
              ↔ is_Some (engine (self w)) ∨ ECreateEngine ∈ tr))
  ∧ (∃ tr, trace w2 = trace w ++ tr
           ∧ (EDispose ∉ tr)
           ∧ (is_Some (engine (self w2))
              ↔ is_Some (engine (self w)) ∨ ECreateEngine ∈ tr)).
Proof.
  intros w w1 w2.
  assert (H1 : connect_loop broken 10 None w = Some (false, w1))
    by (vm_compute; reflexivity).
  assert (H2 : connect_loop stumbling 10 None w = Some (false, w2))
    by (vm_compute; reflexivity).
  split; [split; assumption|].
  split.
  - exact (fatal_startup_never_disposes_the_engine broken 10 w w1 H1).
  - exact (fatal_startup_never_disposes_the_engine stumbling 10 w w2 H2).
Defined.

(** X13 with a storage layer that raises at its first call only. *)
Lemma successful_startup_adds_one_run_witness :
  let w := restart_world [] in
  let w' := default w (snd <$> connect_loop (raising_at 0) 10 None w) in
  connect_loop (raising_at 0) 10 None w = Some (true, w')
  ∧ ∃ new,
      recorder_runs (db w') =
        ((λ run, if end_is_None run
                 then end_unfinished (recording_start (self w)) run else run)
           <$> recorder_runs (db w)) ++ [new]
      ∧ events (db w') = events (db w)
      ∧ states (db w') = states (db w)
      ∧ run_info (self w') = Some new
      ∧ start new = recording_start (self w)
      ∧ end_ new = None
      ∧ closed_incorrect new = false.
Proof.
  intros w w'.
  assert (H : connect_loop (raising_at 0) 10 None w = Some (true, w'))
    by (vm_compute; reflexivity).
  split; [exact H|].
  exact (successful_startup_adds_one_run (raising_at 0) 10 None w w' H).
Defined.

(** X14 at the restart on [crashed_db], followed by an event and the
    stop marker. *)
Lemma orderly_session_finishes_its_own_run_only_witness :
  let w := restart_world [ItemEvent (service_registered 501); ItemNone] in
  let w1 := started w in
  let w3 := outcome_world (consume split_at_dot purge_older calm 3 w1) in
  (connect_loop calm 1 None w = Some (true, w1)
   ∧ loop_reaches split_at_dot purge_older calm w1 w3
   ∧ run_info (self w3) = None)
  ∧ ∃ others new t,
      recorder_runs (db w1) = others ++ [new]
      ∧ recorder_runs (db w3) = others ++ [set_end (Some t) new]
      ∧ start new = recording_start (self w)
      ∧ closed_incorrect new = false.
Proof.
  intros w w1 w3.
  assert (H1 : connect_loop calm 1 None w = Some (true, w1)) by (vm_compute; reflexivity).
  assert (H2 : loop_reaches split_at_dot purge_older calm w1 w3).
  { apply reaches_continue
      with (w1 := step_world (loop_body split_at_dot purge_older calm w1));
      [vm_compute; reflexivity|].
    apply reaches_return. vm_compute. reflexivity. }
  assert (H3 : run_info (self w3) = None) by (vm_compute; reflexivity).
  split; [repeat (match goal with |- _ ∧ _ => split end); assumption|].
  exact (orderly_session_finishes_its_own_run_only split_at_dot purge_older calm calm 1
           w w1 w1 w3 H1 eq_refl eq_refl H2 H3).
Defined.

(** X16 at the instant 400, after the restart on [crashed_db]. *)
Lemma run_information_returns_a_covering_run_witness :
  let w := restarted_world [] in
  let prior := {| run_id := Some 2%nat; start := 300; end_ := Some 500;
                  closed_incorrect := true; created := 300 |} in
  let w' := py_world (run_information calm w (Some 400)) in
  (400 ≤ recording_start (self w)
   ∧ run_information calm w (Some 400) = Return (Some prior) w')
  ∧ ∃ (i : nat) e,
      recorder_runs (db w) !! i = Some prior
      ∧ start prior < 400 ∧ end_ prior = Some e ∧ 400 < e
      ∧ ∀ (j : nat) earlier, (j < i)%nat →
          recorder_runs (db w) !! j = Some earlier → covers 400 earlier = false.
Proof.
  intros w prior w'.
  assert (H1 : 400 ≤ recording_start (self w)) by (vm_compute; discriminate).
  assert (H2 : run_information calm w (Some 400) = Return (Some prior) w')
    by (vm_compute; reflexivity).
  split; [split; assumption|].
  exact (run_information_returns_a_covering_run calm w w' 400 (Some prior) H1 H2).
Defined.

(** X17 with a host that delivers an event and a timer call before it
    calls the start listener. *)
Lemma start_opens_the_gate_witness :
  let w := start_world 500 (Some 10) ∅ ∅
             [ItemEvent (state_changed "light.kitchen" "on" 501)] empty_db in
  let pre := [BUS_EVENT (service_registered 502); TIME_INTERVAL] in
  let host := {| running := false;
                 signals := pre ++ HOMEASSISTANT_START :: [HOMEASSISTANT_STOP] |} in
  (connect_loop calm 5 None w = Some (true, started w)
   ∧ running host = false
   ∧ signals host = pre ++ HOMEASSISTANT_START :: [HOMEASSISTANT_STOP]
   ∧ Forall (λ sig, is_traffic sig = true) pre)
  ∧ run split_at_dot purge_older calm host 5 w
    = consume split_at_dot purge_older calm 5
        (enqueue (flat_map (queued_by (purge_days (self w))) pre)
                 (emit [EAddJob] (started w))).
Proof.
  intros w pre host.
  assert (H1 : connect_loop calm 5 None w = Some (true, started w))
    by (vm_compute; reflexivity).
  assert (H2 : running host = false) by reflexivity.
  assert (H3 : signals host = pre ++ HOMEASSISTANT_START :: [HOMEASSISTANT_STOP])
    by reflexivity.
  assert (H4 : Forall (λ sig, is_traffic sig = true) pre) by (repeat constructor).
  split; [repeat (match goal with |- _ ∧ _ => split end); assumption|].
  exact (proj2 (start_opens_the_gate split_at_dot purge_older calm host 5 w (started w)
                  pre [HOMEASSISTANT_STOP] H1) H2 H3 H4).
Defined.

(** X18 with a host that delivers an event and a timer call and
    nothing else. *)
Lemma gate_waits_for_start_or_stop_witness :
  let w := start_world 500 (Some 10) ∅ ∅
             [ItemEvent (state_changed "light.kitchen" "on" 501)] empty_db in
  let host := {| running := false;
                 signals := [BUS_EVENT (service_registered 502); TIME_INTERVAL] |} in
  (connect_loop calm 5 None w = Some (true, started w)
   ∧ running host = false
   ∧ Forall (λ sig, is_traffic sig = true) (signals host))
  ∧ ∃ w',
      run split_at_dot purge_older calm host 5 w = Blocked w'
      ∧ queue (self w')
        = queue (self w) ++ flat_map (queued_by (purge_days (self w))) (signals host)
      ∧ events (db w') = events (db w)
      ∧ states (db w') = states (db w).
Proof.
  intros w host.
  assert (H1 : connect_loop calm 5 None w = Some (true, started w))
    by (vm_compute; reflexivity).
  assert (H2 : running host = false) by reflexivity.
  assert (H3 : Forall (λ sig, is_traffic sig = true) (signals host))
    by (repeat constructor).
  split; [repeat (match goal with |- _ ∧ _ => split end); assumption|].
  destruct (gate_waits_for_start_or_stop split_at_dot purge_older calm host 5 w (started w)
              H1 H2 H3)
    as (w' & Hrun & Hq & Hev & Hst & _).
  exists w'. repeat (match goal with |- _ ∧ _ => split end); assumption.
Defined.

(** X19 with a host that calls the stop listener twice. *)
Lemma host_calls_put_one_stop_marker_at_most_witness :
  let w := plain_world [] in
  let sigs := [HOMEASSISTANT_STOP; BUS_EVENT (service_registered 502);
               HOMEASSISTANT_STOP; HOMEASSISTANT_START] in
  let g' := fst (deliver sigs (register false (Some 10)) w) in
  let w' := snd (deliver sigs (register false (Some 10)) w) in
  deliver sigs (register false (Some 10)) w = (g', w')
  ∧ ∃ items,
      queue (self w') = queue (self w) ++ items
      ∧ unfinished_tasks (self w') = (unfinished_tasks (self w) + length items)%nat
      ∧ (length (List.filter is_stop items) ≤ 1)%nat
      ∧ db w' = db w.
Proof.
  intros w sigs g' w'.
  assert (H : deliver sigs (register false (Some 10)) w = (g', w'))
    by (vm_compute; reflexivity).
  split; [exact H|].
  destruct (host_calls_put_one_stop_marker_at_most sigs false (Some 10) g' w w' H)
    as (items & Hq & Hu & Hstop & _ & Hdb & _).
  exists items. repeat (match goal with |- _ ∧ _ => split end); assumption.
Defined.

(** X20 with a host whose timer would fire. *)
Lemma no_purge_marker_without_purge_days_witness :
  let w := plain_world [] in
  let sigs := [TIME_INTERVAL; BUS_EVENT (service_registered 502); TIME_INTERVAL] in
  let g' := fst (deliver sigs (register true None) w) in
  let w' := snd (deliver sigs (register true None) w) in
  deliver sigs (register true None) w = (g', w')
  ∧ List.filter is_purge (queue (self w')) = List.filter is_purge (queue (self w)).
Proof.
  intros w sigs g' w'.
  assert (H : deliver sigs (register true None) w = (g', w'))
    by (vm_compute; reflexivity).
  split; [exact H|].
  exact (no_purge_marker_without_purge_days sigs true g' w w' H).
Defined.

(** X21 at a recorder configured with [sqlite:///:memory:]: when
    [create_engine] raises nothing is assigned, and when it returns the
    engine is the in-memory one. *)
Lemma memory_urls_get_the_static_pool_witness :
  let w := memory_world in
  (raises_at broken (calls w) = true ∧ raises_at calm (calls w) = false)
  ∧ (∃ w', _setup_connection broken w = Raise w'
           ∧ self w' = self w ∧ db w' = db w ∧ trace w' = trace w)
  ∧ engine (self (py_world (_setup_connection calm w))) = Some StaticPoolEngine.
Proof.
  intros w.
  assert (H1 : raises_at broken (calls w) = true) by reflexivity.
  assert (H2 : raises_at calm (calls w) = false) by reflexivity.
  assert (H3 : db_url (self w) = "sqlite:///" +:+ ":memory:" +:+ "")
    by (vm_compute; reflexivity).
  split; [split; assumption|].
  split.
  - exact (proj1 (memory_urls_get_the_static_pool broken w) H1).
  - exact (proj2 (proj1 (proj2 (memory_urls_get_the_static_pool calm w) H2))
             (or_intror (ex_intro _ "sqlite:///" (ex_intro _ "" H3)))).
Defined.

(** X23 through a pass that stores an event and the pass that
    returns. *)
Lemma loop_keeps_configuration_and_readiness_witness :
  let w := kitchen_world [ItemEvent (service_registered 501); ItemNone] in
  let w' := outcome_world (consume split_at_dot purge_older calm 3 w) in
  loop_reaches split_at_dot purge_older calm w w'
  ∧ purge_days (self w') = purge_days (self w)
  ∧ recording_start (self w') = recording_start (self w)
  ∧ db_url (self w') = db_url (self w)
  ∧ filters (self w') = filters (self w)
  ∧ wait_connection_ready_done w' = wait_connection_ready_done w.
Proof.
  intros w w'.
  assert (H : loop_reaches split_at_dot purge_older calm w w').
  { apply reaches_continue
      with (w1 := step_world (loop_body split_at_dot purge_older calm w));
      [vm_compute; reflexivity|].
    apply reaches_return. vm_compute. reflexivity. }
  split; [exact H|].
  exact (loop_keeps_configuration_and_readiness split_at_dot purge_older calm w w' H).
Defined.

(** X24 at the session that follows an orderly shutdown. *)
Lemma session_after_orderly_shutdown_changes_no_run_witness :
  let w := restarted_world [ItemNone] in
  let w' := step_world (loop_body split_at_dot purge_older calm w) in
  let w2 := next_session (db w') in
  (loop_body split_at_dot purge_older calm w = Stop (Returned w')
   ∧ run_tracked w
   ∧ connect_loop calm 1 None w2 = Some (true, started w2))
  ∧ ∃ new,
      recorder_runs (db (started w2)) = recorder_runs (db w') ++ [new]
      ∧ start new = recording_start (self w2)
      ∧ end_ new = None
      ∧ closed_incorrect new = false
      ∧ run_info (self (started w2)) = Some new.
Proof.
  intros w w' w2.
  assert (H1 : loop_body split_at_dot purge_older calm w = Stop (Returned w'))
    by (vm_compute; reflexivity).
  assert (H2 : run_tracked w).
  { eexists. split; [vm_compute; reflexivity|].
    split; [vm_compute; eauto|vm_compute; reflexivity]. }
  assert (H3 : connect_loop calm 1 None w2 = Some (true, started w2))
    by (vm_compute; reflexivity).
  assert (H4 : db w2 = db w') by (vm_compute; reflexivity).
  split; [repeat (match goal with |- _ ∧ _ => split end); assumption|].
  exact (session_after_orderly_shutdown_changes_no_run split_at_dot purge_older calm calm
           1 w w' w2 (started w2) H1 H2 H4 H3).
Defined.
